(** * Live-Audio-Broadcast: lifecycle, notification fan-out, relay table

    A shallow embedding of the broadcast controller
    ([src/controllers/broadcast.controller.js]), the queue workers
    ([src/worker.js]), the scheduler ([src/scheduler.js]) and the HLS relay
    service ([src/services/hls.js]).  The relational store, the two BullMQ
    queues and the in-process relay table are explicit state; handlers are
    written in a small state-and-exception monad so that what a handler has
    already written survives the exception it throws afterwards. *)

From Stdlib Require Import ZArith String Ascii Bool Lia.
From Stdlib Require QArith Qround DecimalString DecimalZ DecimalPos.
From stdpp Require Import gmap strings list fin_maps sorting.

Local Open Scope string_scope.
Local Open Scope list_scope.

(** ** JavaScript values used by the handlers *)

Module Js.

(** [!s] for a value that is [undefined]/[null] or a string: only the
    empty string and the missing value are falsy. *)
Definition truthy (v : option string) : bool :=
  match v with
  | Some s => negb (String.eqb s "")
  | None => false
  end.

(** [a ?? b] *)
Definition coalesce {A} (a b : option A) : option A :=
  match a with
  | Some _ => a
  | None => b
  end.

(** [a ?? b] with a non-nullish default. *)
Definition coalesce_def {A} (a : option A) (b : A) : A :=
  match a with
  | Some x => x
  | None => b
  end.

(** [a || b] on strings. *)
Definition or_else (a b : option string) : option string :=
  if truthy a then a else b.

End Js.

(** ** Dates

    An instant is the number of milliseconds since the epoch.  The calendar
    fields of an instant and [Date.UTC] follow the date arithmetic of the
    language (ECMAScript, Date objects): the proleptic Gregorian calendar,
    months counted from 0. *)

Module JsDate.
Local Open Scope Z_scope.

Definition msPerDay : Z := 86400000.

(** The instants a [Date] can hold; beyond them it is an Invalid Date. *)
Definition maxTime : Z := 8640000000000000.

Definition valid (t : Z) : bool := (- maxTime <=? t) && (t <=? maxTime).

Definition Day (t : Z) : Z := t / msPerDay.

(** The day on which year [y] begins. *)
Definition DayFromYear (y : Z) : Z :=
  365 * (y - 1970) + (y - 1969) / 4 - (y - 1901) / 100 + (y - 1601) / 400.

Definition InLeapYear (y : Z) : bool :=
  (y mod 4 =? 0) && (negb (y mod 100 =? 0) || (y mod 400 =? 0)).

(** The year a day lies in: the last year that begins on or before it,
    found from an estimate that is off by one at most. *)
Definition YearFromDay (d : Z) : Z :=
  let y := 1970 + d * 400 / 146097 in
  if d <? DayFromYear y then y - 1
  else if DayFromYear (y + 1) <=? d then y + 1
  else y.

(** The day within its year on which month [m] begins. *)
Definition monthStart (leap : bool) (m : Z) : Z :=
  let l := if leap then 1 else 0 in
  match m with
  | 0 => 0 | 1 => 31 | 2 => 59 + l | 3 => 90 + l | 4 => 120 + l | 5 => 151 + l
  | 6 => 181 + l | 7 => 212 + l | 8 => 243 + l | 9 => 273 + l | 10 => 304 + l
  | _ => 334 + l
  end.

Definition MonthFromDay (leap : bool) (dayWithinYear : Z) : Z :=
  if dayWithinYear <? monthStart leap 1 then 0
  else if dayWithinYear <? monthStart leap 2 then 1
  else if dayWithinYear <? monthStart leap 3 then 2
  else if dayWithinYear <? monthStart leap 4 then 3
  else if dayWithinYear <? monthStart leap 5 then 4
  else if dayWithinYear <? monthStart leap 6 then 5
  else if dayWithinYear <? monthStart leap 7 then 6
  else if dayWithinYear <? monthStart leap 8 then 7
  else if dayWithinYear <? monthStart leap 9 then 8
  else if dayWithinYear <? monthStart leap 10 then 9
  else if dayWithinYear <? monthStart leap 11 then 10
  else 11.

Definition getUTCFullYear (t : Z) : Z := YearFromDay (Day t).

Definition DayWithinYear (t : Z) : Z := Day t - DayFromYear (getUTCFullYear t).

Definition getUTCMonth (t : Z) : Z :=
  MonthFromDay (InLeapYear (getUTCFullYear t)) (DayWithinYear t).

Definition getUTCDate (t : Z) : Z :=
  DayWithinYear t - monthStart (InLeapYear (getUTCFullYear t)) (getUTCMonth t) + 1.

(** The day of a calendar date; a month beyond December carries into the
    year, a date beyond the end of the month into the days that follow. *)
Definition MakeDay (year month date : Z) : Z :=
  let ym := year + month / 12 in
  let mn := month mod 12 in
  DayFromYear ym + monthStart (InLeapYear ym) mn + date - 1.

(** [Date.UTC(year, month, date, 0, 0, 0)]: a year from 0 to 99 is read as
    1900 + year. *)
Definition UTC (year month date : Z) : Z :=
  let yr := if (0 <=? year) && (year <=? 99) then 1900 + year else year in
  MakeDay yr month date * msPerDay.

End JsDate.

(** ** Errors and the handler monad *)

(** What a handler can throw: an [ApiError] (utils/api-error.js: status
    code, machine code, message), or a runtime error of the language or of a
    driver. *)
Inductive Error :=
| ApiError (statusCode : Z) (code message : string)
| ReferenceError (name : string)
| TypeError (message : string)
| DriverError (message : string).

Inductive Outcome (A : Type) :=
| Returned (a : A)
| Thrown (e : Error).
Arguments Returned {A} a.
Arguments Thrown {A} e.

Definition Conflict (o : Error) : Prop :=
  exists message, o = ApiError 409 "conflict" message.

(** A computation over a state [S] that returns or throws; the state it
    leaves behind is kept in both cases. *)
Definition M (S A : Type) : Type := S -> Outcome A * S.

Section Monad.
Context {S : Type}.

Definition ret {A} (a : A) : M S A := fun s => (Returned a, s).

Definition throw {A} (e : Error) : M S A := fun s => (Thrown e, s).

Definition bind {A B} (k : A -> M S B) (m : M S A) : M S B :=
  fun s =>
    match m s with
    | (Returned a, s') => k a s'
    | (Thrown e, s') => (Thrown e, s')
    end.

Definition gets {A} (f : S -> A) : M S A := fun s => (Returned (f s), s).

Definition modify (f : S -> S) : M S unit := fun s => (Returned tt, f s).

(** [try { m } catch (error) { logger.warn(...) }]: the handler only
    logs, so the body's exception is swallowed and its writes stay. *)
Definition try_catch {A} (m : M S A) : M S unit :=
  fun s => (Returned tt, snd (m s)).

Definition when_ (b : bool) (m : M S unit) : M S unit :=
  if b then m else ret tt.

(** [for (const x of xs) { body }] *)
Fixpoint for_each {A} (xs : list A) (body : A -> M S unit) : M S unit :=
  match xs with
  | [] => ret tt
  | x :: xs' => bind (fun _ => for_each xs' body) (body x)
  end.

End Monad.

#[global] Instance M_ret {S} : MRet (M S) := @ret S.
#[global] Instance M_bind {S} : MBind (M S) := @bind S.

(** ** The relational schema (db/schema.js)

    Instants are milliseconds since the epoch, as [Date.getTime] gives
    them; a nullable column is an [option]. *)

Inductive broadcast_status := pending | scheduled | live | completed | failed.

#[global] Instance broadcast_status_eq_dec : EqDecision broadcast_status.
Proof. solve_decision. Defined.

(** The enum label the driver hands to JavaScript. *)
Definition status_label (st : broadcast_status) : string :=
  match st with
  | pending => "pending"
  | scheduled => "scheduled"
  | live => "live"
  | completed => "completed"
  | failed => "failed"
  end.

Inductive platform := android | ios | web.

(** A table with a [uuid] primary key is a finite map from the key to the
    remaining columns. *)
Module Broadcasts.
Record row := {
  masjidId : string;
  createdBy : option string;
  title : option string;
  prayerName : option string;
  status : broadcast_status;
  scheduledAt : option Z;
  streamProvider : option string;
  streamRoomId : option string;
  audioUrl : option string;
  hlsUrl : option string;
  hlsEgressId : option string;
  hlsRtmpUrl : option string;
  recordingUrl : option string;
  startedAt : option Z;
  endedAt : option Z;
  endedReason : option string;
  createdAt : Z;
  updatedAt : Z;
}.

(** [.set({ status: 'completed', endedAt: new Date(), recordingUrl,
    endedReason, updatedAt: new Date() })]; a key whose value is
    [undefined] leaves its column as it was. *)
Definition set_completed (now : Z) (recording reason : option string) (b : row) : row :=
  {| masjidId := masjidId b; createdBy := createdBy b; title := title b;
     prayerName := prayerName b; status := completed;
     scheduledAt := scheduledAt b; streamProvider := streamProvider b;
     streamRoomId := streamRoomId b; audioUrl := audioUrl b;
     hlsUrl := hlsUrl b; hlsEgressId := hlsEgressId b;
     hlsRtmpUrl := hlsRtmpUrl b;
     recordingUrl := Js.coalesce recording (recordingUrl b);
     startedAt := startedAt b; endedAt := Some now;
     endedReason := Js.coalesce reason (endedReason b);
     createdAt := createdAt b; updatedAt := now |}.

(** [.set({ status: 'live', streamProvider, streamRoomId, audioUrl,
    startedAt: new Date(), updatedAt: new Date() })] *)
Definition set_live (now : Z) (provider room audio : option string) (b : row) : row :=
  {| masjidId := masjidId b; createdBy := createdBy b; title := title b;
     prayerName := prayerName b; status := live;
     scheduledAt := scheduledAt b;
     streamProvider := Js.coalesce provider (streamProvider b);
     streamRoomId := Js.coalesce room (streamRoomId b);
     audioUrl := Js.coalesce audio (audioUrl b);
     hlsUrl := hlsUrl b; hlsEgressId := hlsEgressId b;
     hlsRtmpUrl := hlsRtmpUrl b; recordingUrl := recordingUrl b;
     startedAt := Some now; endedAt := endedAt b;
     endedReason := endedReason b;
     createdAt := createdAt b; updatedAt := now |}.

(** [.set({ streamRoomId: roomName, audioUrl, updatedAt: new Date() })] *)
Definition set_room (now : Z) (room : string) (audio : option string) (b : row) : row :=
  {| masjidId := masjidId b; createdBy := createdBy b; title := title b;
     prayerName := prayerName b; status := status b;
     scheduledAt := scheduledAt b; streamProvider := streamProvider b;
     streamRoomId := Some room; audioUrl := audio;
     hlsUrl := hlsUrl b; hlsEgressId := hlsEgressId b;
     hlsRtmpUrl := hlsRtmpUrl b; recordingUrl := recordingUrl b;
     startedAt := startedAt b; endedAt := endedAt b;
     endedReason := endedReason b;
     createdAt := createdAt b; updatedAt := now |}.

(** [.set({ hlsEgressId: null, updatedAt: new Date() })] *)
Definition clear_egress (now : Z) (b : row) : row :=
  {| masjidId := masjidId b; createdBy := createdBy b; title := title b;
     prayerName := prayerName b; status := status b;
     scheduledAt := scheduledAt b; streamProvider := streamProvider b;
     streamRoomId := streamRoomId b; audioUrl := audioUrl b;
     hlsUrl := hlsUrl b; hlsEgressId := None;
     hlsRtmpUrl := hlsRtmpUrl b; recordingUrl := recordingUrl b;
     startedAt := startedAt b; endedAt := endedAt b;
     endedReason := endedReason b;
     createdAt := createdAt b; updatedAt := now |}.
End Broadcasts.

Module Masjids.
Record row := {
  timezone : string;
  isApproved : bool;
  isActive : bool;
}.
End Masjids.

Module MasjidAdmins.
Record row := {
  masjidId : string;
  userId : string;
}.
End MasjidAdmins.

Module Subscriptions.
(** The [preferences] JSON document: [mutedPrayers] is [None] when the
    key is missing or does not hold an array. *)
Record prefs := {
  mutedPrayers : option (list string);
  wakeOnSilent : option bool;
}.
Record row := {
  userId : string;
  masjidId : string;
  preferences : option prefs;
  isMuted : bool;
  muteUntil : option Z;
}.
End Subscriptions.

Module UserDevices.
Record row := {
  id : string;
  userId : string;
  fcmToken : option string;
  voipToken : option string;
  platform_ : platform;
  isActive : bool;
  isWakeOnSilentEnabled : bool;
}.
End UserDevices.

Module NotificationLogs.
Inductive delivery := queued | sent | failed.
Record row := {
  userId : string;
  deviceId : string;
  masjidId : string;
  broadcastId : string;
  status : delivery;
  provider : option string;
  error : option string;
}.
End NotificationLogs.

Module Schedules.
Record row := {
  masjidId : string;
  date : string;
  prayerName : string;
  time : string;
  adhanAtUtc : Z;
  iqamahAtUtc : option Z;
  khutbahAtUtc : option Z;
  isJuma : bool;
}.
End Schedules.

Module ScheduleTemplates.
Record row := {
  masjidId : string;
  prayerName : string;
  adhanTimeLocal : string;
  iqamahTimeLocal : option string;
  khutbahTimeLocal : option string;
  isJuma : option bool;
}.
End ScheduleTemplates.

(** ** Row objects returned by a query

    [db.select({ a: t.a, b: t.b })] builds objects that own exactly the
    listed properties; reading any other property of such an object gives
    [undefined].  A row object is therefore kept as the list of its
    properties. *)

Inductive Value :=
| VNull
| VString (s : string)
| VDate (t : Z).

Definition JsObject := list (string * Value).

(** [obj.key]; [None] is [undefined]. *)
Fixpoint prop (obj : JsObject) (key : string) : option Value :=
  match obj with
  | [] => None
  | (k, v) :: rest => if String.eqb k key then Some v else prop rest key
  end.

Definition of_text (v : option string) : Value :=
  match v with Some s => VString s | None => VNull end.

Definition of_date (v : option Z) : Value :=
  match v with Some t => VDate t | None => VNull end.

(** A property read where a string is expected; [null] and [undefined]
    both read as [None]. *)
Definition text (v : option Value) : option string :=
  match v with Some (VString s) => Some s | _ => None end.

(** A property read where a [Date] is expected. *)
Definition date (v : option Value) : option Z :=
  match v with Some (VDate t) => Some t | _ => None end.

(** All columns of a broadcast row, under their property names. *)
Definition broadcast_columns (id : string) (b : Broadcasts.row) : JsObject :=
  [ ("id", VString id);
    ("masjidId", VString (Broadcasts.masjidId b));
    ("createdBy", of_text (Broadcasts.createdBy b));
    ("title", of_text (Broadcasts.title b));
    ("prayerName", of_text (Broadcasts.prayerName b));
    ("status", VString (status_label (Broadcasts.status b)));
    ("scheduledAt", of_date (Broadcasts.scheduledAt b));
    ("streamProvider", of_text (Broadcasts.streamProvider b));
    ("streamRoomId", of_text (Broadcasts.streamRoomId b));
    ("audioUrl", of_text (Broadcasts.audioUrl b));
    ("hlsUrl", of_text (Broadcasts.hlsUrl b));
    ("hlsEgressId", of_text (Broadcasts.hlsEgressId b));
    ("hlsRtmpUrl", of_text (Broadcasts.hlsRtmpUrl b));
    ("recordingUrl", of_text (Broadcasts.recordingUrl b));
    ("startedAt", of_date (Broadcasts.startedAt b));
    ("endedAt", of_date (Broadcasts.endedAt b));
    ("endedReason", of_text (Broadcasts.endedReason b));
    ("createdAt", VDate (Broadcasts.createdAt b));
    ("updatedAt", VDate (Broadcasts.updatedAt b)) ].

Definition listed (fields : list string) (key : string) : bool :=
  existsb (String.eqb key) fields.

(** The object [select(fields)] / [returning(fields)] builds for a row. *)
Definition select (fields : list string) (id : string) (b : Broadcasts.row)
  : JsObject :=
  filter (fun kv => listed fields (fst kv) = true) (broadcast_columns id b).

(** [value === 'literal'] on a property read. *)
Definition is_text (v : option Value) (literal : string) : bool :=
  match v with
  | Some (VString s) => String.eqb s literal
  | _ => false
  end.

(** ** Queues, relay table and the world the processes share *)

(** Payload of a queued job; a property the producer did not write is
    [None]. *)
Record JobData := {
  jd_broadcastId : option string;
  jd_masjidId : option string;
  jd_prayerName : option string;
  jd_endedReason : option string;
  jd_roomName : option string;
}.

(** The [jobId] option: [broadcast-auto-end-<id>] with, for a rescheduled
    job, the clock reading appended. *)
Inductive JobId :=
| AutoEndJobId (broadcastId : string) (stamp : option Z).

Record Job := {
  name : string;
  data : JobData;
  delay : option Z;
  jobId : option JobId;
}.

Definition no_data : JobData :=
  {| jd_broadcastId := None; jd_masjidId := None; jd_prayerName := None;
     jd_endedReason := None; jd_roomName := None |}.

(** A spawned transcoder; [pid] is missing when the spawn failed. *)
Record ChildProcess := { pid : option Z }.

Record Relay := {
  relay_broadcastId : string;
  relay_roomName : string;
  egressId : option string;
  rtmpUrl : string;
  process : option ChildProcess;
}.

(** The body of a push: [action] is [GO_LIVE] for a start event and [END]
    for an end event. *)
Inductive EventType := start_event | end_event.

Record Payload := {
  action : string;
  p_broadcastId : string;
  p_masjidId : string;
  p_prayerName : string;
  roomName : string;
  livekitUrl : string;
  token : string;
  streamUrl : string;
}.

(** One push request as it leaves the process.  The recipient pair is not
    part of the request; the trace keeps it next to the request so that a
    push can be attributed to the subscriber it was sent for. *)
Record Push := {
  voip : bool;
  push_token : string;
  push_data : Payload;
  push_user : string;
  push_device : string;
}.

(** What a provider call reports back. *)
Record SendResult := {
  r_status : NotificationLogs.delivery;
  r_provider : option string;
  r_error : option string;
}.

(** Calls that leave the process: signals, provider requests, pushes. *)
Inductive Effect :=
| Kill (pid : Z) (signal : string)
| StopEgress (egressId : string)
| CreateRoom (room : string)
| DeleteRoom (room : string)
| Pushed (p : Push).

Record World := {
  broadcasts : gmap string Broadcasts.row;
  masjids : gmap string Masjids.row;
  masjidAdmins : list MasjidAdmins.row;
  subscriptions : list Subscriptions.row;
  userDevices : list UserDevices.row;
  notificationLogs : list NotificationLogs.row;
  schedules : list Schedules.row;
  scheduleTemplates : list ScheduleTemplates.row;
  notificationQueue : list Job;
  broadcastQueue : list Job;
  activeRelays : gmap string Relay;
  effects : list Effect;
}.

Definition set_broadcasts (f : gmap string Broadcasts.row -> gmap string Broadcasts.row)
  (w : World) : World :=
  {| broadcasts := f (broadcasts w); masjids := masjids w;
     masjidAdmins := masjidAdmins w; subscriptions := subscriptions w;
     userDevices := userDevices w; notificationLogs := notificationLogs w;
     schedules := schedules w; scheduleTemplates := scheduleTemplates w;
     notificationQueue := notificationQueue w; broadcastQueue := broadcastQueue w;
     activeRelays := activeRelays w; effects := effects w |}.

Definition set_notificationLogs (f : list NotificationLogs.row -> list NotificationLogs.row)
  (w : World) : World :=
  {| broadcasts := broadcasts w; masjids := masjids w;
     masjidAdmins := masjidAdmins w; subscriptions := subscriptions w;
     userDevices := userDevices w; notificationLogs := f (notificationLogs w);
     schedules := schedules w; scheduleTemplates := scheduleTemplates w;
     notificationQueue := notificationQueue w; broadcastQueue := broadcastQueue w;
     activeRelays := activeRelays w; effects := effects w |}.

Definition set_schedules (f : list Schedules.row -> list Schedules.row)
  (w : World) : World :=
  {| broadcasts := broadcasts w; masjids := masjids w;
     masjidAdmins := masjidAdmins w; subscriptions := subscriptions w;
     userDevices := userDevices w; notificationLogs := notificationLogs w;
     schedules := f (schedules w); scheduleTemplates := scheduleTemplates w;
     notificationQueue := notificationQueue w; broadcastQueue := broadcastQueue w;
     activeRelays := activeRelays w; effects := effects w |}.

Definition set_notificationQueue (f : list Job -> list Job) (w : World) : World :=
  {| broadcasts := broadcasts w; masjids := masjids w;
     masjidAdmins := masjidAdmins w; subscriptions := subscriptions w;
     userDevices := userDevices w; notificationLogs := notificationLogs w;
     schedules := schedules w; scheduleTemplates := scheduleTemplates w;
     notificationQueue := f (notificationQueue w); broadcastQueue := broadcastQueue w;
     activeRelays := activeRelays w; effects := effects w |}.

Definition set_broadcastQueue (f : list Job -> list Job) (w : World) : World :=
  {| broadcasts := broadcasts w; masjids := masjids w;
     masjidAdmins := masjidAdmins w; subscriptions := subscriptions w;
     userDevices := userDevices w; notificationLogs := notificationLogs w;
     schedules := schedules w; scheduleTemplates := scheduleTemplates w;
     notificationQueue := notificationQueue w; broadcastQueue := f (broadcastQueue w);
     activeRelays := activeRelays w; effects := effects w |}.

Definition set_activeRelays (f : gmap string Relay -> gmap string Relay)
  (w : World) : World :=
  {| broadcasts := broadcasts w; masjids := masjids w;
     masjidAdmins := masjidAdmins w; subscriptions := subscriptions w;
     userDevices := userDevices w; notificationLogs := notificationLogs w;
     schedules := schedules w; scheduleTemplates := scheduleTemplates w;
     notificationQueue := notificationQueue w; broadcastQueue := broadcastQueue w;
     activeRelays := f (activeRelays w); effects := effects w |}.

Definition set_effects (f : list Effect -> list Effect) (w : World) : World :=
  {| broadcasts := broadcasts w; masjids := masjids w;
     masjidAdmins := masjidAdmins w; subscriptions := subscriptions w;
     userDevices := userDevices w; notificationLogs := notificationLogs w;
     schedules := schedules w; scheduleTemplates := scheduleTemplates w;
     notificationQueue := notificationQueue w; broadcastQueue := broadcastQueue w;
     activeRelays := activeRelays w; effects := f (effects w) |}.

(** An external call, appended to the trace. *)
Definition emit (e : Effect) : M World unit :=
  modify (set_effects (fun es => es ++ [e])).

(** [queue.add(name, data, opts)] *)
Definition notificationQueue_add (j : Job) : M World unit :=
  modify (set_notificationQueue (fun q => q ++ [j])).

Definition broadcastQueue_add (j : Job) : M World unit :=
  modify (set_broadcastQueue (fun q => q ++ [j])).

(** ** Configuration (config/env.js is read, never written)

    [BROADCAST_MAX_MINUTES] is [None] when the variable does not hold a
    finite number. [hasLivekitConfig] is the conjunction services/livekit.js
    computes once at load time. *)
Record Env := {
  BROADCAST_MAX_MINUTES : option Z;
  HLS_ENABLED : bool;
  HLS_SIGNING_SECRET : option string;
  HLS_URL_TTL_SECONDS : option Z;
  HLS_PUBLIC_BASE_URL : option string;
  LIVEKIT_URL : option string;
  hasLivekitConfig : bool;
}.

(** What the collaborators outside the repository answer: whether a signal
    or a provider request fails, which token the room service mints, what a
    push provider replies.  Handlers consult these; they never change. *)
Inductive RoomOutcome := RoomCreated | RoomAlreadyExists | RoomFailed.

Record Providers := {
  kill_fails : Z -> bool;
  stopEgress_fails : string -> bool;
  createRoom_result : string -> RoomOutcome;
  toJwt : string -> string -> bool -> string;
  fcm_configured : bool;
  fcm_send_error : string -> option string;
  apns_configured : bool;
  apns_send_error : string -> option string;
}.

(** ** services/livekit.js *)

Module Livekit.
Section Livekit.
Variable env : Env.
Variable ext : Providers.

Definition getLivekitUrl : option string := LIVEKIT_URL env.

(** [getRoomClient] / [getEgressClient] return [null] without the three
    LiveKit settings. *)
Definition hasClient : bool := hasLivekitConfig env.

Definition ensureLivekitRoom (roomName : string) : M World unit :=
  if negb hasClient then mret tt
  else
    emit (CreateRoom roomName);;
    match createRoom_result ext roomName with
    | RoomCreated => mret tt
    | RoomAlreadyExists => mret tt
    | RoomFailed => throw (DriverError "LiveKit room creation failed")
    end.

Definition deleteLivekitRoom (roomName : option string) : M World unit :=
  if negb hasClient || negb (Js.truthy roomName) then mret tt
  else emit (DeleteRoom (default "" roomName)).

Definition createLivekitToken (identity roomName : string) (canPublish : bool)
  : option string :=
  if negb (hasLivekitConfig env) then None
  else Some (toJwt ext identity roomName canPublish).

Definition stopLivekitEgress (egress : option string) : M World unit :=
  if negb hasClient || negb (Js.truthy egress) then mret tt
  else
    let e := default "" egress in
    emit (StopEgress e);;
    if stopEgress_fails ext e then throw (DriverError "stopEgress") else mret tt.

End Livekit.
End Livekit.

(** ** services/hls.js: the relay table *)

Module Hls.
Section Hls.
Variable env : Env.
Variable ext : Providers.

Definition isHlsEnabled : bool := HLS_ENABLED env.

Definition getHlsPublicUrl (broadcastId : string) : option string :=
  match HLS_PUBLIC_BASE_URL env with
  | Some base =>
      if String.eqb base "" then None
      else Some (base ++ "/broadcasts/" ++ broadcastId ++ "/index.m3u8")%string
  | None => None
  end.

(** [relay.process.kill('SIGTERM')] *)
Definition kill (p : Z) : M World unit :=
  emit (Kill p "SIGTERM");;
  if kill_fails ext p then throw (DriverError "kill") else mret tt.

(** Returns [null] ([None]) when the table has no entry, [true]
    otherwise. *)
Definition stopHlsRelay (broadcastId : string) : M World (option bool) :=
  relays ← gets activeRelays;
  match relays !! broadcastId with
  | None => mret None
  | Some relay =>
      try_catch
        (match process relay ≫= pid with
         | Some p => if Z.eqb p 0 then mret tt else kill p
         | None => mret tt
         end);;
      when_ (Js.truthy (egressId relay))
        (try_catch (Livekit.stopLivekitEgress env ext (egressId relay)));;
      modify (set_activeRelays (delete broadcastId));;
      mret (Some true)
  end.

End Hls.
End Hls.

(** ** Queries on the broadcasts table *)

(** [db.select(fields).from(broadcasts).where(eq(broadcasts.id, id)).limit(1)] *)
Definition select_broadcast (fields : list string) (id : string)
  : M World (option JsObject) :=
  gets (fun w => select fields id <$> broadcasts w !! id).

(** [db.update(broadcasts).set(...).where(eq(broadcasts.id, id)).returning(fields)];
    [None] when no row has that id. *)
Definition update_broadcast (id : string) (patch : Broadcasts.row -> Broadcasts.row)
  (fields : list string) : M World (option JsObject) :=
  tbl ← gets broadcasts;
  match tbl !! id with
  | Some b =>
      modify (set_broadcasts (insert id (patch b)));;
      mret (Some (select fields id (patch b)))
  | None => mret None
  end.

Definition end_job (broadcastId masjidId : option string) : Job :=
  {| name := "broadcast-end";
     data := {| jd_broadcastId := broadcastId; jd_masjidId := masjidId;
                jd_prayerName := None; jd_endedReason := None;
                jd_roomName := None |};
     delay := None; jobId := None |}.

(** ** controllers/broadcast.controller.js *)

Record Request (B : Type) := {
  user : option string;
  params_id : option string;
  body : option B;
}.
Arguments user {B} _.
Arguments params_id {B} _.
Arguments body {B} _.

Record StartBody := {
  start_streamProvider : option string;
  start_streamRoomId : option string;
  start_audioUrl : option string;
}.

Record EndBody := {
  end_recordingUrl : option string;
  end_endedReason : option string;
}.

Record CreateBody := {
  create_masjidId : string;
  create_title : option string;
  create_prayerName : option string;
  create_scheduledAt : option string;
  create_streamProvider : option string;
  create_streamRoomId : option string;
  create_audioUrl : option string;
}.

Module Controller.
Section Controller.
Variable env : Env.
Variable ext : Providers.

(** [new Date(text).getTime()]; [None] is an Invalid Date. *)
Variable Date_parse : string -> option Z.

(** Whether the database reads as a timestamp the text the driver sends
    for the instant. *)
Variable acceptsTimestamp : Z -> bool.

(** [Date]s among the parameters of a statement.  The driver sends the ISO
    text of each, which an Invalid Date does not have: it throws.  The
    database then has to read each text as a timestamp. *)
Definition sendDates (dates : list Z) : M World unit :=
  if negb (forallb JsDate.valid dates) then throw (DriverError "Invalid time value")
  else if negb (forallb acceptsTimestamp dates) then
    throw (DriverError "date/time field value out of range")
  else mret tt.

Definition DEFAULT_BROADCAST_MAX_MINUTES : Z := 15.

Definition getBroadcastMaxMinutes : Z :=
  match BROADCAST_MAX_MINUTES env with
  | Some parsed => if Z.ltb 0 parsed then parsed else DEFAULT_BROADCAST_MAX_MINUTES
  | None => DEFAULT_BROADCAST_MAX_MINUTES
  end.

(** The argument is what the caller read from its row object. *)
Definition isBroadcastExpired (now : Z) (startedAt : option Value) : bool :=
  match startedAt with
  | Some (VDate t) => Z.leb (getBroadcastMaxMinutes * 60 * 1000) (now - t)
  | _ => false
  end.

Definition markBroadcastExpired (now : Z) (broadcastId : string) : M World unit :=
  updatedBroadcast ←
    update_broadcast broadcastId
      (Broadcasts.set_completed now None (Some "max_duration_reached"))
      ["id"; "masjidId"];
  match updatedBroadcast with
  | Some u =>
      notificationQueue_add
        (end_job (text (prop u "id")) (text (prop u "masjidId")))
  | None => mret tt
  end.

Definition isAdmin (w : World) (actorId masjidId : string) : bool :=
  existsb (fun a => String.eqb (MasjidAdmins.userId a) actorId
                    && String.eqb (MasjidAdmins.masjidId a) masjidId)
          (masjidAdmins w).

Definition requireMasjidAuthority (actorId masjidId : string) : M World unit :=
  ok ← gets (fun w => isAdmin w actorId masjidId);
  if ok : bool then mret tt
  else throw (ApiError 403 "forbidden" "Insufficient privileges").

(** [request.user?.id || request.user?.sub], then the 401 guard. *)
Definition actor {B} (request : Request B) : M World string :=
  match user request with
  | Some a => if String.eqb a "" then throw (ApiError 401 "unauthorized" "Missing auth context")
              else mret a
  | None => throw (ApiError 401 "unauthorized" "Missing auth context")
  end.

Definition broadcast_id {B} (request : Request B) : M World string :=
  match params_id request with
  | Some i => if String.eqb i "" then throw (ApiError 400 "validation_error" "Missing broadcast id")
              else mret i
  | None => throw (ApiError 400 "validation_error" "Missing broadcast id")
  end.

Definition start_job (u : JsObject) : Job :=
  {| name := "broadcast-start";
     data := {| jd_broadcastId := text (prop u "id");
                jd_masjidId := text (prop u "masjidId");
                jd_prayerName := text (prop u "prayerName");
                jd_endedReason := None; jd_roomName := None |};
     delay := None; jobId := None |}.

Definition hls_start_job (u : JsObject) (room : option string) : Job :=
  {| name := "hls-start";
     data := {| jd_broadcastId := text (prop u "id"); jd_masjidId := None;
                jd_prayerName := None; jd_endedReason := None;
                jd_roomName := room |};
     delay := None; jobId := None |}.

Definition hls_stop_job (u : JsObject) : Job :=
  {| name := "hls-stop";
     data := {| jd_broadcastId := text (prop u "id"); jd_masjidId := None;
                jd_prayerName := None; jd_endedReason := None;
                jd_roomName := None |};
     delay := None; jobId := None |}.

Definition auto_end_job (u : JsObject) : Job :=
  {| name := "broadcast-auto-end";
     data := {| jd_broadcastId := text (prop u "id"); jd_masjidId := None;
                jd_prayerName := None;
                jd_endedReason := Some "max_duration_reached";
                jd_roomName := None |};
     delay := Some (Z.max 1 getBroadcastMaxMinutes * 60 * 1000)%Z;
     jobId := Some (AutoEndJobId (default "" (text (prop u "id"))) None) |}.

Definition startBroadcast (now : Z) (request : Request StartBody)
  : M World JsObject :=
  actorId ← actor request;
  id ← broadcast_id request;
  let b := default {| start_streamProvider := None; start_streamRoomId := None;
                      start_audioUrl := None |} (body request) in
  found ← select_broadcast
    ["id"; "masjidId"; "status"; "prayerName"; "streamProvider";
     "streamRoomId"; "audioUrl"] id;
  match found with
  | None => throw (ApiError 404 "not_found" "Broadcast not found")
  | Some broadcastRecord =>
      if is_text (prop broadcastRecord "status") "live" then
        if isBroadcastExpired now (prop broadcastRecord "startedAt") then
          markBroadcastExpired now (default "" (text (prop broadcastRecord "id")));;
          throw (ApiError 409 "conflict" "Broadcast expired")
        else throw (ApiError 409 "conflict" "Broadcast already live")
      else if is_text (prop broadcastRecord "status") "completed" then
        throw (ApiError 409 "conflict" "Broadcast already ended")
      else
        requireMasjidAuthority actorId
          (default "" (text (prop broadcastRecord "masjidId")));;
        let resolvedRoomId :=
          Js.coalesce (start_streamRoomId b) (text (prop broadcastRecord "streamRoomId")) in
        let resolvedProvider :=
          Js.coalesce_def
            (Js.coalesce (start_streamProvider b)
               (text (prop broadcastRecord "streamProvider"))) "livekit" in
        let resolvedAudioUrl :=
          Js.coalesce (start_audioUrl b) (text (prop broadcastRecord "audioUrl")) in
        resolved ←
          (if negb (Js.truthy resolvedRoomId) && String.eqb resolvedProvider "livekit"
              && Js.truthy (Livekit.getLivekitUrl env)
           then
             let roomName :=
               ("broadcast-" ++ default "" (text (prop broadcastRecord "id")))%string in
             Livekit.ensureLivekitRoom env ext roomName;;
             mret (Some roomName,
                   Js.coalesce resolvedAudioUrl (Livekit.getLivekitUrl env))
           else mret (resolvedRoomId, resolvedAudioUrl));
        let '(roomId, audio) := resolved in
        updated ← update_broadcast id
          (Broadcasts.set_live now (Some resolvedProvider) roomId audio)
          ["id"; "masjidId"; "prayerName"; "status"; "streamProvider";
           "streamRoomId"; "audioUrl"; "startedAt"; "updatedAt"];
        match updated with
        | None => throw (TypeError "Cannot read properties of undefined (reading 'id')")
        | Some updatedBroadcast =>
            notificationQueue_add (start_job updatedBroadcast);;
            when_ (Hls.isHlsEnabled env && Js.truthy roomId)
              (broadcastQueue_add (hls_start_job updatedBroadcast roomId));;
            broadcastQueue_add (auto_end_job updatedBroadcast);;
            mret updatedBroadcast
        end
  end.

Definition endBroadcast (now : Z) (request : Request EndBody)
  : M World JsObject :=
  actorId ← actor request;
  id ← broadcast_id request;
  let b := default {| end_recordingUrl := None; end_endedReason := None |}
             (body request) in
  found ← select_broadcast ["id"; "masjidId"; "status"] id;
  match found with
  | None => throw (ApiError 404 "not_found" "Broadcast not found")
  | Some broadcastRecord =>
      if is_text (prop broadcastRecord "status") "completed" then
        throw (ApiError 409 "conflict" "Broadcast already ended")
      else
        requireMasjidAuthority actorId
          (default "" (text (prop broadcastRecord "masjidId")));;
        updated ← update_broadcast id
          (Broadcasts.set_completed now (end_recordingUrl b) (end_endedReason b))
          ["id"; "masjidId"; "status"; "endedAt"; "recordingUrl";
           "endedReason"; "updatedAt"];
        match updated with
        | None => throw (TypeError "Cannot read properties of undefined (reading 'id')")
        | Some updatedBroadcast =>
            notificationQueue_add
              (end_job (text (prop updatedBroadcast "id"))
                       (text (prop updatedBroadcast "masjidId")));;
            when_ (Hls.isHlsEnabled env)
              (broadcastQueue_add (hls_stop_job updatedBroadcast));;
            mret updatedBroadcast
        end
  end.

(** *** createBroadcast *)

Definition msPerDay : Z := 86400000.

(** [new Date(Date.UTC(d.getUTCFullYear(), d.getUTCMonth(), d.getUTCDate(), 0, 0, 0))]
    (lines 168 to 177). *)
Definition startOfDay (t : Z) : Z :=
  JsDate.UTC (JsDate.getUTCFullYear t) (JsDate.getUTCMonth t) (JsDate.getUTCDate t).

(** [setUTCDate(getUTCDate() + 1)] on that midnight: the midnight after
    it.  Past the last instant a [Date] can hold it is an Invalid Date. *)
Definition endOfDay (t : Z) : Z := (startOfDay t + msPerDay)%Z.

(** [and(gte(column, startOfDay), lt(column, endOfDay))]; a [NULL] column
    satisfies neither comparison. *)
Definition within (lo hi : Z) (column : option Z) : bool :=
  match column with
  | Some t => Z.leb lo t && Z.ltb t hi
  | None => false
  end.

(** The [where] clause of the duplicate check. *)
Definition sameDayBroadcast (masjid prayer : string) (lo hi : Z)
  (b : Broadcasts.row) : bool :=
  String.eqb (Broadcasts.masjidId b) masjid
  && bool_decide (Broadcasts.prayerName b = Some prayer)
  && negb (bool_decide (Broadcasts.status b = failed))
  && (within lo hi (Broadcasts.scheduledAt b)
      || within lo hi (Broadcasts.startedAt b)).

Definition existingBroadcast (w : World) (masjid prayer : string) (lo hi : Z) : bool :=
  bool_decide (map_Exists (fun _ b => sameDayBroadcast masjid prayer lo hi b = true)
                 (broadcasts w)).

(** The row [db.insert(broadcasts).values({...})] stores; the columns the
    handler leaves out take their defaults. *)
Definition newBroadcast (now : Z) (actorId : string) (c : CreateBody)
  (scheduledDate : option Z) : Broadcasts.row :=
  {| Broadcasts.masjidId := create_masjidId c;
     Broadcasts.createdBy := Some actorId;
     Broadcasts.title := create_title c;
     Broadcasts.prayerName := create_prayerName c;
     Broadcasts.status :=
       if Js.truthy (create_scheduledAt c) then scheduled else pending;
     Broadcasts.scheduledAt := scheduledDate;
     Broadcasts.streamProvider :=
       Some (Js.coalesce_def (create_streamProvider c) "livekit");
     Broadcasts.streamRoomId := create_streamRoomId c;
     Broadcasts.audioUrl := create_audioUrl c;
     Broadcasts.hlsUrl := None; Broadcasts.hlsEgressId := None;
     Broadcasts.hlsRtmpUrl := None; Broadcasts.recordingUrl := None;
     Broadcasts.startedAt := None; Broadcasts.endedAt := None;
     Broadcasts.endedReason := None;
     Broadcasts.createdAt := now; Broadcasts.updatedAt := now |}.

Definition created_fields : list string :=
  ["id"; "masjidId"; "createdBy"; "title"; "prayerName"; "startedAt";
   "status"; "scheduledAt"; "streamProvider"; "streamRoomId"; "audioUrl";
   "createdAt"; "updatedAt"].

(** [uuid] is the key [gen_random_uuid()] draws for the new row; the
    primary key rejects a key already in use.  [scheduledAt] is sent as a
    [Date]. *)
Definition insert_broadcast (now : Z) (uuid : string) (actorId : string)
  (c : CreateBody) : M World JsObject :=
  tbl ← gets broadcasts;
  match tbl !! uuid with
  | Some _ => throw (DriverError "duplicate key value violates unique constraint")
  | None =>
      match (if Js.truthy (create_scheduledAt c)
             then Some (Date_parse (default "" (create_scheduledAt c)))
             else None) with
      | Some None => throw (DriverError "Invalid time value")
      | Some (Some t) =>
          sendDates [t];;
          let row := newBroadcast now actorId c (Some t) in
          modify (set_broadcasts (insert uuid row));;
          mret (select created_fields uuid row)
      | None =>
          let row := newBroadcast now actorId c None in
          modify (set_broadcasts (insert uuid row));;
          mret (select created_fields uuid row)
      end
  end.

(** The block [if (prayerName && scheduledAt) { ... }] (lines 162 to 200).
    The two midnights are parameters of the query. *)
Definition duplicateCheck (c : CreateBody) : M World unit :=
  if Js.truthy (create_prayerName c) && Js.truthy (create_scheduledAt c) then
    match Date_parse (default "" (create_scheduledAt c)) with
    | None => throw (ApiError 400 "validation_error" "Invalid scheduledAt")
    | Some scheduledDate =>
        sendDates [startOfDay scheduledDate; endOfDay scheduledDate];;
        dup ← gets (fun w =>
          existingBroadcast w (create_masjidId c) (default "" (create_prayerName c))
            (startOfDay scheduledDate) (endOfDay scheduledDate));
        if dup : bool then
          throw (ApiError 409 "conflict"
                   "Broadcast already exists for this prayer and date")
        else mret tt
    end
  else mret tt.

(** The block after the insert (lines 233 to 265): a LiveKit broadcast
    without a room gets one, named after its id. *)
Definition assignRoom (now : Z) (uuid : string) (c : CreateBody)
  (createdBroadcast : JsObject) : M World JsObject :=
  if String.eqb (Js.coalesce_def (create_streamProvider c) "livekit") "livekit"
     && negb (Js.truthy (text (prop createdBroadcast "streamRoomId")))
     && Js.truthy (Livekit.getLivekitUrl env)
  then
    let roomName := ("broadcast-" ++ uuid)%string in
    Livekit.ensureLivekitRoom env ext roomName;;
    updated ← update_broadcast uuid
      (Broadcasts.set_room now roomName
         (Js.coalesce (text (prop createdBroadcast "audioUrl"))
            (Livekit.getLivekitUrl env)))
      ["id"; "masjidId"; "createdBy"; "title"; "prayerName"; "status";
       "scheduledAt"; "streamProvider"; "streamRoomId"; "audioUrl";
       "createdAt"; "updatedAt"];
    mret (default createdBroadcast updated)
  else mret createdBroadcast.

Definition createBroadcast (now : Z) (uuid : string) (request : Request CreateBody)
  : M World JsObject :=
  actorId ← actor request;
  match body request with
  | None => throw (ApiError 400 "validation_error" "Missing request body")
  | Some c =>
      let masjidId := create_masjidId c in
      masjidRecord ← gets (fun w => masjids w !! masjidId);
      match masjidRecord with
      | None => throw (ApiError 404 "not_found" "Masjid not found")
      | Some m =>
          if negb (Masjids.isApproved m) || negb (Masjids.isActive m) then
            throw (ApiError 403 "forbidden" "Masjid is not active")
          else
            requireMasjidAuthority actorId masjidId;;
            duplicateCheck c;;
            createdBroadcast ← insert_broadcast now uuid actorId c;
            assignRoom now uuid c createdBroadcast
      end
  end.

End Controller.
End Controller.

(** ** worker.js *)

Module Worker.
Section Worker.
Variable env : Env.
Variable ext : Providers.

(** The bindings worker.js imports (its lines 1 to 9). *)
Definition imports : list string :=
  [ "and"; "eq";
    "broadcastQueue"; "createWorker"; "notificationQueue";
    "db";
    "broadcasts"; "notificationLogs"; "subscriptions"; "userDevices";
    "logger";
    "sendFcmData"; "sendVoipPush";
    "createLivekitToken"; "deleteLivekitRoom"; "getLivekitUrl";
    "getHlsPublicUrl"; "isHlsEnabled"; "startHlsRelay"; "stopHlsRelay";
    "env" ].

(** Evaluating an identifier of the module: a name that no import and no
    declaration binds throws. *)
Definition resolve (scope : list string) (name : string) : M World unit :=
  if listed scope name then mret tt else throw (ReferenceError name).

(** *** Push services (services/push.js) *)

Definition sendFcmData (tok : option string) (payload : Payload)
  (user device : string) (trace : list Push) : SendResult * list Push :=
  if negb (Js.truthy tok) then
    ({| r_status := NotificationLogs.failed; r_provider := Some "fcm";
        r_error := Some "missing_token" |}, trace)
  else if negb (fcm_configured ext) then
    ({| r_status := NotificationLogs.failed; r_provider := Some "fcm";
        r_error := Some "fcm_not_configured" |}, trace)
  else
    let t := default "" tok in
    let sent_ := trace ++ [ {| voip := false; push_token := t; push_data := payload;
                              push_user := user; push_device := device |} ] in
    match fcm_send_error ext t with
    | None => ({| r_status := NotificationLogs.sent; r_provider := Some "fcm";
                  r_error := None |}, sent_)
    | Some message => ({| r_status := NotificationLogs.failed;
                          r_provider := Some "fcm";
                          r_error := Some message |}, sent_)
    end.

Definition sendVoipPush (tok : option string) (payload : Payload)
  (user device : string) (trace : list Push) : SendResult * list Push :=
  if negb (Js.truthy tok) then
    ({| r_status := NotificationLogs.failed; r_provider := Some "apns";
        r_error := Some "missing_token" |}, trace)
  else if negb (apns_configured ext) then
    ({| r_status := NotificationLogs.failed; r_provider := Some "apns";
        r_error := Some "apns_not_configured" |}, trace)
  else
    let t := default "" tok in
    let sent_ := trace ++ [ {| voip := true; push_token := t; push_data := payload;
                              push_user := user; push_device := device |} ] in
    match apns_send_error ext t with
    | None => ({| r_status := NotificationLogs.sent; r_provider := Some "apns";
                  r_error := None |}, sent_)
    | Some message => ({| r_status := NotificationLogs.failed;
                          r_provider := Some "apns";
                          r_error := Some message |}, sent_)
    end.

(** *** The notifications worker *)

(** The join of the fan-out query: every subscription of the masjid with
    every active device of the same user.  All properties the loop reads
    are selected, so a result is kept as the pair of its rows. *)
Definition recipients (w : World) (masjid : string)
  : list (Subscriptions.row * UserDevices.row) :=
  s ← filter (fun s => Subscriptions.masjidId s = masjid) (subscriptions w);
  d ← filter (fun d => UserDevices.userId d = Subscriptions.userId s
                       /\ UserDevices.isActive d = true) (userDevices w);
  [(s, d)].

Definition mutedPrayersOf (s : Subscriptions.row) : list string :=
  match Subscriptions.preferences s with
  | Some prefs => default [] (Subscriptions.mutedPrayers prefs)
  | None => []
  end.

(** The three [continue] guards at the head of the loop body. *)
Definition skipped (now : Z) (prayer : option string) (s : Subscriptions.row) : bool :=
  Subscriptions.isMuted s
  || match Subscriptions.muteUntil s with
     | Some t => Z.ltb now t
     | None => false
     end
  || (Js.truthy prayer && listed (mutedPrayersOf s) (default "" prayer)).

Definition eventTypeOf (job : Job) : EventType :=
  if String.eqb (name job) "broadcast-end" then end_event else start_event.

Definition payloadFor (eventType : EventType) (broadcastId masjid : string)
  (prayer : option string) (broadcastRecord : JsObject) (user : string) : Payload :=
  let room := text (prop broadcastRecord "streamRoomId") in
  let url := Js.coalesce (text (prop broadcastRecord "audioUrl"))
               (Livekit.getLivekitUrl env) in
  let hls := Js.coalesce (text (prop broadcastRecord "hlsUrl"))
               (if Hls.isHlsEnabled env then Hls.getHlsPublicUrl env broadcastId
                else None) in
  let tok :=
    match eventType with
    | start_event =>
        if Js.truthy room && negb (Js.truthy hls)
        then Livekit.createLivekitToken env ext user (default "" room) false
        else None
    | end_event => None
    end in
  {| action := match eventType with start_event => "GO_LIVE" | end_event => "END" end;
     p_broadcastId := broadcastId;
     p_masjidId := masjid;
     p_prayerName := default "" prayer;
     roomName := default "" room;
     livekitUrl := default "" url;
     token := default "" tok;
     streamUrl := default "" hls |}.

(** [for (const record of results) { ... logs.push(...) }]: the local
    array [logs] and the pushes sent so far are threaded through. *)
Fixpoint fanout (now : Z) (eventType : EventType) (broadcastId masjid : string)
  (prayer : option string) (broadcastRecord : JsObject)
  (results : list (Subscriptions.row * UserDevices.row))
  (logs : list NotificationLogs.row) (trace : list Push)
  : list NotificationLogs.row * list Push :=
  match results with
  | [] => (logs, trace)
  | (s, d) :: rest =>
      if skipped now prayer s then
        fanout now eventType broadcastId masjid prayer broadcastRecord rest logs trace
      else
        let payload := payloadFor eventType broadcastId masjid prayer broadcastRecord
                         (Subscriptions.userId s) in
        let '(result, trace') :=
          match UserDevices.platform_ d with
          | ios => sendVoipPush (UserDevices.voipToken d) payload
                     (Subscriptions.userId s) (UserDevices.id d) trace
          | _ => sendFcmData (UserDevices.fcmToken d) payload
                   (Subscriptions.userId s) (UserDevices.id d) trace
          end in
        fanout now eventType broadcastId masjid prayer broadcastRecord rest
          (logs ++ [ {| NotificationLogs.userId := Subscriptions.userId s;
                        NotificationLogs.deviceId := UserDevices.id d;
                        NotificationLogs.masjidId := masjid;
                        NotificationLogs.broadcastId := broadcastId;
                        NotificationLogs.status := r_status result;
                        NotificationLogs.provider := r_provider result;
                        NotificationLogs.error := r_error result |} ])
          trace'
  end.

Definition notificationsWorker (now : Z) (job : Job) : M World unit :=
  let d := data job in
  if negb (Js.truthy (jd_broadcastId d)) || negb (Js.truthy (jd_masjidId d)) then mret tt
  else
    let broadcastId := default "" (jd_broadcastId d) in
    let masjid := default "" (jd_masjidId d) in
    found ← select_broadcast
      ["id"; "streamProvider"; "streamRoomId"; "audioUrl"; "hlsUrl"] broadcastId;
    match found with
    | None => mret tt
    | Some broadcastRecord =>
        results ← gets (fun w => recipients w masjid);
        let '(logs, pushes) :=
          fanout now (eventTypeOf job) broadcastId masjid (jd_prayerName d)
            broadcastRecord results [] [] in
        modify (set_effects (fun es => es ++ (Pushed <$> pushes)));;
        when_ (negb (bool_decide (logs = [])))
          (modify (set_notificationLogs (fun t => t ++ logs)))
    end.

(** *** The broadcasts worker *)

(** The branch for a job named [hls-stop]. *)
Definition hlsStopJob (now : Z) (job : Job) : M World unit :=
  if negb (Js.truthy (jd_broadcastId (data job))) then mret tt
  else
    let broadcastId := default "" (jd_broadcastId (data job)) in
    Hls.stopHlsRelay env ext broadcastId;;
    update_broadcast broadcastId (Broadcasts.clear_egress now) [];;
    mret tt.

Definition maxMinutes : Z :=
  match BROADCAST_MAX_MINUTES env with
  | Some m => if Z.ltb 0 m then m else 15
  | None => 15
  end.

Definition reschedule_job (now : Z) (broadcastId : string)
  (endedReason : option string) (remainingMs : Z) : Job :=
  {| name := "broadcast-auto-end";
     data := {| jd_broadcastId := Some broadcastId; jd_masjidId := None;
                jd_prayerName := None;
                jd_endedReason :=
                  Some (Js.coalesce_def endedReason "max_duration_reached");
                jd_roomName := None |};
     delay := Some remainingMs;
     jobId := Some (AutoEndJobId broadcastId (Some now)) |}.

(** The branch for every other job of the queue, that is for
    [broadcast-auto-end] (worker.js lines 143 to 198). *)
Definition autoEndJob (now : Z) (job : Job) : M World unit :=
  let endedReason := jd_endedReason (data job) in
  if negb (Js.truthy (jd_broadcastId (data job))) then mret tt
  else
    let broadcastId := default "" (jd_broadcastId (data job)) in
    found ← select_broadcast ["id"; "status"; "streamRoomId"] broadcastId;
    match found with
    | None => mret tt
    | Some broadcastRecord =>
        if negb (is_text (prop broadcastRecord "status") "live") then mret tt
        else
          let finish : M World unit :=
            updated ← update_broadcast broadcastId
              (Broadcasts.set_completed now None
                 (Some (Js.coalesce_def endedReason "max_duration_reached")))
              ["id"; "masjidId"];
            match updated with
            | Some updatedBroadcast =>
                notificationQueue_add
                  (end_job (text (prop updatedBroadcast "id"))
                           (text (prop updatedBroadcast "masjidId")))
            | None => mret tt
            end;;
            Hls.stopHlsRelay env ext broadcastId;;
            Livekit.deleteLivekitRoom env (text (prop broadcastRecord "streamRoomId")) in
          match prop broadcastRecord "startedAt" with
          | Some (VDate startedAt) =>
              let elapsedMs := (now - startedAt)%Z in
              let targetMs := (maxMinutes * 60 * 1000)%Z in
              if Z.ltb elapsedMs (targetMs - 1000) then
                let remainingMs := Z.max 1000 (targetMs - elapsedMs) in
                broadcastQueue_add
                  (reschedule_job now broadcastId endedReason remainingMs)
              else finish
          | _ => finish
          end
    end.

(** *** The periodic sweep *)

Definition expiredBy (cutoff : Z) (b : Broadcasts.row) : bool :=
  bool_decide (Broadcasts.status b = live)
  && match Broadcasts.startedAt b with
     | Some t => Z.ltb t cutoff
     | None => false
     end.

(** [scope] is the set of names bound where the function is defined; the
    [where] argument [and(eq(...), lt(...))] is evaluated, callee first,
    before [where] itself is called. *)
Definition cleanupExpiredBroadcasts (scope : list string) (now : Z) : M World unit :=
  let maxMinutes :=
    match BROADCAST_MAX_MINUTES env with Some m => m | None => 15%Z end in
  let cutoff := (now - Z.max 1 maxMinutes * 60 * 1000)%Z in
  resolve scope "and";;
  resolve scope "eq";;
  resolve scope "lt";;
  expired ← gets (fun w =>
    map_to_list (filter (fun kv => expiredBy cutoff (snd kv) = true) (broadcasts w)));
  if bool_decide (expired = []) then mret tt
  else
    for_each expired (fun item =>
      update_broadcast (fst item)
        (Broadcasts.set_completed now None (Some "max_duration_reached")) [];;
      notificationQueue_add
        (end_job (Some (fst item)) (Some (Broadcasts.masjidId (snd item))));;
      Hls.stopHlsRelay env ext (fst item);;
      Livekit.deleteLivekitRoom env (Broadcasts.streamRoomId (snd item))).

(** [cleanupExpiredBroadcasts().catch(log)], at start-up and then every
    five minutes. *)
Definition sweep (now : Z) : M World unit :=
  try_catch (cleanupExpiredBroadcasts imports now).

End Worker.
End Worker.

(** ** Signed HLS URLs (services/hls.js) and the asset route *)

(** A JavaScript number; the finite ones are rationals. *)
Inductive JsNumber :=
| NaN
| Infinity (negative : bool)
| Finite (q : QArith_base.Q).

(** [text.endsWith(suffix)] *)
Definition endsWith (text suffix : string) : bool :=
  let n := String.length text in
  let k := String.length suffix in
  Nat.leb k n && String.eqb (String.substring (n - k) k text) suffix.

(** The signed location [<path>?exp=<exp>&sig=<sig>] with its two query
    parameters kept apart, as the router hands them to the handler. *)
Record SignedUrl := {
  url_path : string;
  url_exp : string;
  url_sig : string;
}.

Definition url_text (u : SignedUrl) : string :=
  (url_path u ++ "?exp=" ++ url_exp u ++ "&sig=" ++ url_sig u)%string.

Record AssetRequest := {
  asset_id : option string;
  asset_file : option string;
  query_exp : option string;
  query_sig : option string;
  authorization : option string;
  cookie_accessToken : option string;
}.

Record Asset := {
  asset_path : string * string;
  contentType : option string;
}.

Module HlsUrl.
Section HlsUrl.
Variable env : Env.

(** [crypto.createHmac('sha256', key).update(message).digest('hex')] *)
Variable hmac_sha256_hex : string -> string -> string.

(** [Number(text)] on a string, and [`${number}`] on a finite number. *)
Variable ToNumber : string -> JsNumber.
Variable ToString : QArith_base.Q -> string.

(** [Math.floor(Date.now() / 1000)] *)
Definition unixTime (now : Z) : Z := (now / 1000)%Z.

(** [Number(env.HLS_URL_TTL_SECONDS) || 900] *)
Definition ttlSeconds : Z :=
  match HLS_URL_TTL_SECONDS env with
  | Some t => if Z.eqb t 0 then 900%Z else t
  | None => 900%Z
  end.

Definition signHlsUrl (now : Z) (broadcastId basePath : string) : option SignedUrl :=
  if negb (Js.truthy (HLS_SIGNING_SECRET env)) then None
  else
    let secret := default "" (HLS_SIGNING_SECRET env) in
    let exp := (unixTime now + ttlSeconds)%Z in
    let payload := (broadcastId ++ "." ++ ToString (QArith_base.inject_Z exp))%string in
    let sig := hmac_sha256_hex secret payload in
    let pathPrefix :=
      if endsWith basePath "/"
      then String.substring 0 (String.length basePath - 1) basePath
      else basePath in
    Some {| url_path :=
              (pathPrefix ++ "/broadcasts/" ++ broadcastId ++ "/hls/index.m3u8")%string;
            url_exp := ToString (QArith_base.inject_Z exp);
            url_sig := sig |}.

(** [crypto.timingSafeEqual] on two buffers of one length: every byte
    pair is compared, the differences are or-ed together. *)
Fixpoint differ (a b : string) (acc : bool) : bool :=
  match a, b with
  | String x a', String y b' => differ a' b' (acc || negb (Ascii.eqb x y))
  | _, _ => acc
  end.

Definition timingSafeEqual (a b : string) : bool := negb (differ a b false).

Definition verifyHlsSignature (now : Z) (broadcastId : string)
  (exp sig : option string) : bool :=
  if negb (Js.truthy (HLS_SIGNING_SECRET env)) || negb (Js.truthy exp)
     || negb (Js.truthy sig)
  then false
  else
    match ToNumber (default "" exp) with
    | Finite expNumber =>
        if negb (QArith_base.Qle_bool (QArith_base.inject_Z (unixTime now)) expNumber)
        then false
        else
          let payload := (broadcastId ++ "." ++ ToString expNumber)%string in
          let expected :=
            hmac_sha256_hex (default "" (HLS_SIGNING_SECRET env)) payload in
          if negb (Nat.eqb (String.length expected) (String.length (default "" sig)))
          then false
          else timingSafeEqual expected (default "" sig)
    | _ => false
    end.

(** *** getHlsAsset (controllers/broadcast.controller.js) *)

(** [jwt.verify]: [None] when it throws, otherwise the [id || sub] of
    the payload. *)
Variable verifyAccessToken : string -> option (option string).
(** Whether the text reads as a uuid.  The route of the asset validates no
    parameter, and the driver fails on a query that compares the id column
    with a text that is not one. *)
Variable is_uuid : string -> bool.
(** [path.basename] and [fs.existsSync] under the output directory. *)
Variable basename : string -> string.
Variable existsSync : string -> string -> bool.

Definition bearerOf (header : option string) : option string :=
  match header with
  | Some h =>
      if String.prefix "Bearer " h
      then Some (String.substring 7 (String.length h - 7) h)
      else None
  | None => None
  end.

Definition isSubscribed (w : World) (actorId masjid : string) : bool :=
  existsb (fun s => String.eqb (Subscriptions.userId s) actorId
                    && String.eqb (Subscriptions.masjidId s) masjid)
          (subscriptions w).

(** The block guarded by [if (!authorized)]. *)
Definition authorizeByToken (id : string) (request : AssetRequest) : M World unit :=
  let tok := Js.or_else (bearerOf (authorization request)) (cookie_accessToken request) in
  if negb (Js.truthy tok) then throw (ApiError 401 "unauthorized" "Missing token")
  else
    match verifyAccessToken (default "" tok) with
    | None => throw (DriverError "JsonWebTokenError")
    | Some actorId =>
        if negb (Js.truthy actorId) then throw (ApiError 401 "unauthorized" "Invalid token")
        else if negb (is_uuid id) then
          throw (DriverError "invalid input syntax for type uuid")
        else
          found ← select_broadcast ["masjidId"] id;
          match found with
          | None => throw (ApiError 404 "not_found" "Broadcast not found")
          | Some broadcastRecord =>
              ok ← gets (fun w =>
                isSubscribed w (default "" actorId)
                  (default "" (text (prop broadcastRecord "masjidId"))));
              if ok : bool then mret tt
              else throw (ApiError 403 "forbidden" "Subscription required")
          end
    end.

Definition sendAsset (id file : string) : M World Asset :=
  let safeFile := basename file in
  if negb (existsSync id safeFile) then throw (ApiError 404 "not_found" "HLS asset not found")
  else
    mret {| asset_path := (id, safeFile);
            contentType :=
              if endsWith safeFile ".m3u8" then Some "application/vnd.apple.mpegurl"
              else if endsWith safeFile ".m4s" then Some "video/iso.segment"
              else if endsWith safeFile ".mp4" then Some "video/mp4"
              else None |}.

Definition getHlsAsset (now : Z) (request : AssetRequest) : M World Asset :=
  if negb (Js.truthy (asset_id request)) || negb (Js.truthy (asset_file request)) then
    throw (ApiError 400 "validation_error" "Missing HLS asset params")
  else
    let id := default "" (asset_id request) in
    let file := default "" (asset_file request) in
    let authorized :=
      verifyHlsSignature now id (query_exp request) (query_sig request) in
    (if negb authorized then authorizeByToken id request else mret tt);;
    sendAsset id file.

End HlsUrl.
End HlsUrl.

(** ** scheduler.js: the template expander *)

Module Scheduler.
Section Scheduler.

(** luxon.  [toISODate zone now offset] is
    [DateTime.now().setZone(zone).startOf('day').plus({ days: offset }).toISODate()],
    [None] when the chain is invalid and [toISODate] answers [null].
    [fromISO text zone] is [DateTime.fromISO(text, { zone })], [None] when
    the result is not valid, otherwise its instant. *)
Variable toISODate : string -> Z -> Z -> option string.
Variable fromISO : string -> string -> option Z.

(** [scheduleTemplates] inner-joined with [masjids] on the masjid id. *)
Definition templatesWithZone (w : World) : list (ScheduleTemplates.row * string) :=
  t ← scheduleTemplates w;
  match masjids w !! ScheduleTemplates.masjidId t with
  | Some m => [(t, Masjids.timezone m)]
  | None => []
  end.

Definition sameKey (masjid date prayer : string) (r : Schedules.row) : bool :=
  String.eqb (Schedules.masjidId r) masjid
  && String.eqb (Schedules.date r) date
  && String.eqb (Schedules.prayerName r) prayer.

(** The existence query; [eq(schedules.date, null)] matches no row. *)
Definition existingSchedule (w : World) (masjid : string) (dateString : option string)
  (prayer : string) : bool :=
  match dateString with
  | Some d => existsb (sameKey masjid d prayer) (schedules w)
  | None => false
  end.

(** [local ? DateTime.fromISO(`${dateString}T${local}`, { zone }).toUTC().toJSDate() : null];
    the inner [None] is an Invalid Date. *)
Definition utcOrNull (dateText zone : string) (local : option string)
  : option (option Z) :=
  if Js.truthy local
  then Some (fromISO (dateText ++ "T" ++ default "" local)%string zone)
  else None.

(** [db.insert(schedules).values({...})]: [date] is [NOT NULL], a
    timestamp column cannot take an Invalid Date, and
    [schedule_day_prayer_uq] rejects a second row for a key. *)
Definition insert_schedule (t : ScheduleTemplates.row) (dateString : option string)
  (adhanAtUtc : Z) (iqamahAtUtc khutbahAtUtc : option (option Z)) : M World unit :=
  match dateString, iqamahAtUtc, khutbahAtUtc with
  | None, _, _ => throw (DriverError "null value in column date")
  | _, Some None, _ => throw (DriverError "Invalid time value")
  | _, _, Some None => throw (DriverError "Invalid time value")
  | Some d, iqamah, khutbah =>
      taken ← gets (fun w =>
        existsb (sameKey (ScheduleTemplates.masjidId t) d
                   (ScheduleTemplates.prayerName t)) (schedules w));
      if taken : bool then throw (DriverError "schedule_day_prayer_uq")
      else
        modify (set_schedules (fun rows => rows ++
          [ {| Schedules.masjidId := ScheduleTemplates.masjidId t;
               Schedules.date := d;
               Schedules.prayerName := ScheduleTemplates.prayerName t;
               Schedules.time := ScheduleTemplates.adhanTimeLocal t;
               Schedules.adhanAtUtc := adhanAtUtc;
               Schedules.iqamahAtUtc := iqamah ≫= id;
               Schedules.khutbahAtUtc := khutbah ≫= id;
               Schedules.isJuma :=
                 Js.coalesce_def (ScheduleTemplates.isJuma t)
                   (String.eqb (ScheduleTemplates.prayerName t) "Juma") |} ]))
  end.

(** [template.timezone || 'Asia/Kolkata'] *)
Definition zoneOf (template : ScheduleTemplates.row * string) : string :=
  if String.eqb (snd template) "" then "Asia/Kolkata" else snd template.

(** The body of the inner loop, for one template and one day offset. *)
Definition ensureSchedule (now : Z) (template : ScheduleTemplates.row * string)
  (offset : Z) : M World unit :=
  let t := fst template in
  let timezone := zoneOf template in
  let dateString := toISODate timezone now offset in
  existing ← gets (fun w =>
    existingSchedule w (ScheduleTemplates.masjidId t) dateString
      (ScheduleTemplates.prayerName t));
  if existing : bool then mret tt
  else
    let dateText := default "null" dateString in
    match fromISO (dateText ++ "T" ++ ScheduleTemplates.adhanTimeLocal t)%string timezone with
    | None => mret tt
    | Some adhanAtUtc =>
        insert_schedule t dateString adhanAtUtc
          (utcOrNull dateText timezone (ScheduleTemplates.iqamahTimeLocal t))
          (utcOrNull dateText timezone (ScheduleTemplates.khutbahTimeLocal t))
    end.

Definition ensureDailySchedulesFromTemplates (now : Z) : M World unit :=
  templates ← gets templatesWithZone;
  for_each templates (fun template =>
    for_each [0%Z; 1%Z] (ensureSchedule now template)).

(** The call in [runSchedulerCycle], with its [.catch(log)]. *)
Definition expanderTick (now : Z) : M World unit :=
  try_catch (ensureDailySchedulesFromTemplates now).

End Scheduler.
End Scheduler.

(** ** Constraints of the schema and vocabulary of the statements *)

(** The unique index [subscriptions_uq] on (user_id, masjid_id). *)
Definition subscriptions_uq (rows : list Subscriptions.row) : Prop :=
  NoDup ((fun s => (Subscriptions.userId s, Subscriptions.masjidId s)) <$> rows).

(** The subscription is muted at the instant of the fan-out. *)
Definition mutedAt (now : Z) (s : Subscriptions.row) : Prop :=
  Subscriptions.isMuted s = true
  \/ exists t, Subscriptions.muteUntil s = Some t /\ (now < t)%Z.

(** What one run of the notifications worker added: the rows of its batch
    insert and the pushes it sent. *)
Definition fanoutAdded (w w' : World) (rows : list NotificationLogs.row)
  (pushes : list Push) : Prop :=
  notificationLogs w' = notificationLogs w ++ rows
  /\ effects w' = effects w ++ (Pushed <$> pushes).

(** The device has the token its platform's channel needs and that channel
    is configured, so that the provider is actually called. *)
Definition deliverable (ext : Providers) (d : UserDevices.row) : bool :=
  match UserDevices.platform_ d with
  | ios => Js.truthy (UserDevices.voipToken d) && apns_configured ext
  | _ => Js.truthy (UserDevices.fcmToken d) && fcm_configured ext
  end.

(** Between two worlds the notification queue only gained [broadcast-end]
    jobs as [end_job] builds them, that is without a prayer name. *)
Definition onlyEndJobsAdded (w w' : World) : Prop :=
  exists added,
    notificationQueue w' = notificationQueue w ++ added
    /\ forall j, j ∈ added ->
         exists broadcastId masjid, j = end_job broadcastId masjid.

(** The unique index [schedule_day_prayer_uq] on (masjid_id, date,
    prayer_name). *)
Definition schedule_day_prayer_uq (rows : list Schedules.row) : Prop :=
  NoDup ((fun r => (Schedules.masjidId r, Schedules.date r, Schedules.prayerName r))
           <$> rows).

(** How many occurrence rows a key has. *)
Definition occurrences (masjid date prayer : string) (rows : list Schedules.row) : nat :=
  length (filter (fun r => Scheduler.sameKey masjid date prayer r = true) rows).

(** Two instants fall on the same local day, and so does the day after,
    for every template of the store. *)
Definition sameLocalDay (toISODate : string -> Z -> Z -> option string)
  (w : World) (now now' : Z) : Prop :=
  forall template offset,
    template ∈ Scheduler.templatesWithZone w -> offset ∈ [0%Z; 1%Z] ->
    toISODate (Scheduler.zoneOf template) now' offset
    = toISODate (Scheduler.zoneOf template) now offset.

(** [w'] is [w] with occurrence rows appended. *)
Definition grown (w w' : World) : Prop :=
  exists extra, w' = set_schedules (fun rows => rows ++ extra) w.

(** [exp], as the query string carries it, reads as a finite number that is
    not before the given unix time. *)
Definition notExpired (ToNumber : string -> JsNumber) (exp : option string)
  (unix : Z) (q : QArith_base.Q) : Prop :=
  exists e, exp = Some e /\ e <> "" /\ ToNumber e = Finite q
            /\ QArith_base.Qle (QArith_base.inject_Z unix) q.


(** Two instants of one UTC calendar day. *)
Definition sameUtcDay (t t' : Z) : Prop :=
  (t / Controller.msPerDay = t' / Controller.msPerDay)%Z.

(** The instant lies in a year from 0 to 99, which [Date.UTC] reads as
    1900 + year. *)
Definition twoDigitYear (t : Z) : bool :=
  (0 <=? JsDate.getUTCFullYear t)%Z && (JsDate.getUTCFullYear t <=? 99)%Z.

(** An instant a statement can carry: a [Date] can hold it and the
    database reads it. *)
Definition sendable (acceptsTimestamp : Z -> bool) (t : Z) : bool :=
  JsDate.valid t && acceptsTimestamp t.


(** A broadcast of the masjid and prayer that has not failed and whose
    [scheduledAt] or [startedAt] lies on the UTC day of [t]. *)
Definition sameDayNonFailed (w : World) (masjid prayer : string) (t : Z) : Prop :=
  exists id b,
    broadcasts w !! id = Some b
    /\ Broadcasts.masjidId b = masjid
    /\ Broadcasts.prayerName b = Some prayer
    /\ Broadcasts.status b <> failed
    /\ ((exists t', Broadcasts.scheduledAt b = Some t' /\ sameUtcDay t t')
        \/ (exists t', Broadcasts.startedAt b = Some t' /\ sameUtcDay t t')).


(** ** Token handlers (controllers/broadcast.controller.js) *)

(** The [data] of a 200 response of the two token handlers: a LiveKit
    token with its room, or the location of the HLS stream. *)
Inductive TokenResponse :=
| TokenIssued (message token roomName : string) (livekitUrl : option string)
| StreamReady (message streamUrl format : string).

Module Tokens.
Section Tokens.
Variable env : Env.
Variable ext : Providers.
Variable hmac_sha256_hex : string -> string -> string.
Variable ToString : QArith_base.Q -> string.

(** Lines 370 to 446. *)
Definition getBroadcastToken (now : Z) (request : Request unit)
  : M World TokenResponse :=
  actorId ← Controller.actor request;
  id ← Controller.broadcast_id request;
  found ← select_broadcast
    ["id"; "masjidId"; "status"; "startedAt"; "streamProvider";
     "streamRoomId"; "audioUrl"; "hlsUrl"] id;
  match found with
  | None => throw (ApiError 404 "not_found" "Broadcast not found")
  | Some broadcastRecord =>
      (if is_text (prop broadcastRecord "status") "live" then
         if Controller.isBroadcastExpired env now (prop broadcastRecord "startedAt") then
           Controller.markBroadcastExpired now
             (default "" (text (prop broadcastRecord "id")));;
           throw (ApiError 409 "conflict" "Broadcast expired")
         else mret tt
       else throw (ApiError 409 "conflict" "Broadcast is not live"));;
      Controller.requireMasjidAuthority actorId
        (default "" (text (prop broadcastRecord "masjidId")));;
      let provider :=
        Js.coalesce_def (text (prop broadcastRecord "streamProvider")) "livekit" in
      let resolvedAudioUrl :=
        Js.coalesce (text (prop broadcastRecord "audioUrl")) (Livekit.getLivekitUrl env) in
      resolvedRoomId ←
        (if negb (Js.truthy (text (prop broadcastRecord "streamRoomId")))
            && String.eqb provider "livekit"
            && Js.truthy (Livekit.getLivekitUrl env)
         then
           let roomName :=
             ("broadcast-" ++ default "" (text (prop broadcastRecord "id")))%string in
           Livekit.ensureLivekitRoom env ext roomName;;
           update_broadcast (default "" (text (prop broadcastRecord "id")))
             (Broadcasts.set_room now roomName resolvedAudioUrl) [];;
           mret (Some roomName)
         else mret (text (prop broadcastRecord "streamRoomId")));
      if negb (Js.truthy resolvedRoomId) then
        throw (ApiError 500 "configuration_error" "LiveKit room not configured")
      else
        let token :=
          Livekit.createLivekitToken env ext actorId (default "" resolvedRoomId) true in
        if negb (Js.truthy token) then
          throw (ApiError 500 "configuration_error" "LiveKit credentials missing")
        else
          mret (TokenIssued "Broadcast token issued" (default "" token)
                  (default "" resolvedRoomId) resolvedAudioUrl)
  end.

(** Lines 449 to 545. *)
Definition getBroadcastListenerToken (now : Z) (request : Request unit)
  : M World TokenResponse :=
  actorId ← Controller.actor request;
  id ← Controller.broadcast_id request;
  found ← select_broadcast
    ["id"; "masjidId"; "status"; "startedAt"; "streamProvider";
     "streamRoomId"; "audioUrl"] id;
  match found with
  | None => throw (ApiError 404 "not_found" "Broadcast not found")
  | Some broadcastRecord =>
      (if is_text (prop broadcastRecord "status") "live" then
         if Controller.isBroadcastExpired env now (prop broadcastRecord "startedAt") then
           Controller.markBroadcastExpired now
             (default "" (text (prop broadcastRecord "id")));;
           throw (ApiError 409 "conflict" "Broadcast expired")
         else mret tt
       else throw (ApiError 409 "conflict" "Broadcast is not live"));;
      subscription ← gets (fun w =>
        HlsUrl.isSubscribed w actorId
          (default "" (text (prop broadcastRecord "masjidId"))));
      if negb subscription then
        throw (ApiError 403 "forbidden" "Subscription required")
      else if Hls.isHlsEnabled env then
        let signedUrl :=
          url_text <$> HlsUrl.signHlsUrl env hmac_sha256_hex ToString now
                         (default "" (text (prop broadcastRecord "id"))) "/api/v1" in
        let hlsUrl := Js.coalesce signedUrl (text (prop broadcastRecord "hlsUrl")) in
        if negb (Js.truthy hlsUrl) then
          throw (ApiError 503 "service_unavailable" "HLS stream not ready")
        else mret (StreamReady "Listener stream ready" (default "" hlsUrl) "hls")
      else
        let provider :=
          Js.coalesce_def (text (prop broadcastRecord "streamProvider")) "livekit" in
        let resolvedAudioUrl :=
          Js.coalesce (text (prop broadcastRecord "audioUrl"))
            (Livekit.getLivekitUrl env) in
        resolvedRoomId ←
          (if negb (Js.truthy (text (prop broadcastRecord "streamRoomId")))
              && String.eqb provider "livekit"
              && Js.truthy (Livekit.getLivekitUrl env)
           then
             let roomName :=
               ("broadcast-" ++ default "" (text (prop broadcastRecord "id")))%string in
             Livekit.ensureLivekitRoom env ext roomName;;
             update_broadcast (default "" (text (prop broadcastRecord "id")))
               (Broadcasts.set_room now roomName resolvedAudioUrl) [];;
             mret (Some roomName)
           else mret (text (prop broadcastRecord "streamRoomId")));
        if negb (Js.truthy resolvedRoomId) then
          throw (ApiError 500 "configuration_error" "LiveKit room not configured")
        else
          let token :=
            Livekit.createLivekitToken env ext actorId (default "" resolvedRoomId) false in
          if negb (Js.truthy token) then
            throw (ApiError 500 "configuration_error" "LiveKit credentials missing")
          else
            mret (TokenIssued "Listener token issued" (default "" token)
                    (default "" resolvedRoomId) resolvedAudioUrl)
  end.

End Tokens.
End Tokens.

(** The world after a live broadcast was found past its maximum duration:
    the row is completed with the reason [max_duration_reached] and one
    [broadcast-end] job is queued. *)
Definition expiredAt (now : Z) (id : string) (b : Broadcasts.row) (w : World) : World :=
  set_notificationQueue
    (fun q => q ++ [end_job (Some id) (Some (Broadcasts.masjidId b))])
    (set_broadcasts
       (insert id (Broadcasts.set_completed now None (Some "max_duration_reached") b)) w).

(** A live broadcast whose [startedAt] lies at least the maximum duration
    before [now]. *)
Definition staleLive (env : Env) (now : Z) (b : Broadcasts.row) : Prop :=
  Broadcasts.status b = live
  /\ exists t, Broadcasts.startedAt b = Some t
       /\ (Controller.getBroadcastMaxMinutes env * 60 * 1000 <= now - t)%Z.

(** A live broadcast that is not past its maximum duration. *)
Definition freshLive (env : Env) (now : Z) (b : Broadcasts.row) : Prop :=
  Broadcasts.status b = live
  /\ forall t, Broadcasts.startedAt b = Some t ->
       (now - t < Controller.getBroadcastMaxMinutes env * 60 * 1000)%Z.


(** ** scheduler.js: the broadcast planner *)

Module Planner.
Section Planner.

(** [env.BROADCAST_PREP_MINUTES], [None] when it is not a finite number. *)
Variable BROADCAST_PREP_MINUTES : option Z.
Variable toISODate : string -> Z -> Z -> option string.
Variable fromISO : string -> string -> option Z.

(** The key [gen_random_uuid()] draws for a row inserted into the given
    table. *)
Variable gen_random_uuid : gmap string Broadcasts.row -> string.

Definition prepMinutes : Z :=
  match BROADCAST_PREP_MINUTES with
  | Some m => m
  | None => 2
  end.

Definition windowEnd (now : Z) : Z := (now + Z.max 1 prepMinutes * 60 * 1000)%Z.

(** [getDayRange(date)] (lines 16 to 23), on the instants the scheduler
    passes to it: the adhan times of the window that opens at the reading
    of the clock.  These lie after year 99, where [Date.UTC] takes the
    year as it is, and the midnight of the calendar fields of an instant is
    the last whole day at or before it. *)
Definition getDayRange (date : Z) : Z * Z :=
  let startOfDay := (date / Controller.msPerDay * Controller.msPerDay)%Z in
  (startOfDay, (startOfDay + Controller.msPerDay)%Z).

(** [schedules] inner-joined with [masjids], for the approved and active
    masjids and the occurrences whose adhan lies in the window.  The loop
    reads only selected columns, so an item is kept as its schedule row. *)
Definition upcoming (now : Z) (w : World) : list Schedules.row :=
  filter (fun s =>
            match masjids w !! Schedules.masjidId s with
            | Some m =>
                Masjids.isApproved m && Masjids.isActive m
                && Z.leb now (Schedules.adhanAtUtc s)
                && Z.ltb (Schedules.adhanAtUtc s) (windowEnd now)
            | None => false
            end = true)
    (schedules w).

(** The row [db.insert(broadcasts).values({...})] stores (lines 75 to 84). *)
Definition scheduledBroadcast (now : Z) (item : Schedules.row) : Broadcasts.row :=
  {| Broadcasts.masjidId := Schedules.masjidId item;
     Broadcasts.createdBy := None;
     Broadcasts.title := Some (Schedules.prayerName item ++ " Adhan")%string;
     Broadcasts.prayerName := Some (Schedules.prayerName item);
     Broadcasts.status := scheduled;
     Broadcasts.scheduledAt := Some (Schedules.adhanAtUtc item);
     Broadcasts.streamProvider := Some "livekit";
     Broadcasts.streamRoomId := None; Broadcasts.audioUrl := None;
     Broadcasts.hlsUrl := None; Broadcasts.hlsEgressId := None;
     Broadcasts.hlsRtmpUrl := None; Broadcasts.recordingUrl := None;
     Broadcasts.startedAt := None; Broadcasts.endedAt := None;
     Broadcasts.endedReason := None;
     Broadcasts.createdAt := now; Broadcasts.updatedAt := now |}.

(** The body of the loop (lines 54 to 86). *)
Definition planBroadcast (now : Z) (item : Schedules.row) : M World unit :=
  let scheduledAt := Schedules.adhanAtUtc item in
  let '(startOfDay, endOfDay) := getDayRange scheduledAt in
  existingBroadcast ← gets (fun w =>
    Controller.existingBroadcast w (Schedules.masjidId item)
      (Schedules.prayerName item) startOfDay endOfDay);
  if existingBroadcast : bool then mret tt
  else
    tbl ← gets broadcasts;
    match tbl !! gen_random_uuid tbl with
    | Some _ => throw (DriverError "duplicate key value violates unique constraint")
    | None =>
        modify (set_broadcasts
                  (insert (gen_random_uuid tbl) (scheduledBroadcast now item)))
    end.

(** The query and the loop (lines 33 to 87). *)
Definition planUpcoming (now : Z) : M World unit :=
  items ← gets (upcoming now);
  for_each items (planBroadcast now).

Definition runSchedulerCycle (now : Z) : M World unit :=
  Scheduler.expanderTick toISODate fromISO now;;
  planUpcoming now.

End Planner.
End Planner.

(** [w'] is [w] with broadcasts added: every row of [w] is still there,
    unchanged, and no other table, queue or trace differs. *)
Definition planned (w w' : World) : Prop :=
  exists tbl, broadcasts w ⊆ tbl /\ w' = set_broadcasts (fun _ => tbl) w.

(** At most one broadcast that has not failed is scheduled for a masjid,
    a prayer and a UTC day. *)
Definition onePerDay (w : World) : Prop :=
  forall id1 id2 b1 b2 p t1 t2,
    broadcasts w !! id1 = Some b1 -> broadcasts w !! id2 = Some b2 ->
    Broadcasts.masjidId b1 = Broadcasts.masjidId b2 ->
    Broadcasts.prayerName b1 = Some p -> Broadcasts.prayerName b2 = Some p ->
    p <> "" ->
    Broadcasts.status b1 <> failed -> Broadcasts.status b2 <> failed ->
    Broadcasts.scheduledAt b1 = Some t1 -> Broadcasts.scheduledAt b2 = Some t2 ->
    sameUtcDay t1 t2 ->
    id1 = id2.


(** The (user, device) pair a log row and a push are filed under. *)
Definition row_key (row : NotificationLogs.row) : string * string :=
  (NotificationLogs.userId row, NotificationLogs.deviceId row).

Definition push_key (p : Push) : string * string := (push_user p, push_device p).

Definition recipient_key (r : Subscriptions.row * UserDevices.row) : string * string :=
  (Subscriptions.userId (fst r), UserDevices.id (snd r)).


(** ** listBroadcasts (controllers/broadcast.controller.js) *)

(** The query string as the route schema lets it through: [status] and
    [prayerName], when present, are labels of their enums. *)
Record ListQuery := {
  query_masjidId : option string;
  query_date : option string;
  query_status : option string;
  query_prayerName : option string;
}.

Record ListRequest := {
  list_user : option string;
  list_query : option ListQuery;
}.

(** [ORDER BY scheduled_at]: ascending, a [NULL] after every instant. *)
Definition scheduledBefore (x y : string * Broadcasts.row) : Prop :=
  match Broadcasts.scheduledAt (snd x), Broadcasts.scheduledAt (snd y) with
  | Some a, Some b => (a <= b)%Z
  | _, None => True
  | None, Some _ => False
  end.

#[global] Instance scheduledBefore_dec : RelDecision scheduledBefore.
Proof.
  intros x y. unfold scheduledBefore.
  destruct (Broadcasts.scheduledAt (snd x)), (Broadcasts.scheduledAt (snd y));
    apply _.
Defined.

Module Listing.
Section Listing.
Variable Date_parse : string -> option Z.
Variable acceptsTimestamp : Z -> bool.

(** Lines 64 to 82. *)
Definition assertMasjidAccess (actorId masjidId : string) : M World unit :=
  adminRecord ← gets (fun w => Controller.isAdmin w actorId masjidId);
  if adminRecord : bool then mret tt
  else
    subscription ← gets (fun w => HlsUrl.isSubscribed w actorId masjidId);
    if subscription : bool then mret tt
    else throw (ApiError 403 "forbidden" "Subscription required").

Definition no_query : ListQuery :=
  {| query_masjidId := None; query_date := None; query_status := None;
     query_prayerName := None |}.

(** [and(...filters)]; [day] is the parsed [date], when one was given. *)
Definition filters (query : ListQuery) (masjidId : string) (day : option Z)
  (b : Broadcasts.row) : bool :=
  String.eqb (Broadcasts.masjidId b) masjidId
  && (if Js.truthy (query_status query)
      then String.eqb (status_label (Broadcasts.status b))
             (default "" (query_status query))
      else true)
  && (if Js.truthy (query_prayerName query)
      then bool_decide (Broadcasts.prayerName b = query_prayerName query)
      else true)
  && match day with
     | Some d => Controller.within d (d + Controller.msPerDay) (Broadcasts.scheduledAt b)
     | None => true
     end.

Definition list_fields : list string :=
  ["id"; "masjidId"; "title"; "prayerName"; "status"; "scheduledAt"; "startedAt";
   "endedAt"; "streamProvider"; "streamRoomId"; "audioUrl"; "hlsUrl"].

(** The rows of the query, before they are turned into objects. *)
Definition listedRows (query : ListQuery) (masjidId : string) (day : option Z)
  (w : World) : list (string * Broadcasts.row) :=
  merge_sort scheduledBefore
    (map_to_list (filter (fun kv => filters query masjidId day (snd kv) = true)
                    (broadcasts w))).

(** Lines 84 to 131.  [day] and [end], the midnight after it, are
    parameters of the query. *)
Definition listBroadcasts (request : ListRequest) : M World (list JsObject) :=
  actorId ←
    match list_user request with
    | Some a => if String.eqb a "" then throw (ApiError 401 "unauthorized" "Missing auth context")
                else mret a
    | None => throw (ApiError 401 "unauthorized" "Missing auth context")
    end;
  let query := default no_query (list_query request) in
  if negb (Js.truthy (query_masjidId query)) then
    throw (ApiError 400 "validation_error" "Missing masjidId")
  else
    let masjidId := default "" (query_masjidId query) in
    assertMasjidAccess actorId masjidId;;
    day ←
      (if Js.truthy (query_date query) then
         match Date_parse (default "" (query_date query) ++ "T00:00:00.000Z")%string with
         | None => throw (ApiError 400 "validation_error" "Invalid date")
         | Some t => mret (Some t)
         end
       else mret None);
    match day with
    | Some t => Controller.sendDates acceptsTimestamp [t; (t + Controller.msPerDay)%Z]
    | None => mret tt
    end;;
    items ← gets (listedRows query masjidId day);
    mret ((fun kv => select list_fields (fst kv) (snd kv)) <$> items).

End Listing.
End Listing.


(** ** services/hls.js: starting a relay *)

(** The HLS settings of config/env.js that only the relay reads. *)
Record HlsEnv := {
  HLS_RTMP_PUBLISH_URL_TEMPLATE : option string;
  HLS_RTMP_PLAY_URL_TEMPLATE : option string;
  HLS_OUTPUT_DIR : string;
  HLS_AUDIO_BITRATE_KBPS : Z;
  HLS_SEGMENT_SECONDS : Z;
  HLS_FFMPEG_MODE : string;
  HLS_FFMPEG_CONTAINER_PREFIX : string;
  HLS_FFMPEG_DOCKER_NETWORK : option string;
  HLS_FFMPEG_DOCKER_IMAGE : string;
}.

(** What [startRoomCompositeEgress] answers. *)
Inductive EgressOutcome :=
| EgressStarted (egressId : option string)
| EgressFailed.

(** The operating system and the egress service, as the relay sees them:
    path arithmetic, whether a directory can be made, what the egress
    service answers and which process a spawn yields. *)
Record Platform := {
  path_resolve : list string -> string;
  path_join : list string -> string;
  path_posix_join : list string -> string;
  mkdir_fails : string -> bool;
  startEgress_result : string -> string -> EgressOutcome;
  spawn_pid : string -> list string -> option Z;
}.

(** Calls of the relay that leave the process, besides those of [Effect]. *)
Inductive HostCall :=
| Mkdir (dir : string)
| StartEgress (roomName rtmpUrl : string) (audioBitrateKbps : Z)
| Spawn (command : string) (args : list string).

(** The world together with the trace of those calls. *)
Record Host := {
  host_world : World;
  host_calls : list HostCall;
}.

(** A computation on the world, run by the host. *)
Definition lift {A} (m : M World A) : M Host A :=
  fun h =>
    let '(o, w) := m (host_world h) in
    (o, {| host_world := w; host_calls := host_calls h |}).

Definition call (c : HostCall) : M Host unit :=
  modify (fun h => {| host_world := host_world h;
                      host_calls := host_calls h ++ [c] |}).

(** What [startHlsRelay] returns. *)
Record RelayInfo := {
  info_hlsUrl : option string;
  info_egressId : option string;
  info_rtmpUrl : string;
}.

(** [.set({ hlsUrl, hlsEgressId, hlsRtmpUrl, updatedAt: new Date() })] *)
Definition set_hls (now : Z) (url egress rtmp : option string) (b : Broadcasts.row)
  : Broadcasts.row :=
  {| Broadcasts.masjidId := Broadcasts.masjidId b;
     Broadcasts.createdBy := Broadcasts.createdBy b;
     Broadcasts.title := Broadcasts.title b;
     Broadcasts.prayerName := Broadcasts.prayerName b;
     Broadcasts.status := Broadcasts.status b;
     Broadcasts.scheduledAt := Broadcasts.scheduledAt b;
     Broadcasts.streamProvider := Broadcasts.streamProvider b;
     Broadcasts.streamRoomId := Broadcasts.streamRoomId b;
     Broadcasts.audioUrl := Broadcasts.audioUrl b;
     Broadcasts.hlsUrl := url;
     Broadcasts.hlsEgressId := egress;
     Broadcasts.hlsRtmpUrl := rtmp;
     Broadcasts.recordingUrl := Broadcasts.recordingUrl b;
     Broadcasts.startedAt := Broadcasts.startedAt b;
     Broadcasts.endedAt := Broadcasts.endedAt b;
     Broadcasts.endedReason := Broadcasts.endedReason b;
     Broadcasts.createdAt := Broadcasts.createdAt b;
     Broadcasts.updatedAt := now |}.

(** [`${n}`] for an integer. *)
Definition decimal (n : Z) : string :=
  DecimalString.NilZero.string_of_int (Z.to_int n).

Module HlsRelay.
Section HlsRelay.
Variable env : Env.
Variable hls : HlsEnv.
Variable ext : Providers.
Variable os : Platform.

(** [value.replace(/\{(broadcastId|roomName)\}/g, (_, key) => params[key] ?? '')]:
    the text is read from the left; [skip] counts the characters of a
    placeholder that are still to be passed over. *)
Fixpoint replaceFrom (skip : nat) (value broadcastId roomName : string) : string :=
  match value with
  | EmptyString => EmptyString
  | String c rest =>
      match skip with
      | S k => replaceFrom k rest broadcastId roomName
      | O =>
          if String.prefix "{broadcastId}" value
          then (broadcastId ++ replaceFrom 12 rest broadcastId roomName)%string
          else if String.prefix "{roomName}" value
          then (roomName ++ replaceFrom 9 rest broadcastId roomName)%string
          else String c (replaceFrom 0 rest broadcastId roomName)
      end
  end.

Definition applyTemplate (value broadcastId roomName : string) : string :=
  replaceFrom 0 value broadcastId roomName.

Definition getRtmpUrls (broadcastId roomName : string) : option string * option string :=
  if negb (Js.truthy (HLS_RTMP_PUBLISH_URL_TEMPLATE hls)) then (None, None)
  else
    let publishUrl :=
      applyTemplate (default "" (HLS_RTMP_PUBLISH_URL_TEMPLATE hls)) broadcastId roomName in
    let playTemplate :=
      Js.or_else (HLS_RTMP_PLAY_URL_TEMPLATE hls) (HLS_RTMP_PUBLISH_URL_TEMPLATE hls) in
    let playUrl := applyTemplate (default "" playTemplate) broadcastId roomName in
    (Some publishUrl, Some playUrl).

Definition ensureOutputDir (broadcastId : string) : M Host string :=
  let dir := path_resolve os [HLS_OUTPUT_DIR hls; "broadcasts"; broadcastId] in
  call (Mkdir dir);;
  if mkdir_fails os dir then throw (DriverError "mkdir") else mret dir.

Definition buildContainerOutputDir (broadcastId : string) : string :=
  path_posix_join os ["/hls"; "broadcasts"; broadcastId].

Definition buildFfmpegArgs (inputUrl outputDir : string) : list string :=
  let bitrate := HLS_AUDIO_BITRATE_KBPS hls in
  let segmentSeconds := Z.max 1 (HLS_SEGMENT_SECONDS hls) in
  [ "-hide_banner"; "-loglevel"; "error"; "-i"; inputUrl; "-vn";
    "-c:a"; "libopus"; "-b:a"; (decimal bitrate ++ "k")%string;
    "-application"; "audio"; "-f"; "hls";
    "-hls_time"; decimal segmentSeconds;
    "-hls_playlist_type"; "event";
    "-hls_flags";
    "delete_segments+append_list+program_date_time+independent_segments";
    "-hls_segment_type"; "fmp4";
    "-hls_list_size"; "6";
    "-hls_fmp4_init_filename"; "init.mp4";
    "-hls_segment_filename"; path_join os [outputDir; "segment_%05d.m4s"];
    path_join os [outputDir; "index.m3u8"] ].

Definition buildDockerArgs (name inputUrl outputDir hostOutputDir : string)
  : list string :=
  ["run"; "--rm"; "--name"; name]
  ++ (if Js.truthy (HLS_FFMPEG_DOCKER_NETWORK hls)
      then ["--network"; default "" (HLS_FFMPEG_DOCKER_NETWORK hls)]
      else [])
  ++ ["-v"; (hostOutputDir ++ ":/hls")%string]
  ++ [HLS_FFMPEG_DOCKER_IMAGE hls; "ffmpeg"]
  ++ buildFfmpegArgs inputUrl outputDir.

(** services/livekit.js; [None] is the [null] returned without a client. *)
Definition startLivekitRtmpEgress (roomName rtmpUrl : string) (audioBitrateKbps : Z)
  : M Host (option (option string)) :=
  if negb (Livekit.hasClient env) then mret None
  else
    call (StartEgress roomName rtmpUrl audioBitrateKbps);;
    match startEgress_result os roomName rtmpUrl with
    | EgressStarted egressId => mret (Some egressId)
    | EgressFailed => throw (DriverError "startRoomCompositeEgress")
    end.

Definition startHlsRelay (broadcastId roomName : string) : M Host (option RelayInfo) :=
  if negb (Hls.isHlsEnabled env) then mret None
  else
    let '(publishUrl, playUrl) := getRtmpUrls broadcastId roomName in
    if negb (Js.truthy publishUrl) || negb (Js.truthy playUrl) then
      throw (DriverError "HLS RTMP URL templates are not configured")
    else
      let publish := default "" publishUrl in
      let play := default "" playUrl in
      outputDir ← ensureOutputDir broadcastId;
      egressInfo ← startLivekitRtmpEgress roomName publish (HLS_AUDIO_BITRATE_KBPS hls);
      let ffmpegMode := HLS_FFMPEG_MODE hls in
      let containerOutputDir := buildContainerOutputDir broadcastId in
      let ffmpegArgs :=
        if String.eqb ffmpegMode "docker"
        then buildDockerArgs (HLS_FFMPEG_CONTAINER_PREFIX hls ++ broadcastId)%string
               play containerOutputDir (HLS_OUTPUT_DIR hls)
        else buildFfmpegArgs play outputDir in
      let ffmpegCommand := if String.eqb ffmpegMode "docker" then "docker" else "ffmpeg" in
      call (Spawn ffmpegCommand ffmpegArgs);;
      let ffmpeg := {| pid := spawn_pid os ffmpegCommand ffmpegArgs |} in
      let relay :=
        {| relay_broadcastId := broadcastId;
           relay_roomName := roomName;
           egressId := egressInfo ≫= id;
           rtmpUrl := publish;
           process := Some ffmpeg |} in
      lift (modify (set_activeRelays (insert broadcastId relay)));;
      mret (Some {| info_hlsUrl := Hls.getHlsPublicUrl env broadcastId;
                    info_egressId := egressId relay;
                    info_rtmpUrl := rtmpUrl relay |}).

(** The handler [startHlsRelay] registers for the [exit] event of the
    transcoder it spawned. *)
Definition ffmpegExited (broadcastId : string) : M World unit :=
  modify (set_activeRelays (delete broadcastId)).

(** The outcome of an awaited call, as a [try] block sees it. *)
Definition settled {A} (m : M Host A) : M Host (Outcome A) :=
  fun h => (Returned (fst (m h)), snd (m h)).

(** Whether the transcoder filed for the broadcast could not be spawned.
    Such a child has no pid and emits [error] on the next tick, which comes
    before any query the caller awaits afterwards is sent.  [startHlsRelay]
    registers listeners for [data] and [exit] and none for [error] (lines
    151 to 164), so the event is thrown out of the event loop: no [catch]
    sees it and the worker process ends. *)
Definition spawnFailed (broadcastId : string) : M Host bool :=
  lift (gets (fun w =>
    match activeRelays w !! broadcastId ≫= process with
    | Some ffmpeg => bool_decide (pid ffmpeg = None)
    | None => false
    end)).

(** worker.js, the branch for a job named [hls-start] (lines 109 to 130).
    What [startHlsRelay] throws is caught and logged; when it returns relay
    information it has just filed the relay of the broadcast, whose child
    tells whether the spawn failed. *)
Definition hlsStartJob (now : Z) (job : Job) : M Host unit :=
  let d := data job in
  if negb (Js.truthy (jd_broadcastId d)) || negb (Js.truthy (jd_roomName d)) then mret tt
  else
    let broadcastId := default "" (jd_broadcastId d) in
    let roomName := default "" (jd_roomName d) in
    started ← settled (startHlsRelay broadcastId roomName);
    match started with
    | Thrown _ => mret tt
    | Returned None => mret tt
    | Returned (Some info) =>
        failed ← spawnFailed broadcastId;
        if failed : bool then throw (DriverError "spawn")
        else
          try_catch
            (if Js.truthy (info_hlsUrl info) then
               lift (update_broadcast broadcastId
                       (set_hls now (info_hlsUrl info) (info_egressId info)
                          (Some (info_rtmpUrl info))) []);;
               mret tt
             else mret tt)
    end.

End HlsRelay.
End HlsRelay.


(** ** Sample data used by the closed examples *)

Module Sample.

Definition env : Env :=
  {| BROADCAST_MAX_MINUTES := Some 15%Z;
     HLS_ENABLED := false;
     HLS_SIGNING_SECRET := Some "s3cret";
     HLS_URL_TTL_SECONDS := Some 900%Z;
     HLS_PUBLIC_BASE_URL := None;
     LIVEKIT_URL := None;
     hasLivekitConfig := false |}.

Definition ext : Providers :=
  {| kill_fails := fun _ => false;
     stopEgress_fails := fun _ => true;
     createRoom_result := fun _ => RoomCreated;
     toJwt := fun identity room _ => (identity ++ "@" ++ room)%string;
     fcm_configured := true;
     fcm_send_error := fun _ => None;
     apns_configured := true;
     apns_send_error := fun _ => Some "BadDeviceToken" |}.

(** The same with the LiveKit settings present. *)
Definition env_livekit : Env :=
  {| BROADCAST_MAX_MINUTES := Some 15%Z;
     HLS_ENABLED := true;
     HLS_SIGNING_SECRET := Some "s3cret";
     HLS_URL_TTL_SECONDS := Some 900%Z;
     HLS_PUBLIC_BASE_URL := None;
     LIVEKIT_URL := Some "wss://livekit.example";
     hasLivekitConfig := true |}.

(** 2023-11-14T22:13:20Z *)
Definition t0 : Z := 1700000000000.

Definition minute : Z := 60000.

(** A Fajr broadcast of masjid [m-1] in the given status. *)
Definition fajr (st : broadcast_status) (started : option Z) : Broadcasts.row :=
  {| Broadcasts.masjidId := "m-1";
     Broadcasts.createdBy := Some "imam";
     Broadcasts.title := Some "Fajr Adhan";
     Broadcasts.prayerName := Some "Fajr";
     Broadcasts.status := st;
     Broadcasts.scheduledAt := Some t0;
     Broadcasts.streamProvider := Some "livekit";
     Broadcasts.streamRoomId := Some "broadcast-b-1";
     Broadcasts.audioUrl := None;
     Broadcasts.hlsUrl := None;
     Broadcasts.hlsEgressId := None;
     Broadcasts.hlsRtmpUrl := None;
     Broadcasts.recordingUrl := None;
     Broadcasts.startedAt := started;
     Broadcasts.endedAt := None;
     Broadcasts.endedReason := None;
     Broadcasts.createdAt := t0;
     Broadcasts.updatedAt := t0 |}.

Definition listener : Subscriptions.row :=
  {| Subscriptions.userId := "u-1";
     Subscriptions.masjidId := "m-1";
     Subscriptions.preferences :=
       Some {| Subscriptions.mutedPrayers := Some ["Fajr"];
               Subscriptions.wakeOnSilent := None |};
     Subscriptions.isMuted := false;
     Subscriptions.muteUntil := None |}.

Definition silenced : Subscriptions.row :=
  {| Subscriptions.userId := "u-2";
     Subscriptions.masjidId := "m-1";
     Subscriptions.preferences := None;
     Subscriptions.isMuted := true;
     Subscriptions.muteUntil := None |}.

Definition phone (device user : string) (p : platform) : UserDevices.row :=
  {| UserDevices.id := device;
     UserDevices.userId := user;
     UserDevices.fcmToken := Some ("fcm-" ++ device)%string;
     UserDevices.voipToken := Some ("voip-" ++ device)%string;
     UserDevices.platform_ := p;
     UserDevices.isActive := true;
     UserDevices.isWakeOnSilentEnabled := true |}.

Definition relay : Relay :=
  {| relay_broadcastId := "b-1";
     relay_roomName := "broadcast-b-1";
     egressId := Some "EG_1";
     rtmpUrl := "rtmp://relay/live/b-1";
     process := Some {| pid := Some 4242%Z |} |}.

(** A store holding the one broadcast [b-1]. *)
Definition world (b : Broadcasts.row) : World :=
  {| broadcasts := {[ "b-1" := b ]};
     masjids := {[ "m-1" := {| Masjids.timezone := "Asia/Kolkata";
                               Masjids.isApproved := true;
                               Masjids.isActive := true |} ]};
     masjidAdmins := [ {| MasjidAdmins.masjidId := "m-1";
                          MasjidAdmins.userId := "imam" |} ];
     subscriptions := [ listener; silenced ];
     userDevices := [ phone "d-1" "u-1" android; phone "d-2" "u-2" ios ];
     notificationLogs := [];
     schedules := [];
     scheduleTemplates := [];
     notificationQueue := [];
     broadcastQueue := [];
     activeRelays := {[ "b-1" := relay ]};
     effects := [] |}.

Definition by_imam {B} (id : string) (b : option B) : Request B :=
  {| user := Some "imam"; params_id := Some id; body := b |}.

Definition auto_end : Job :=
  {| name := "broadcast-auto-end";
     data := {| jd_broadcastId := Some "b-1"; jd_masjidId := None;
                jd_prayerName := None;
                jd_endedReason := Some "max_duration_reached";
                jd_roomName := None |};
     delay := Some (15 * minute)%Z;
     jobId := Some (AutoEndJobId "b-1" None) |}.

End Sample.

(** A masjid in Kolkata with a Fajr template at 05:10, and what luxon
    answers for it around [Sample.t0] (03:43 on 2023-11-15 in Kolkata). *)
Module SampleExpander.

Definition fajr_template : ScheduleTemplates.row :=
  {| ScheduleTemplates.masjidId := "m-1";
     ScheduleTemplates.prayerName := "Fajr";
     ScheduleTemplates.adhanTimeLocal := "05:10:00";
     ScheduleTemplates.iqamahTimeLocal := None;
     ScheduleTemplates.khutbahTimeLocal := None;
     ScheduleTemplates.isJuma := Some false |}.

Definition world : World :=
  {| broadcasts := ∅;
     masjids := {[ "m-1" := {| Masjids.timezone := "Asia/Kolkata";
                               Masjids.isApproved := true;
                               Masjids.isActive := true |} ]};
     masjidAdmins := [];
     subscriptions := [];
     userDevices := [];
     notificationLogs := [];
     schedules := [];
     scheduleTemplates := [ fajr_template ];
     notificationQueue := [];
     broadcastQueue := [];
     activeRelays := ∅;
     effects := [] |}.

(** Kolkata is five and a half hours ahead of UTC. *)
Definition toISODate (zone : string) (now offset : Z) : option string :=
  if String.eqb zone "Asia/Kolkata" then
    let day := ((now + 19800000) / 86400000 + offset)%Z in
    if Z.eqb day 19676 then Some "2023-11-15"
    else if Z.eqb day 19677 then Some "2023-11-16"
    else None
  else None.

Definition fromISO (text zone : string) : option Z :=
  if String.eqb zone "Asia/Kolkata" then
    if String.eqb text "2023-11-15T05:10:00" then Some 1700005200000%Z
    else if String.eqb text "2023-11-16T05:10:00" then Some 1700091600000%Z
    else None
  else None.

End SampleExpander.

(** Stand-ins for the closed examples: integers print in decimal and read
    back, every other text reads as [NaN]; the digest is a keyed tag, which
    is all the statements ask of it. *)
Module SampleCrypto.

Definition ToString (q : QArith_base.Q) : string :=
  DecimalString.NilZero.string_of_int (Z.to_int (Qround.Qfloor q)).

Definition ToNumber (text : string) : JsNumber :=
  match DecimalString.NilZero.int_of_string text with
  | Some d => Finite (QArith_base.inject_Z (Z.of_int d))
  | None => NaN
  end.

Definition hmac (key message : string) : string :=
  String "h" (key ++ ":" ++ message)%string.

Definition verifyAccessToken (token : string) : option (option string) :=
  if String.eqb token "token-of-u-1" then Some (Some "u-1") else None.

Definition basename (file : string) : string := file.

Definition existsSync (id file : string) : bool :=
  String.eqb id "b-1" && String.eqb file "index.m3u8".

(** The keys of the sample rows stand for uuids. *)
Definition is_uuid (id : string) : bool := String.prefix "b-" id.

(** The database reads the timestamps of the years 1 to 9999. *)
Definition acceptsTimestamp (t : Z) : bool :=
  ((-62135596800000 <=? t) && (t <? 253402300800000))%Z.

End SampleCrypto.

(** A live Fajr broadcast that already has an [hlsUrl], a publisher and a
    listener request for it, and a configuration with HLS on but no signing
    secret. *)
Module SampleTokens.

Definition env_unsigned : Env :=
  {| BROADCAST_MAX_MINUTES := Some 15%Z;
     HLS_ENABLED := true;
     HLS_SIGNING_SECRET := None;
     HLS_URL_TTL_SECONDS := Some 900%Z;
     HLS_PUBLIC_BASE_URL := Some "https://cdn.example/hls";
     LIVEKIT_URL := Some "wss://livekit.example";
     hasLivekitConfig := true |}.

(** LiveKit configured, HLS off. *)
Definition env_rooms : Env :=
  {| BROADCAST_MAX_MINUTES := Some 15%Z;
     HLS_ENABLED := false;
     HLS_SIGNING_SECRET := None;
     HLS_URL_TTL_SECONDS := None;
     HLS_PUBLIC_BASE_URL := None;
     LIVEKIT_URL := Some "wss://livekit.example";
     hasLivekitConfig := true |}.

Definition streaming : Broadcasts.row :=
  {| Broadcasts.masjidId := "m-1";
     Broadcasts.createdBy := Some "imam";
     Broadcasts.title := Some "Fajr Adhan";
     Broadcasts.prayerName := Some "Fajr";
     Broadcasts.status := live;
     Broadcasts.scheduledAt := Some Sample.t0;
     Broadcasts.streamProvider := Some "livekit";
     Broadcasts.streamRoomId := Some "broadcast-b-1";
     Broadcasts.audioUrl := None;
     Broadcasts.hlsUrl := Some "https://cdn.example/hls/broadcasts/b-1/index.m3u8";
     Broadcasts.hlsEgressId := None;
     Broadcasts.hlsRtmpUrl := None;
     Broadcasts.recordingUrl := None;
     Broadcasts.startedAt := Some Sample.t0;
     Broadcasts.endedAt := None;
     Broadcasts.endedReason := None;
     Broadcasts.createdAt := Sample.t0;
     Broadcasts.updatedAt := Sample.t0 |}.

Definition by_user (u id : string) : Request unit :=
  {| user := Some u; params_id := Some id; body := None |}.

End SampleTokens.


(** The Kolkata masjid of [SampleExpander] one minute before its Fajr
    adhan of 2023-11-15 (05:10 local, 23:40 UTC the day before). *)
Module SamplePlanner.

Definition now : Z := 1700005140000.

Definition gen_random_uuid (tbl : gmap string Broadcasts.row) : string := "planned-1".

Definition fajr_occurrence : Schedules.row :=
  {| Schedules.masjidId := "m-1";
     Schedules.date := "2023-11-15";
     Schedules.prayerName := "Fajr";
     Schedules.time := "05:10:00";
     Schedules.adhanAtUtc := 1700005200000;
     Schedules.iqamahAtUtc := None;
     Schedules.khutbahAtUtc := None;
     Schedules.isJuma := false |}.

End SamplePlanner.


(** No opening brace: the text holds no placeholder. *)
Fixpoint plain (value : string) : bool :=
  match value with
  | EmptyString => true
  | String c rest => negb (Ascii.eqb c "{") && plain rest
  end.


(** The entry [startHlsRelay] files for a transcoder it spawned. *)
Definition relayOf (broadcastId roomName : string) (egress : option string)
  (publish : string) (p : option Z) : Relay :=
  {| relay_broadcastId := broadcastId;
     relay_roomName := roomName;
     egressId := egress;
     rtmpUrl := publish;
     process := Some {| pid := p |} |}.

Definition isSpawn (c : HostCall) : Prop :=
  match c with Spawn _ _ => True | _ => False end.

(** A relay host whose directories can be made, whose egress service
    answers and whose spawns succeed. *)
Module SampleRelay.

Definition hls : HlsEnv :=
  {| HLS_RTMP_PUBLISH_URL_TEMPLATE := Some "rtmp://relay/live/{broadcastId}";
     HLS_RTMP_PLAY_URL_TEMPLATE := None;
     HLS_OUTPUT_DIR := "/var/hls";
     HLS_AUDIO_BITRATE_KBPS := 64;
     HLS_SEGMENT_SECONDS := 2;
     HLS_FFMPEG_MODE := "host";
     HLS_FFMPEG_CONTAINER_PREFIX := "hls-";
     HLS_FFMPEG_DOCKER_NETWORK := None;
     HLS_FFMPEG_DOCKER_IMAGE := "ffmpeg:latest" |}.

Definition joined (parts : list string) : string :=
  foldr (fun part rest => if String.eqb rest "" then part
                          else (part ++ "/" ++ rest)%string) "" parts.

Definition os : Platform :=
  {| path_resolve := joined;
     path_join := joined;
     path_posix_join := joined;
     mkdir_fails := fun _ => false;
     startEgress_result := fun _ _ => EgressStarted (Some "EG_2");
     spawn_pid := fun _ _ => Some 777%Z |}.

Definition host : Host :=
  {| host_world := SampleExpander.world; host_calls := [] |}.

End SampleRelay.


(** The occurrence row a template yields for the day [offset] days after
    the local day of [now]. *)
Definition fromTemplate (toISODate : string -> Z -> Z -> option string)
  (fromISO : string -> string -> option Z) (now : Z)
  (template : ScheduleTemplates.row * string) (offset : Z) (row : Schedules.row) : Prop :=
  let t := fst template in
  let zone := Scheduler.zoneOf template in
  exists d adhan,
    toISODate zone now offset = Some d
    /\ fromISO (d ++ "T" ++ ScheduleTemplates.adhanTimeLocal t)%string zone = Some adhan
    /\ Schedules.masjidId row = ScheduleTemplates.masjidId t
    /\ Schedules.date row = d
    /\ Schedules.prayerName row = ScheduleTemplates.prayerName t
    /\ Schedules.time row = ScheduleTemplates.adhanTimeLocal t
    /\ Schedules.adhanAtUtc row = adhan
    /\ Schedules.isJuma row
       = Js.coalesce_def (ScheduleTemplates.isJuma t)
           (String.eqb (ScheduleTemplates.prayerName t) "Juma").


(** * Properties *)

(** ** Relay table (services/hls.js) *)

Section RelayFacts.
Variable env : Env.
Variable ext : Providers.

Lemma stopHlsRelay_absent (id : string) (w : World) :
  activeRelays w !! id = None ->
  Hls.stopHlsRelay env ext id w = (Returned None, w).
Proof.
  intros Habsent. unfold Hls.stopHlsRelay.
  cbv [mbind M_bind bind gets]. rewrite Habsent. reflexivity.
Qed.

Lemma stopHlsRelay_returns (id : string) (w : World) :
  exists r, fst (Hls.stopHlsRelay env ext id w) = Returned r.
Proof.
  unfold Hls.stopHlsRelay. cbv [mbind M_bind bind gets].
  destruct (activeRelays w !! id) as [relay|]; [|by eexists].
  cbv [try_catch when_ modify mret M_ret ret].
  destruct (Js.truthy (egressId relay)); by eexists.
Qed.

Lemma stopHlsRelay_removes (id : string) (w : World) :
  activeRelays (snd (Hls.stopHlsRelay env ext id w)) !! id = None.
Proof.
  unfold Hls.stopHlsRelay. cbv [mbind M_bind bind gets].
  destruct (activeRelays w !! id) as [relay|] eqn:Hrelay; [|done].
  cbv [try_catch when_ modify mret M_ret ret].
  destruct (Js.truthy (egressId relay)); simpl; apply lookup_delete_eq.
Qed.

End RelayFacts.

(** ** Lifecycle (controller and broadcasts worker) *)

(** Unfolds the monadic plumbing of a handler applied to a world. *)
Ltac run :=
  cbv [mbind M_bind bind mret M_ret ret gets modify throw when_ try_catch
       emit notificationQueue_add broadcastQueue_add
       select_broadcast update_broadcast
       Controller.actor Controller.broadcast_id
       Controller.requireMasjidAuthority Controller.markBroadcastExpired
       Livekit.ensureLivekitRoom Livekit.deleteLivekitRoom
       Livekit.stopLivekitEgress Hls.stopHlsRelay Hls.kill Worker.resolve].

Lemma status_label_inj (a b : broadcast_status) :
  status_label a = status_label b -> a = b.
Proof. destruct a, b; simpl; congruence. Qed.

Lemma is_status (st lit : broadcast_status) :
  String.eqb (status_label st) (status_label lit) = bool_decide (st = lit).
Proof.
  destruct (String.eqb_spec (status_label st) (status_label lit)) as [H|H].
  - apply status_label_inj in H. by rewrite bool_decide_eq_true_2.
  - rewrite bool_decide_eq_false_2; [done|]. intros ->. done.
Qed.

(** A property of the world that every iteration keeps is kept by the
    loop, whether it runs to its end or stops at an exception. *)
Lemma for_each_keeps {A} (body : A -> M World unit) (P : World -> Prop) (xs : list A) :
  (forall x w, x ∈ xs -> P w -> P (snd (body x w))) ->
  forall w, P w -> P (snd (for_each xs body w)).
Proof.
  induction xs as [|x xs IH]; intros Hbody w Hw; [done|].
  simpl. unfold bind.
  pose proof (Hbody x w ltac:(left) Hw) as Hx.
  destruct (body x w) as [[u|e] w1]; simpl in *; [|done].
  apply IH; [|done]. intros y w2 Hy. apply Hbody. by right.
Qed.

Section Lifecycle.
Variable env : Env.
Variable ext : Providers.

Lemma start_on_live now (request : Request StartBody) (w : World) a id b :
  user request = Some a -> a <> "" ->
  params_id request = Some id -> id <> "" ->
  broadcasts w !! id = Some b -> Broadcasts.status b = live ->
  Controller.startBroadcast env ext now request w
  = (Thrown (ApiError 409 "conflict" "Broadcast already live"), w).
Proof.
  intros Hu Ha Hp Hi Hb Hs.
  unfold Controller.startBroadcast. run. rewrite Hu, Hp.
  destruct (String.eqb_spec a ""); [done|].
  destruct (String.eqb_spec id ""); [done|].
  rewrite Hb. simpl. rewrite Hs. reflexivity.
Qed.

Lemma start_on_completed now (request : Request StartBody) (w : World) a id b :
  user request = Some a -> a <> "" ->
  params_id request = Some id -> id <> "" ->
  broadcasts w !! id = Some b -> Broadcasts.status b = completed ->
  Controller.startBroadcast env ext now request w
  = (Thrown (ApiError 409 "conflict" "Broadcast already ended"), w).
Proof.
  intros Hu Ha Hp Hi Hb Hs.
  unfold Controller.startBroadcast. run. rewrite Hu, Hp.
  destruct (String.eqb_spec a ""); [done|].
  destruct (String.eqb_spec id ""); [done|].
  rewrite Hb. simpl. rewrite Hs. reflexivity.
Qed.

Lemma end_on_completed now (request : Request EndBody) (w : World) a id b :
  user request = Some a -> a <> "" ->
  params_id request = Some id -> id <> "" ->
  broadcasts w !! id = Some b -> Broadcasts.status b = completed ->
  Controller.endBroadcast env now request w
  = (Thrown (ApiError 409 "conflict" "Broadcast already ended"), w).
Proof.
  intros Hu Ha Hp Hi Hb Hs.
  unfold Controller.endBroadcast. run. rewrite Hu, Hp.
  destruct (String.eqb_spec a ""); [done|].
  destruct (String.eqb_spec id ""); [done|].
  rewrite Hb. simpl. rewrite Hs. reflexivity.
Qed.

(** A handler that rewrites one row leaves every other row, and every
    completed row, as it was. *)
Lemma start_keeps_completed now (request : Request StartBody) (w : World) k b :
  broadcasts w !! k = Some b -> Broadcasts.status b = completed ->
  broadcasts (snd (Controller.startBroadcast env ext now request w)) !! k = Some b.
Proof.
  intros Hb Hs.
  unfold Controller.startBroadcast. run.
  destruct (user request) as [a|]; [|done].
  destruct (String.eqb a ""); [done|].
  destruct (params_id request) as [id|]; [|done].
  destruct (String.eqb id ""); [done|].
  destruct (broadcasts w !! id) as [b0|] eqn:Hb0; [|done].
  simpl.
  destruct (Broadcasts.status b0) eqn:Hs0; simpl; try done.
  all: assert (k <> id) by (intros ->; congruence).
  all: repeat (case_match; simpl in *; simplify_eq; try done).
  all: rewrite ?lookup_insert_ne by done; try done.
Qed.

Lemma end_keeps_completed now (request : Request EndBody) (w : World) k b :
  broadcasts w !! k = Some b -> Broadcasts.status b = completed ->
  broadcasts (snd (Controller.endBroadcast env now request w)) !! k = Some b.
Proof.
  intros Hb Hs.
  unfold Controller.endBroadcast. run.
  destruct (user request) as [a|]; [|done].
  destruct (String.eqb a ""); [done|].
  destruct (params_id request) as [id|]; [|done].
  destruct (String.eqb id ""); [done|].
  destruct (broadcasts w !! id) as [b0|] eqn:Hb0; [|done].
  simpl.
  destruct (Broadcasts.status b0) eqn:Hs0; simpl; try done.
  all: assert (k <> id) by (intros ->; congruence).
  all: repeat (case_match; simpl in *; simplify_eq; try done).
  all: cbn [snd broadcasts set_broadcastQueue set_notificationQueue set_broadcasts].
  all: rewrite ?lookup_insert_ne by done; try done.
Qed.

(** [stopHlsRelay] and [deleteLivekitRoom] never touch the store. *)
Lemma stopHlsRelay_broadcasts id (w : World) :
  broadcasts (snd (Hls.stopHlsRelay env ext id w)) = broadcasts w.
Proof.
  run. destruct (activeRelays w !! id) as [relay|]; [|done].
  repeat (case_match; simpl in *; simplify_eq; try done).
Qed.

Lemma stopHlsRelay_total id (w : World) :
  exists r, fst (Hls.stopHlsRelay env ext id w) = Returned r.
Proof. apply stopHlsRelay_returns. Qed.

Lemma deleteLivekitRoom_spec room (w : World) :
  exists w', Livekit.deleteLivekitRoom env room w = (Returned tt, w')
             /\ broadcasts w' = broadcasts w.
Proof.
  run. destruct (negb (Livekit.hasClient env) || negb (Js.truthy room));
    eexists; split; reflexivity.
Qed.

(** The auto-end handler acts on live broadcasts only. *)
Lemma autoEnd_keeps_not_live now (job : Job) (w : World) k b :
  broadcasts w !! k = Some b -> Broadcasts.status b <> live ->
  broadcasts (snd (Worker.autoEndJob env ext now job w)) !! k = Some b.
Proof.
  intros Hb Hs.
  unfold Worker.autoEndJob. cbv [mbind M_bind bind mret M_ret ret gets select_broadcast].
  destruct (negb (Js.truthy (jd_broadcastId (data job)))); [done|].
  set (id := default "" (jd_broadcastId (data job))).
  destruct (broadcasts w !! id) as [b0|] eqn:Hb0; [|done].
  simpl. rewrite (is_status _ live).
  destruct (decide (Broadcasts.status b0 = live)) as [Hlive|Hn].
  - rewrite bool_decide_eq_true_2 by done. simpl.
    assert (k <> id) by (intros ->; congruence).
    run. rewrite Hb0.
    repeat (case_match; simpl in *; simplify_eq; try done).
    all: cbn [snd broadcasts set_broadcastQueue set_notificationQueue
              set_broadcasts set_effects set_activeRelays].
    all: rewrite ?lookup_insert_ne by done; try done.
  - rewrite bool_decide_eq_false_2 by done. done.
Qed.

(** The sweep, under whatever bindings, rewrites live rows only. *)
Lemma cleanup_keeps_not_live scope now (w : World) k b :
  broadcasts w !! k = Some b -> Broadcasts.status b <> live ->
  broadcasts (snd (Worker.cleanupExpiredBroadcasts env ext scope now w)) !! k = Some b.
Proof.
  intros Hb Hs.
  unfold Worker.cleanupExpiredBroadcasts, Worker.resolve.
  cbv [mbind M_bind bind mret M_ret ret gets throw].
  destruct (listed scope "and"); [|done].
  destruct (listed scope "eq"); [|done].
  destruct (listed scope "lt"); [|done].
  case_bool_decide; [done|].
  apply (for_each_keeps _ (fun w1 => broadcasts w1 !! k = Some b)); [|done].
  intros [k' b'] w1 Hin Hw1.
  apply elem_of_map_to_list, map_lookup_filter_Some in Hin as [Hk' Hexp].
  simpl in Hexp. unfold Worker.expiredBy in Hexp.
  apply andb_prop in Hexp as [Hlive _]. apply bool_decide_eq_true_1 in Hlive.
  assert (k <> k') by (intros ->; congruence).
  run. simpl.
  repeat (case_match; simpl in *; simplify_eq; try done).
  all: cbn [snd broadcasts set_broadcastQueue set_notificationQueue
            set_broadcasts set_effects set_activeRelays].
  all: rewrite ?lookup_insert_ne by done; try done.
Qed.

(** With the bindings worker.js has, the sweep stops at the unbound
    name before it reads or writes anything. *)
Lemma cleanup_throws now (w : World) :
  Worker.cleanupExpiredBroadcasts env ext Worker.imports now w
  = (Thrown (ReferenceError "lt"), w).
Proof. reflexivity. Qed.

Lemma sweep_noop now (w : World) :
  Worker.sweep env ext now w = (Returned tt, w).
Proof. reflexivity. Qed.

(** [endBroadcast] is open to every status but completed. *)
Lemma end_from_non_completed now (request : Request EndBody) (w : World) a id b :
  user request = Some a -> a <> "" ->
  params_id request = Some id -> id <> "" ->
  broadcasts w !! id = Some b -> Broadcasts.status b <> completed ->
  Controller.isAdmin w a (Broadcasts.masjidId b) = true ->
  exists u,
    fst (Controller.endBroadcast env now request w) = Returned u
    /\ Broadcasts.status <$> broadcasts (snd (Controller.endBroadcast env now request w)) !! id
       = Some completed.
Proof.
  intros Hu Ha Hp Hi Hb Hs Hadmin.
  unfold Controller.endBroadcast. run. rewrite Hu, Hp.
  destruct (String.eqb_spec a ""); [done|].
  destruct (String.eqb_spec id ""); [done|].
  rewrite Hb. simpl. rewrite (is_status _ completed).
  rewrite bool_decide_eq_false_2 by done. rewrite Hadmin, Hb.
  destruct (Hls.isHlsEnabled env); simpl; eexists; (split; [reflexivity|]);
    by rewrite lookup_insert_eq.
Qed.

End Lifecycle.

(** *** Terminal states *)

(** C1 (as amended).  A completed broadcast is never changed again:
    [startBroadcast], [endBroadcast], the auto-end job and the sweep (under
    any bindings, and as worker.js runs it) leave its record as it is, and
    [startBroadcast] and [endBroadcast] aimed at it throw a 409 Conflict
    with the store, the queues and the relay table untouched.  A failed
    broadcast is left alone by the auto-end job and by the sweep, while
    [endBroadcast] accepts it, as it accepts every broadcast that is not
    completed, and completes it. *)
Theorem terminal_state_amended (env : Env) (ext : Providers) (w : World)
  (k : string) (b : Broadcasts.row) :
  broadcasts w !! k = Some b ->
  (Broadcasts.status b = completed ->
     (forall now request,
        broadcasts (snd (Controller.startBroadcast env ext now request w)) !! k = Some b)
     /\ (forall now request,
           broadcasts (snd (Controller.endBroadcast env now request w)) !! k = Some b)
     /\ (forall now (request : Request StartBody) a,
           user request = Some a -> a <> "" -> params_id request = Some k -> k <> "" ->
           exists e, Controller.startBroadcast env ext now request w = (Thrown e, w)
                     /\ Conflict e)
     /\ (forall now (request : Request EndBody) a,
           user request = Some a -> a <> "" -> params_id request = Some k -> k <> "" ->
           exists e, Controller.endBroadcast env now request w = (Thrown e, w)
                     /\ Conflict e))
  /\ (Broadcasts.status b = completed \/ Broadcasts.status b = failed ->
        (forall now job,
           broadcasts (snd (Worker.autoEndJob env ext now job w)) !! k = Some b)
        /\ (forall scope now,
              broadcasts (snd (Worker.cleanupExpiredBroadcasts env ext scope now w)) !! k
              = Some b)
        /\ (forall now, broadcasts (snd (Worker.sweep env ext now w)) !! k = Some b))
  /\ (Broadcasts.status b <> completed ->
      forall now (request : Request EndBody) a,
        user request = Some a -> a <> "" -> params_id request = Some k -> k <> "" ->
        Controller.isAdmin w a (Broadcasts.masjidId b) = true ->
        exists u,
          fst (Controller.endBroadcast env now request w) = Returned u
          /\ Broadcasts.status
               <$> broadcasts (snd (Controller.endBroadcast env now request w)) !! k
             = Some completed).
Proof.
  intros Hb. split; [|split].
  - intros Hs. repeat split.
    + intros. by apply start_keeps_completed.
    + intros. by apply end_keeps_completed.
    + intros now request a Hu Ha Hp Hk. eexists. split.
      * by eapply start_on_completed.
      * by eexists.
    + intros now request a Hu Ha Hp Hk. eexists. split.
      * by eapply end_on_completed.
      * by eexists.
  - intros Hs.
    assert (Broadcasts.status b <> live) as Hn by (destruct Hs as [-> | ->]; done).
    repeat split.
    + intros. by apply autoEnd_keeps_not_live.
    + intros. by apply cleanup_keeps_not_live.
    + intros. by rewrite sweep_noop.
  - intros Hs now request a Hu Ha Hp Hk Hadmin.
    by eapply end_from_non_completed.
Qed.

Lemma terminal_state_amended_witness :
  exists e,
    Controller.startBroadcast Sample.env Sample.ext (Sample.t0 + Sample.minute)
      (Sample.by_imam "b-1" None)
      (Sample.world (Sample.fajr completed (Some Sample.t0)))
    = (Thrown e, Sample.world (Sample.fajr completed (Some Sample.t0)))
    /\ Conflict e.
Proof.
  destruct (terminal_state_amended Sample.env Sample.ext
              (Sample.world (Sample.fajr completed (Some Sample.t0)))
              "b-1" (Sample.fajr completed (Some Sample.t0)) eq_refl)
    as (Hcompleted & _ & _).
  destruct (Hcompleted eq_refl) as (_ & _ & Hstart & _).
  apply (Hstart _ _ "imam"); [reflexivity | discriminate | reflexivity | discriminate].
Defined.

(** C1 as stated fails: [endBroadcast] on a failed broadcast does not throw
    a Conflict; it returns and the broadcast is completed. *)
Lemma terminal_state_counterexample :
  let w := Sample.world (Sample.fajr failed None) in
  let r := Controller.endBroadcast Sample.env (Sample.t0 + Sample.minute)
             (Sample.by_imam "b-1" None) w in
  Broadcasts.status <$> broadcasts w !! "b-1" = Some failed
  /\ ~ (exists e, fst r = Thrown e /\ Conflict e)
  /\ Broadcasts.status <$> broadcasts (snd r) !! "b-1" = Some completed.
Proof.
  simpl. split; [reflexivity|]. split.
  - intros (e & He & _). vm_compute in He. discriminate.
  - vm_compute. reflexivity.
Qed.

(** [startBroadcast] has no guard for a failed broadcast either: it goes
    live. *)
Lemma start_on_failed_goes_live :
  let w := Sample.world (Sample.fajr failed None) in
  let r := Controller.startBroadcast Sample.env Sample.ext (Sample.t0 + Sample.minute)
             (Sample.by_imam "b-1" None) w in
  Broadcasts.status <$> broadcasts (snd r) !! "b-1" = Some live.
Proof. vm_compute. reflexivity. Qed.

(** *** The auto-end job *)

(** The row object of the handler has no [startedAt] property, whatever
    the row holds. *)
Lemma autoEnd_record_has_no_startedAt id (b : Broadcasts.row) :
  prop (select ["id"; "status"; "streamRoomId"] id b) "startedAt" = None.
Proof. reflexivity. Qed.

Section AutoEnd.
Variable env : Env.
Variable ext : Providers.

(** So the handler never puts a job back on the queue. *)
Lemma autoEnd_never_reschedules now (job : Job) (w : World) :
  broadcastQueue (snd (Worker.autoEndJob env ext now job w)) = broadcastQueue w.
Proof.
  unfold Worker.autoEndJob. run.
  destruct (negb (Js.truthy (jd_broadcastId (data job)))); [done|].
  destruct (broadcasts w !! default "" (jd_broadcastId (data job))) as [b|]; [|done].
  simpl.
  repeat (case_match; simpl in *; simplify_eq; try done).
Qed.

(** Whenever it finds the broadcast live, it completes it. *)
Lemma autoEnd_live_completes now (job : Job) (w : World) id b :
  jd_broadcastId (data job) = Some id -> id <> "" ->
  broadcasts w !! id = Some b -> Broadcasts.status b = live ->
  Broadcasts.status <$> broadcasts (snd (Worker.autoEndJob env ext now job w)) !! id
  = Some completed.
Proof.
  intros Hid Hne Hb Hs.
  unfold Worker.autoEndJob. run. rewrite Hid. simpl.
  destruct (String.eqb_spec id ""); [done|]. simpl.
  rewrite Hb. simpl. rewrite Hs. simpl. rewrite Hb.
  repeat (case_match; simpl in *; simplify_eq; try done).
  all: cbn [snd broadcasts set_broadcastQueue set_notificationQueue
            set_broadcasts set_effects set_activeRelays].
  all: by rewrite lookup_insert_eq.
Qed.

End AutoEnd.

(** C2.  The handler fired one minute after the start of a live broadcast
    whose ceiling is fifteen minutes: the broadcast is completed and no
    auto-end job is enqueued. *)
Theorem autoEnd_early_firing_completes :
  let w := Sample.world (Sample.fajr live (Some Sample.t0)) in
  let r := Worker.autoEndJob Sample.env Sample.ext (Sample.t0 + Sample.minute)
             Sample.auto_end w in
  fst r = Returned tt
  /\ Broadcasts.status <$> broadcasts (snd r) !! "b-1" = Some completed
  /\ broadcastQueue (snd r) = []
  /\ notificationQueue (snd r) = [end_job (Some "b-1") (Some "m-1")].
Proof. vm_compute. repeat split; reflexivity. Qed.

(** *** The sweep *)

(** C3.  A broadcast live for an hour, ceiling fifteen minutes: every run
    of the sweep throws [ReferenceError: lt is not defined] and changes
    nothing; the broadcast stays live and no end notification is enqueued. *)
Theorem sweep_leaves_expired_live :
  let w := Sample.world (Sample.fajr live (Some Sample.t0)) in
  let now := (Sample.t0 + 60 * Sample.minute)%Z in
  Worker.cleanupExpiredBroadcasts Sample.env Sample.ext Worker.imports now w
  = (Thrown (ReferenceError "lt"), w)
  /\ Worker.sweep Sample.env Sample.ext now w = (Returned tt, w)
  /\ Broadcasts.status <$> broadcasts w !! "b-1" = Some live
  /\ notificationQueue w = [].
Proof. repeat split; reflexivity. Qed.

(** Had [lt] been imported, the same run would have completed it. *)
Lemma sweep_with_lt_completes :
  let w := Sample.world (Sample.fajr live (Some Sample.t0)) in
  let r := Worker.cleanupExpiredBroadcasts Sample.env Sample.ext
             ("lt" :: Worker.imports) (Sample.t0 + 60 * Sample.minute) w in
  fst r = Returned tt
  /\ (fun b => (Broadcasts.status b, Broadcasts.endedReason b))
       <$> broadcasts (snd r) !! "b-1"
     = Some (completed, Some "max_duration_reached")
  /\ notificationQueue (snd r) = [end_job (Some "b-1") (Some "m-1")].
Proof. vm_compute. repeat split; reflexivity. Qed.

(** *** Starting a stale live broadcast *)

(** C4.  [startBroadcast] on a broadcast live for an hour, ceiling fifteen
    minutes: the answer is 409 "Broadcast already live", the record stays
    live and nothing is enqueued. *)
Theorem start_on_stale_live_not_healed :
  let w := Sample.world (Sample.fajr live (Some Sample.t0)) in
  Controller.startBroadcast Sample.env Sample.ext (Sample.t0 + 60 * Sample.minute)
    (Sample.by_imam "b-1" None) w
  = (Thrown (ApiError 409 "conflict" "Broadcast already live"), w).
Proof. vm_compute. reflexivity. Qed.

(** The expiry test itself is right: on a row object that carries
    [startedAt], as the token handlers select it, the same instant counts
    as expired; on the object [startBroadcast] selects it never does. *)
Lemma isBroadcastExpired_needs_startedAt :
  let b := Sample.fajr live (Some Sample.t0) in
  let now := (Sample.t0 + 60 * Sample.minute)%Z in
  Controller.isBroadcastExpired Sample.env now
    (prop (select ["id"; "masjidId"; "status"; "startedAt"; "streamProvider";
                   "streamRoomId"; "audioUrl"; "hlsUrl"] "b-1" b) "startedAt") = true
  /\ Controller.isBroadcastExpired Sample.env now
       (prop (select ["id"; "masjidId"; "status"; "prayerName"; "streamProvider";
                      "streamRoomId"; "audioUrl"] "b-1" b) "startedAt") = false.
Proof. split; reflexivity. Qed.

(** *** Stopping a relay *)

(** C9.  [stopHlsRelay] on an id without an entry returns [null] and leaves
    the world (table, store, queues, external calls) as it was; every call
    returns, leaves no entry for the id, and makes a second call such a
    no-op. *)
Theorem stopHlsRelay_idempotent (env : Env) (ext : Providers) (id : string) (w : World) :
  (activeRelays w !! id = None ->
     Hls.stopHlsRelay env ext id w = (Returned None, w))
  /\ (exists r, fst (Hls.stopHlsRelay env ext id w) = Returned r)
  /\ activeRelays (snd (Hls.stopHlsRelay env ext id w)) !! id = None
  /\ Hls.stopHlsRelay env ext id (snd (Hls.stopHlsRelay env ext id w))
     = (Returned None, snd (Hls.stopHlsRelay env ext id w)).
Proof.
  repeat split.
  - apply stopHlsRelay_absent.
  - apply stopHlsRelay_returns.
  - apply stopHlsRelay_removes.
  - apply stopHlsRelay_absent, stopHlsRelay_removes.
Qed.

(** A live relay: the transcoder is signalled, the egress stop is tried
    (and here fails), the entry goes all the same. *)
Lemma stopHlsRelay_live_relay :
  let r := Hls.stopHlsRelay Sample.env_livekit Sample.ext "b-1"
             (Sample.world (Sample.fajr live (Some Sample.t0))) in
  fst r = Returned (Some true)
  /\ effects (snd r) = [Kill 4242 "SIGTERM"; StopEgress "EG_1"]
  /\ activeRelays (snd r) = ∅.
Proof. vm_compute. repeat split; reflexivity. Qed.

Lemma stopHlsRelay_idempotent_witness :
  Hls.stopHlsRelay Sample.env Sample.ext "b-2" (Sample.world (Sample.fajr live None))
  = (Returned None, Sample.world (Sample.fajr live None)).
Proof.
  apply (proj1 (stopHlsRelay_idempotent Sample.env Sample.ext "b-2"
                  (Sample.world (Sample.fajr live None)))).
  reflexivity.
Defined.
Lemma truthy_Some (s : string) : Js.truthy (Some s) = true <-> s <> "".
Proof.
  unfold Js.truthy. destruct (String.eqb_spec s ""); simpl; split; congruence.
Qed.

(** ** Notification fan-out (worker.js) *)



Lemma listed_true (xs : list string) (x : string) : listed xs x = true <-> x ∈ xs.
Proof.
  unfold listed. rewrite existsb_exists. split.
  - intros (y & Hin & Heq). apply String.eqb_eq in Heq. subst.
    by apply list_elem_of_In.
  - intros Hin. exists x. split; [by apply list_elem_of_In | apply String.eqb_refl].
Qed.

Section Fanout.
Variable env : Env.
Variable ext : Providers.

Lemma elem_of_recipients (w : World) (masjid : string) s d :
  (s, d) ∈ Worker.recipients w masjid
  <-> s ∈ subscriptions w /\ Subscriptions.masjidId s = masjid
      /\ d ∈ userDevices w /\ UserDevices.userId d = Subscriptions.userId s
      /\ UserDevices.isActive d = true.
Proof.
  unfold Worker.recipients. rewrite list_elem_of_bind. split.
  - intros (s' & Hin & Hs'). apply list_elem_of_filter in Hs' as [Hm Hs'].
    apply list_elem_of_bind in Hin as (d' & Hin & Hd').
    apply list_elem_of_filter in Hd' as [[Hu Ha] Hd'].
    apply list_elem_of_singleton in Hin. by simplify_eq.
  - intros (Hs & Hm & Hd & Hu & Ha). exists s. split.
    + apply list_elem_of_bind. exists d. split; [by apply list_elem_of_singleton|].
      by apply list_elem_of_filter.
    + by apply list_elem_of_filter.
Qed.

(** A provider call sends at most one push, to the given pair, with the
    given body. *)
Lemma send_spec (d : UserDevices.row) (payload : Payload) (u dev : string)
  (trace : list Push) :
  exists T,
    snd (match UserDevices.platform_ d with
         | ios => Worker.sendVoipPush ext (UserDevices.voipToken d) payload u dev trace
         | _ => Worker.sendFcmData ext (UserDevices.fcmToken d) payload u dev trace
         end) = trace ++ T
    /\ (forall p, p ∈ T -> push_user p = u /\ push_device p = dev /\ push_data p = payload)
    /\ (deliverable ext d = true -> exists p, p ∈ T).
Proof.
  assert (forall (P : Push -> Prop) (b : bool),
            exists T : list Push, trace = trace ++ T
              /\ (forall p, p ∈ T -> P p) /\ (b && false = true -> exists p, p ∈ T)) as Hnone.
  { intros P b. exists []. split; [by rewrite app_nil_r|].
    split; [intros p Hp; by apply not_elem_of_nil in Hp|].
    rewrite andb_false_r. discriminate. }
  assert (forall (P : Push -> Prop) (Q : Prop) (p0 : Push), P p0 ->
            exists T : list Push, trace ++ [p0] = trace ++ T
              /\ (forall p, p ∈ T -> P p) /\ (Q -> exists p, p ∈ T)) as Hone.
  { intros P Q p0 Hp0. exists [p0]. split; [done|].
    split; [intros p Hp; apply list_elem_of_singleton in Hp; by subst|].
    intros _. exists p0. by left. }
  unfold Worker.sendVoipPush, Worker.sendFcmData, deliverable.
  destruct (UserDevices.platform_ d).
  - destruct (Js.truthy (UserDevices.fcmToken d)); simpl.
    2:{ exists []. split; [by rewrite app_nil_r|].
        split; [intros p Hp; by apply not_elem_of_nil in Hp | discriminate]. }
    destruct (fcm_configured ext); simpl; [|apply (Hnone _ true)].
    destruct (fcm_send_error ext _); simpl; by apply Hone.
  - destruct (Js.truthy (UserDevices.voipToken d)); simpl.
    2:{ exists []. split; [by rewrite app_nil_r|].
        split; [intros p Hp; by apply not_elem_of_nil in Hp | discriminate]. }
    destruct (apns_configured ext); simpl; [|apply (Hnone _ true)].
    destruct (apns_send_error ext _); simpl; by apply Hone.
  - destruct (Js.truthy (UserDevices.fcmToken d)); simpl.
    2:{ exists []. split; [by rewrite app_nil_r|].
        split; [intros p Hp; by apply not_elem_of_nil in Hp | discriminate]. }
    destruct (fcm_configured ext); simpl; [|apply (Hnone _ true)].
    destruct (fcm_send_error ext _); simpl; by apply Hone.
Qed.

(** The loop adds one row for each result that passes the three guards,
    and nothing for the others. *)
Lemma fanout_spec now ev broadcastId masjid prayer (rec : JsObject) results :
  forall logs trace,
  exists L T,
    Worker.fanout env ext now ev broadcastId masjid prayer rec results logs trace
    = (logs ++ L, trace ++ T)
    /\ (forall row, row ∈ L ->
          NotificationLogs.broadcastId row = broadcastId
          /\ NotificationLogs.masjidId row = masjid
          /\ exists s d, (s, d) ∈ results /\ Worker.skipped now prayer s = false
               /\ NotificationLogs.userId row = Subscriptions.userId s
               /\ NotificationLogs.deviceId row = UserDevices.id d)
    /\ (forall p, p ∈ T ->
          action (push_data p)
          = match ev with start_event => "GO_LIVE" | end_event => "END" end
          /\ exists s d, (s, d) ∈ results /\ Worker.skipped now prayer s = false
               /\ push_user p = Subscriptions.userId s
               /\ push_device p = UserDevices.id d)
    /\ (forall s d, (s, d) ∈ results -> Worker.skipped now prayer s = false ->
          exists row, row ∈ L
            /\ NotificationLogs.userId row = Subscriptions.userId s
            /\ NotificationLogs.deviceId row = UserDevices.id d
            /\ NotificationLogs.broadcastId row = broadcastId)
    /\ (forall s d, (s, d) ∈ results -> Worker.skipped now prayer s = false ->
          deliverable ext d = true ->
          exists p, p ∈ T
            /\ push_user p = Subscriptions.userId s
            /\ push_device p = UserDevices.id d).
Proof.
  induction results as [|[s d] rest IH]; intros logs trace.
  - exists [], []. simpl. rewrite !app_nil_r.
    split; [done|]. repeat split.
    all: intros; exfalso; eapply not_elem_of_nil; eauto.
  - simpl. destruct (Worker.skipped now prayer s) eqn:Hskip.
    + destruct (IH logs trace) as (L & T & Heq & Hrows & Hpush & Hall & Hsent).
      exists L, T. rewrite Heq. split; [done|].
      split; [|split; [|split]].
      * intros row Hrow. destruct (Hrows row Hrow) as (? & ? & s' & d' & Hin & Hrest).
        do 2 (split; [done|]). exists s', d'. split; [by right | done].
      * intros p Hp. destruct (Hpush p Hp) as (? & s' & d' & Hin & Hrest).
        split; [done|]. exists s', d'. split; [by right | done].
      * intros s' d' Hin Hs'. apply elem_of_cons in Hin as [Heq'|Hin].
        -- simplify_eq. congruence.
        -- by apply Hall.
      * intros s' d' Hin Hs' Hd'. apply elem_of_cons in Hin as [Heq'|Hin].
        -- simplify_eq. congruence.
        -- by apply Hsent.
    + set (payload := Worker.payloadFor env ext ev broadcastId masjid prayer rec
                        (Subscriptions.userId s)).
      destruct (send_spec d payload (Subscriptions.userId s) (UserDevices.id d) trace)
        as (T0 & Hsend & HT0 & Hdeliv).
      destruct (match UserDevices.platform_ d with
                | ios => _ | _ => _ end) as [result trace'] eqn:Hres.
      simpl in Hsend. subst trace'.
      match goal with
      | |- context [Worker.fanout _ _ _ _ _ _ _ _ _ (logs ++ [?r]) _] => set (row0 := r)
      end.
      destruct (IH (logs ++ [row0]) (trace ++ T0))
        as (L & T & Heq & Hrows & Hpush & Hall & Hsent).
      exists (row0 :: L), (T0 ++ T). rewrite Heq.
      split; [by rewrite <- !app_assoc|].
      split; [|split; [|split]].
      * intros row Hrow. apply elem_of_cons in Hrow as [->|Hrow].
        -- do 2 (split; [done|]). exists s, d. split; [by left | done].
        -- destruct (Hrows row Hrow) as (? & ? & s' & d' & Hin & Hrest).
           do 2 (split; [done|]). exists s', d'. split; [by right | done].
      * intros p Hp. apply elem_of_app in Hp as [Hp|Hp].
        -- destruct (HT0 p Hp) as (Hu & Hd & ->). split.
           ++ unfold payload, Worker.payloadFor. by destruct ev.
           ++ exists s, d. split; [by left | done].
        -- destruct (Hpush p Hp) as (? & s' & d' & Hin & Hrest).
           split; [done|]. exists s', d'. split; [by right | done].
      * intros s' d' Hin Hs'. apply elem_of_cons in Hin as [Heq'|Hin].
        -- simplify_eq. exists row0. split; [by left | done].
        -- destruct (Hall s' d' Hin Hs') as (row & Hrow & Hrest).
           exists row. split; [by right | done].
      * intros s' d' Hin Hs' Hd'. apply elem_of_cons in Hin as [Heq'|Hin].
        -- simplify_eq. destruct (Hdeliv Hd') as (p & Hp).
           destruct (HT0 p Hp) as (Hu & Hd & _).
           exists p. split; [apply elem_of_app; by left | done].
        -- destruct (Hsent s' d' Hin Hs' Hd') as (p & Hp & Hrest).
           exists p. split; [apply elem_of_app; by right | done].
Qed.

(** One run of the worker: it returns, and what it adds is what the loop
    produced for the recipients of the job's masjid. *)
Lemma notificationsWorker_spec now (job : Job) (w : World) :
  let broadcastId := default "" (jd_broadcastId (data job)) in
  let masjid := default "" (jd_masjidId (data job)) in
  let prayer := jd_prayerName (data job) in
  let r := Worker.notificationsWorker env ext now job w in
  exists L T,
    fst r = Returned tt
    /\ fanoutAdded w (snd r) L T
    /\ (forall row, row ∈ L ->
          NotificationLogs.broadcastId row = broadcastId
          /\ exists s d, (s, d) ∈ Worker.recipients w masjid
               /\ Worker.skipped now prayer s = false
               /\ NotificationLogs.userId row = Subscriptions.userId s
               /\ NotificationLogs.deviceId row = UserDevices.id d)
    /\ (forall p, p ∈ T ->
          action (push_data p)
          = match Worker.eventTypeOf job with
            | start_event => "GO_LIVE" | end_event => "END" end
          /\ exists s d, (s, d) ∈ Worker.recipients w masjid
               /\ Worker.skipped now prayer s = false
               /\ push_user p = Subscriptions.userId s
               /\ push_device p = UserDevices.id d)
    /\ (Js.truthy (jd_broadcastId (data job)) = true ->
        Js.truthy (jd_masjidId (data job)) = true ->
        is_Some (broadcasts w !! broadcastId) ->
        forall s d, (s, d) ∈ Worker.recipients w masjid ->
          Worker.skipped now prayer s = false ->
          (exists row, row ∈ L
            /\ NotificationLogs.userId row = Subscriptions.userId s
            /\ NotificationLogs.deviceId row = UserDevices.id d
            /\ NotificationLogs.broadcastId row = broadcastId)
          /\ (deliverable ext d = true ->
              exists p, p ∈ T
                /\ push_user p = Subscriptions.userId s
                /\ push_device p = UserDevices.id d)).
Proof.
  intros broadcastId masjid prayer r.
  assert (forall w0 : World, fanoutAdded w0 w0 [] []) as Hnone.
  { intros w0. split; simpl; by rewrite app_nil_r. }
  assert (forall x (P : Prop), x ∈ @nil NotificationLogs.row -> P) as Hn1.
  { intros x P Hx. exfalso. by eapply not_elem_of_nil. }
  assert (forall x (P : Prop), x ∈ @nil Push -> P) as Hn2.
  { intros x P Hx. exfalso. by eapply not_elem_of_nil. }
  subst r. unfold Worker.notificationsWorker.
  cbv [mbind M_bind bind mret M_ret ret gets select_broadcast modify when_].
  destruct (Js.truthy (jd_broadcastId (data job))) eqn:Hb; simpl.
  2:{ exists [], []. split; [done|]. split; [apply Hnone|].
      split; [intros ? ?; by eapply Hn1|]. split; [intros ? ?; by eapply Hn2|].
      discriminate. }
  destruct (Js.truthy (jd_masjidId (data job))) eqn:Hm; simpl.
  2:{ exists [], []. split; [done|]. split; [apply Hnone|].
      split; [intros ? ?; by eapply Hn1|]. split; [intros ? ?; by eapply Hn2|].
      discriminate. }
  fold broadcastId masjid prayer.
  destruct (broadcasts w !! broadcastId) as [b|] eqn:Hrow; simpl.
  2:{ exists [], []. split; [done|]. split; [apply Hnone|].
      split; [intros ? ?; by eapply Hn1|]. split; [intros ? ?; by eapply Hn2|].
      intros _ _ [? ?]. discriminate. }
  match goal with
  | |- context [Worker.fanout env ext now ?ev broadcastId masjid prayer ?rec ?res [] []] =>
      destruct (fanout_spec now ev broadcastId masjid prayer rec res [] [])
        as (L & T & Heq & Hrows & Hpush & Hall & Hsent)
  end.
  rewrite Heq. simpl. exists L, T.
  split; [by case_bool_decide|].
  split.
  { split; case_bool_decide; simpl; try done. subst. by rewrite app_nil_r. }
  split; [|split].
  - intros row Hrow'. destruct (Hrows row Hrow') as (? & ? & ?). done.
  - done.
  - intros _ _ _ s d Hin Hs. split; [by apply Hall|]. intros Hd. by apply Hsent.
Qed.

Lemma subscriptions_uq_same (rows : list Subscriptions.row) s s' :
  subscriptions_uq rows -> s ∈ rows -> s' ∈ rows ->
  Subscriptions.userId s = Subscriptions.userId s' ->
  Subscriptions.masjidId s = Subscriptions.masjidId s' ->
  s = s'.
Proof.
  unfold subscriptions_uq. induction rows as [|r rows IH]; intros Hnd Hs Hs' Hu Hm.
  - by apply not_elem_of_nil in Hs.
  - rewrite fmap_cons in Hnd. apply NoDup_cons in Hnd as [Hnotin Hnd].
    apply elem_of_cons in Hs as [->|Hs]; apply elem_of_cons in Hs' as [->|Hs'].
    + done.
    + exfalso. apply Hnotin. apply list_elem_of_fmap. exists s'. by rewrite Hu, Hm.
    + exfalso. apply Hnotin. apply list_elem_of_fmap. exists s. by rewrite Hu, Hm.
    + by apply IH.
Qed.

(** A subscription the guards skip leaves no trace of its user in the
    run. *)
Lemma skipped_subscriber_absent now (job : Job) (w : World) (s : Subscriptions.row) :
  subscriptions_uq (subscriptions w) ->
  s ∈ subscriptions w ->
  jd_masjidId (data job) = Some (Subscriptions.masjidId s) ->
  Worker.skipped now (jd_prayerName (data job)) s = true ->
  exists L T,
    fst (Worker.notificationsWorker env ext now job w) = Returned tt
    /\ fanoutAdded w (snd (Worker.notificationsWorker env ext now job w)) L T
    /\ (forall row, row ∈ L ->
          NotificationLogs.userId row <> Subscriptions.userId s)
    /\ (forall p, p ∈ T -> push_user p <> Subscriptions.userId s).
Proof.
  intros Huq Hs Hm Hskip.
  destruct (notificationsWorker_spec now job w) as (L & T & Hret & Hadd & Hrows & Hpush & _).
  exists L, T. rewrite Hm in *. simpl in *.
  split; [done|]. split; [done|]. split.
  - intros row Hrow Hu.
    destruct (Hrows row Hrow) as (_ & s' & d & Hin & Hpass & Hu' & _).
    apply elem_of_recipients in Hin as (Hs' & Hm' & _).
    assert (s' = s) as -> by (apply (subscriptions_uq_same (subscriptions w)); congruence).
    congruence.
  - intros p Hp Hu.
    destruct (Hpush p Hp) as (_ & s' & d & Hin & Hpass & Hu' & _).
    apply elem_of_recipients in Hin as (Hs' & Hm' & _).
    assert (s' = s) as -> by (apply (subscriptions_uq_same (subscriptions w)); congruence).
    congruence.
Qed.

Lemma mutedAt_skipped now prayer (s : Subscriptions.row) :
  mutedAt now s -> Worker.skipped now prayer s = true.
Proof.
  unfold Worker.skipped. intros [-> | (t & -> & Hlt)]; [done|].
  apply Z.ltb_lt in Hlt. rewrite Hlt. by rewrite orb_true_r.
Qed.

Lemma not_mutedAt_passes now (s : Subscriptions.row) :
  ~ mutedAt now s -> Worker.skipped now None s = false.
Proof.
  unfold Worker.skipped, mutedAt. intros Hn.
  destruct (Subscriptions.isMuted s); [exfalso; auto|].
  destruct (Subscriptions.muteUntil s) as [t|]; simpl; [|done].
  destruct (Z.ltb_spec now t); [|done].
  exfalso. apply Hn. right. by exists t.
Qed.

End Fanout.

(** *** The jobs the handlers enqueue *)

Lemma text_of_text (v : option string) : text (Some (of_text v)) = v.
Proof. by destruct v. Qed.

Section Producers.
Variable env : Env.
Variable ext : Providers.

#[local] Arguments text : simpl never.

(** A successful [startBroadcast] enqueues one [broadcast-start] job that
    carries the id, the masjid and the prayer name of the broadcast it set
    live. *)
Lemma startBroadcast_enqueues now (request : Request StartBody) (w w' : World) u :
  Controller.startBroadcast env ext now request w = (Returned u, w') ->
  exists id b,
    params_id request = Some id
    /\ broadcasts w !! id = Some b
    /\ Broadcasts.status <$> broadcasts w' !! id = Some live
    /\ notificationQueue w' = notificationQueue w ++ [Controller.start_job u]
    /\ name (Controller.start_job u) = "broadcast-start"
    /\ jd_broadcastId (data (Controller.start_job u)) = Some id
    /\ jd_masjidId (data (Controller.start_job u)) = Some (Broadcasts.masjidId b)
    /\ jd_prayerName (data (Controller.start_job u)) = Broadcasts.prayerName b.
Proof.
  unfold Controller.startBroadcast. run.
  destruct (user request) as [a|]; [|done].
  destruct (String.eqb a ""); [done|].
  destruct (params_id request) as [id|]; [|done].
  destruct (String.eqb id ""); [done|].
  destruct (broadcasts w !! id) as [b|] eqn:Hb; [|done].
  simpl. intros Hrun. exists id, b. split; [done|]. split; [done|].
  revert Hrun.
  destruct (Broadcasts.status b); simpl; try done.
  all: repeat (case_match; simpl in *; simplify_eq; try done).
  all: intros Hrun; simplify_eq; simpl.
  all: rewrite ?lookup_insert_eq; simpl.
  all: rewrite ?text_of_text; done.
Qed.

(** A successful [endBroadcast] enqueues one [broadcast-end] job, which
    carries the id and the masjid and no prayer name. *)
Lemma endBroadcast_enqueues now (request : Request EndBody) (w w' : World) u :
  Controller.endBroadcast env now request w = (Returned u, w') ->
  exists id b,
    params_id request = Some id
    /\ broadcasts w !! id = Some b
    /\ Broadcasts.status <$> broadcasts w' !! id = Some completed
    /\ notificationQueue w'
       = notificationQueue w ++ [end_job (Some id) (Some (Broadcasts.masjidId b))].
Proof.
  unfold Controller.endBroadcast. run.
  destruct (user request) as [a|]; [|done].
  destruct (String.eqb a ""); [done|].
  destruct (params_id request) as [id|]; [|done].
  destruct (String.eqb id ""); [done|].
  destruct (broadcasts w !! id) as [b|] eqn:Hb; [|done].
  simpl. intros Hrun. exists id, b. split; [done|]. split; [done|].
  revert Hrun.
  destruct (Broadcasts.status b); simpl; try done.
  all: repeat (case_match; simpl in *; simplify_eq; try done).
  all: intros Hrun; simplify_eq; simpl.
  all: rewrite ?lookup_insert_eq; simpl; done.
Qed.


Lemma onlyEndJobsAdded_refl (w : World) : onlyEndJobsAdded w w.
Proof.
  exists []. split; [by rewrite app_nil_r|].
  intros j Hj. by apply not_elem_of_nil in Hj.
Qed.

Lemma onlyEndJobsAdded_step (w w1 w2 : World) b m :
  onlyEndJobsAdded w w1 ->
  notificationQueue w2 = notificationQueue w1 ++ [end_job b m] ->
  onlyEndJobsAdded w w2.
Proof.
  intros (added & Hq & Hall) Hq2. exists (added ++ [end_job b m]).
  split; [by rewrite Hq2, Hq, app_assoc|].
  intros j Hj. apply elem_of_app in Hj as [Hj|Hj]; [by apply Hall|].
  apply list_elem_of_singleton in Hj. subst. by eexists _, _.
Qed.

Lemma onlyEndJobsAdded_same (w w1 w2 : World) :
  onlyEndJobsAdded w w1 -> notificationQueue w2 = notificationQueue w1 ->
  onlyEndJobsAdded w w2.
Proof. intros (added & Hq & Hall) Hq2. exists added. by rewrite Hq2. Qed.

Lemma autoEnd_enqueues now (job : Job) (w : World) :
  onlyEndJobsAdded w (snd (Worker.autoEndJob env ext now job w)).
Proof.
  unfold Worker.autoEndJob. run.
  destruct (negb (Js.truthy (jd_broadcastId (data job)))); [apply onlyEndJobsAdded_refl|].
  destruct (broadcasts w !! default "" (jd_broadcastId (data job))) as [b|] eqn:Hb;
    [|apply onlyEndJobsAdded_refl].
  simpl.
  destruct (negb _); [apply onlyEndJobsAdded_refl|].
  rewrite Hb.
  repeat (case_match; simpl in *; simplify_eq; try done).
  all: eapply onlyEndJobsAdded_step; [apply onlyEndJobsAdded_refl | reflexivity].
Qed.

Lemma cleanup_enqueues scope now (w : World) :
  onlyEndJobsAdded w (snd (Worker.cleanupExpiredBroadcasts env ext scope now w)).
Proof.
  unfold Worker.cleanupExpiredBroadcasts, Worker.resolve.
  cbv [mbind M_bind bind mret M_ret ret gets throw].
  destruct (listed scope "and"); [|apply onlyEndJobsAdded_refl].
  destruct (listed scope "eq"); [|apply onlyEndJobsAdded_refl].
  destruct (listed scope "lt"); [|apply onlyEndJobsAdded_refl].
  case_bool_decide; [apply onlyEndJobsAdded_refl|].
  apply (for_each_keeps _ (onlyEndJobsAdded w)); [|apply onlyEndJobsAdded_refl].
  intros [k b] w1 _ Hw1. run. simpl.
  repeat (case_match; simpl in *; simplify_eq; try done).
  all: eapply onlyEndJobsAdded_step; [exact Hw1 | reflexivity].
Qed.

End Producers.

(** *** Mute filters *)

(** The sample store: [u-1] muted Fajr, [u-2] is muted altogether.  The
    start of the Fajr broadcast reaches nobody; its end reaches [u-1] on the
    Android device. *)
Lemma fanout_on_sample :
  let w := Sample.world (Sample.fajr live (Some Sample.t0)) in
  let started := Worker.notificationsWorker Sample.env Sample.ext Sample.t0
                   {| name := "broadcast-start";
                      data := {| jd_broadcastId := Some "b-1"; jd_masjidId := Some "m-1";
                                 jd_prayerName := Some "Fajr"; jd_endedReason := None;
                                 jd_roomName := None |};
                      delay := None; jobId := None |} w in
  let ended := Worker.notificationsWorker Sample.env Sample.ext Sample.t0
                 (end_job (Some "b-1") (Some "m-1")) w in
  started = (Returned tt, w)
  /\ (fun row => (NotificationLogs.userId row, NotificationLogs.deviceId row,
                  NotificationLogs.status row)) <$> notificationLogs (snd ended)
     = [("u-1", "d-1", NotificationLogs.sent)]
  /\ (fun e => match e with
               | Pushed p => (push_token p, action (push_data p))
               | _ => ("", "")
               end) <$> effects (snd ended)
     = [("fcm-d-1", "END")].
Proof. vm_compute. repeat split; reflexivity. Qed.

(** C6.  In any fan-out run, for a start or an end event alike, a
    subscription of the job's masjid that is muted ([isMuted], or
    [muteUntil] still ahead) gets nothing: the run returns, and neither the
    rows it inserts into the notification log nor the pushes it sends name
    the subscriber, on any device. *)
Theorem muted_subscription_gets_nothing (env : Env) (ext : Providers) (now : Z)
  (job : Job) (w : World) (s : Subscriptions.row) :
  subscriptions_uq (subscriptions w) ->
  s ∈ subscriptions w ->
  jd_masjidId (data job) = Some (Subscriptions.masjidId s) ->
  mutedAt now s ->
  exists rows pushes,
    fst (Worker.notificationsWorker env ext now job w) = Returned tt
    /\ fanoutAdded w (snd (Worker.notificationsWorker env ext now job w)) rows pushes
    /\ (forall row d, row ∈ rows ->
          ~ (NotificationLogs.userId row = Subscriptions.userId s
             /\ NotificationLogs.deviceId row = UserDevices.id d))
    /\ (forall p d, p ∈ pushes ->
          ~ (push_user p = Subscriptions.userId s /\ push_device p = UserDevices.id d)).
Proof.
  intros Huq Hs Hm Hmuted.
  destruct (skipped_subscriber_absent env ext now job w s Huq Hs Hm
              (mutedAt_skipped now _ s Hmuted))
    as (rows & pushes & Hret & Hadd & Hrows & Hpushes).
  exists rows, pushes. split; [done|]. split; [done|]. split.
  - intros row d Hrow [Hu _]. by apply (Hrows row).
  - intros p d Hp [Hu _]. by apply (Hpushes p).
Qed.

Lemma muted_subscription_gets_nothing_witness :
  exists rows pushes,
    fst (Worker.notificationsWorker Sample.env Sample.ext Sample.t0
           (end_job (Some "b-1") (Some "m-1"))
           (Sample.world (Sample.fajr completed (Some Sample.t0)))) = Returned tt
    /\ fanoutAdded (Sample.world (Sample.fajr completed (Some Sample.t0)))
         (snd (Worker.notificationsWorker Sample.env Sample.ext Sample.t0
                 (end_job (Some "b-1") (Some "m-1"))
                 (Sample.world (Sample.fajr completed (Some Sample.t0)))))
         rows pushes
    /\ (forall row d, row ∈ rows ->
          ~ (NotificationLogs.userId row = "u-2"
             /\ NotificationLogs.deviceId row = UserDevices.id d))
    /\ (forall p d, p ∈ pushes ->
          ~ (push_user p = "u-2" /\ push_device p = UserDevices.id d)).
Proof.
  apply (muted_subscription_gets_nothing Sample.env Sample.ext Sample.t0
           (end_job (Some "b-1") (Some "m-1"))
           (Sample.world (Sample.fajr completed (Some Sample.t0)))
           Sample.silenced).
  - unfold subscriptions_uq. simpl.
    apply NoDup_cons. split.
    + intros Hin. apply list_elem_of_singleton in Hin. discriminate.
    + apply NoDup_singleton.
  - right. left.
  - reflexivity.
  - left. reflexivity.
Defined.

(** C5.  A subscriber who muted prayer [p]: the fan-out of the
    [broadcast-start] job of a broadcast of that prayer ([start_job], as
    [startBroadcast] builds it) adds no log row and sends no push for the
    subscriber; the fan-out of a [broadcast-end] job ([end_job], as every
    handler that ends a broadcast builds it) does log a delivery for each
    active device of the subscriber, and pushes [END] to it when the
    device's channel can be called, provided the subscription is not muted
    as a whole. *)
Theorem mutedPrayers_suppress_start_only (env : Env) (ext : Providers) (now : Z)
  (w : World) (s : Subscriptions.row) (p : string) :
  subscriptions_uq (subscriptions w) ->
  s ∈ subscriptions w ->
  p ∈ Worker.mutedPrayersOf s -> p <> "" ->
  (forall u : JsObject,
     text (prop u "prayerName") = Some p ->
     text (prop u "masjidId") = Some (Subscriptions.masjidId s) ->
     let r := Worker.notificationsWorker env ext now (Controller.start_job u) w in
     exists rows pushes,
       fst r = Returned tt
       /\ fanoutAdded w (snd r) rows pushes
       /\ (forall row, row ∈ rows ->
             NotificationLogs.userId row <> Subscriptions.userId s)
       /\ (forall push, push ∈ pushes -> push_user push <> Subscriptions.userId s))
  /\ (forall broadcastId d,
        broadcastId <> "" -> Subscriptions.masjidId s <> "" ->
        is_Some (broadcasts w !! broadcastId) ->
        ~ mutedAt now s ->
        d ∈ userDevices w ->
        UserDevices.userId d = Subscriptions.userId s ->
        UserDevices.isActive d = true ->
        let r := Worker.notificationsWorker env ext now
                   (end_job (Some broadcastId) (Some (Subscriptions.masjidId s))) w in
        exists rows pushes,
          fst r = Returned tt
          /\ fanoutAdded w (snd r) rows pushes
          /\ (exists row, row ∈ rows
                /\ NotificationLogs.userId row = Subscriptions.userId s
                /\ NotificationLogs.deviceId row = UserDevices.id d
                /\ NotificationLogs.broadcastId row = broadcastId)
          /\ (forall push, push ∈ pushes -> action (push_data push) = "END")
          /\ (deliverable ext d = true ->
              exists push, push ∈ pushes
                /\ push_user push = Subscriptions.userId s
                /\ push_device push = UserDevices.id d)).
Proof.
  intros Huq Hs Hp Hne. split.
  - intros u Hprayer Hmasjid r. subst r.
    apply skipped_subscriber_absent; [done | done | exact Hmasjid |].
    cbn [Controller.start_job data jd_prayerName]. rewrite Hprayer.
    unfold Worker.skipped.
    apply truthy_Some in Hne. rewrite Hne.
    apply listed_true in Hp. change (default "" (Some p)) with p.
    rewrite Hp. by rewrite orb_true_r.
  - intros broadcastId d Hb Hm Hrow Hnot Hd Hu Ha r. subst r.
    destruct (notificationsWorker_spec env ext now
                (end_job (Some broadcastId) (Some (Subscriptions.masjidId s))) w)
      as (rows & pushes & Hret & Hadd & _ & Hpushes & Hall).
    simpl in *. exists rows, pushes.
    split; [done|]. split; [done|].
    apply truthy_Some in Hb, Hm.
    destruct (Hall Hb Hm Hrow s d) as [Hlogged Hpushed].
    { apply elem_of_recipients. done. }
    { by apply not_mutedAt_passes. }
    split; [done|]. split; [|done].
    intros push Hpush. by destruct (Hpushes push Hpush) as [-> _].
Qed.

Lemma mutedPrayers_suppress_start_only_witness :
  exists rows pushes,
    fanoutAdded (Sample.world (Sample.fajr completed (Some Sample.t0)))
      (snd (Worker.notificationsWorker Sample.env Sample.ext Sample.t0
              (end_job (Some "b-1") (Some "m-1"))
              (Sample.world (Sample.fajr completed (Some Sample.t0)))))
      rows pushes
    /\ (exists row, row ∈ rows
          /\ NotificationLogs.userId row = "u-1"
          /\ NotificationLogs.deviceId row = "d-1"
          /\ NotificationLogs.broadcastId row = "b-1")
    /\ (exists push, push ∈ pushes /\ push_user push = "u-1" /\ push_device push = "d-1").
Proof.
  destruct (mutedPrayers_suppress_start_only Sample.env Sample.ext Sample.t0
              (Sample.world (Sample.fajr completed (Some Sample.t0)))
              Sample.listener "Fajr") as [_ Hend].
  - unfold subscriptions_uq. simpl.
    apply NoDup_cons. split.
    + intros Hin. apply list_elem_of_singleton in Hin. discriminate.
    + apply NoDup_singleton.
  - left.
  - left.
  - discriminate.
  - destruct (Hend "b-1" (Sample.phone "d-1" "u-1" android))
      as (rows & pushes & _ & Hadd & Hrow & _ & Hpush).
    + discriminate.
    + discriminate.
    + by eexists.
    + intros [Hm | (t & Ht & _)]; discriminate.
    + left.
    + reflexivity.
    + reflexivity.
    + exists rows, pushes. split; [done|]. split; [done|]. by apply Hpush.
Defined.

(** The two steps in a row: whoever muted the prayer of the broadcast that
    [startBroadcast] has just set live is passed over when the job it
    enqueued is handled. *)
Lemma start_then_fanout (env : Env) (ext : Providers) (now later : Z)
  (request : Request StartBody) (w w' : World) (u : JsObject)
  (id : string) (b : Broadcasts.row) (s : Subscriptions.row) (p : string) :
  Controller.startBroadcast env ext now request w = (Returned u, w') ->
  params_id request = Some id -> broadcasts w !! id = Some b ->
  Broadcasts.prayerName b = Some p -> p <> "" ->
  Broadcasts.masjidId b = Subscriptions.masjidId s ->
  subscriptions_uq (subscriptions w') -> s ∈ subscriptions w' ->
  p ∈ Worker.mutedPrayersOf s ->
  exists job rows pushes,
    notificationQueue w' = notificationQueue w ++ [job]
    /\ name job = "broadcast-start"
    /\ fanoutAdded w' (snd (Worker.notificationsWorker env ext later job w')) rows pushes
    /\ (forall row, row ∈ rows -> NotificationLogs.userId row <> Subscriptions.userId s)
    /\ (forall push, push ∈ pushes -> push_user push <> Subscriptions.userId s).
Proof.
  intros Hrun Hid Hb Hprayer Hne Hmasjid Huq Hs Hmuted.
  destruct (startBroadcast_enqueues env ext now request w w' u Hrun)
    as (id' & b' & Hid' & Hb' & _ & Hqueue & Hname & _ & Hjm & Hjp).
  rewrite Hid in Hid'. injection Hid' as <-. rewrite Hb in Hb'. injection Hb' as <-.
  destruct (skipped_subscriber_absent env ext later (Controller.start_job u) w' s)
    as (rows & pushes & _ & Hadd & Hrows & Hpushes); try done.
  - by rewrite Hjm, Hmasjid.
  - rewrite Hjp, Hprayer. unfold Worker.skipped.
    apply truthy_Some in Hne. rewrite Hne.
    apply listed_true in Hmuted. change (default "" (Some p)) with p.
    rewrite Hmuted. by rewrite orb_true_r.
  - by exists (Controller.start_job u), rows, pushes.
Qed.

(** ** The template expander (scheduler.js) *)


(** *** Loops *)

Lemma for_each_app {A} (body : A -> M World unit) (xs ys : list A) (w : World) :
  for_each (xs ++ ys) body w
  = match for_each xs body w with
    | (Returned _, w1) => for_each ys body w1
    | (Thrown e, w1) => (Thrown e, w1)
    end.
Proof.
  revert w. induction xs as [|x xs IH]; intros w; simpl; [done|].
  unfold bind. destruct (body x w) as [[u|e] w1]; [apply IH | done].
Qed.

Lemma for_each_nested {A B} (inner : A -> list B) (body : A -> B -> M World unit)
  (xs : list A) (w : World) :
  for_each xs (fun x => for_each (inner x) (body x)) w
  = for_each (x ← xs; (fun y => (x, y)) <$> inner x) (fun xy => body (fst xy) (snd xy)) w.
Proof.
  revert w. induction xs as [|x xs IH]; intros w; [done|].
  simpl. rewrite for_each_app. unfold bind.
  assert (forall ys w0, for_each ((fun y => (x, y)) <$> ys)
                          (fun xy => body (fst xy) (snd xy)) w0
                        = for_each ys (body x) w0) as Hmap.
  { induction ys as [|y ys IHy]; intros w0; simpl; [done|].
    unfold bind. destruct (body x y w0) as [[u|e] w1]; [apply IHy | done]. }
  rewrite Hmap. destruct (for_each (inner x) (body x) w) as [[u|e] w1]; [apply IH | done].
Qed.

(** A loop whose iterations only grow the world, stay put once they have
    returned, and change nothing when they throw, reaches a world on
    which running it again changes nothing and ends the same way; when it
    returned, every iteration is settled there. *)
Lemma for_each_settles {A} (body : A -> M World unit) (le : World -> World -> Prop) :
  (forall w, le w w) ->
  (forall w1 w2 w3, le w1 w2 -> le w2 w3 -> le w1 w3) ->
  (forall x w o w', body x w = (o, w') -> le w w') ->
  (forall x w w', body x w = (Returned tt, w') -> body x w' = (Returned tt, w')) ->
  (forall x w w', body x w = (Returned tt, w) -> le w w' ->
                  body x w' = (Returned tt, w')) ->
  (forall x w e w', body x w = (Thrown e, w') -> w' = w) ->
  forall xs w o w1,
    for_each xs body w = (o, w1) ->
    le w w1
    /\ for_each xs body w1 = (o, w1)
    /\ (o = Returned tt -> forall x, x ∈ xs -> body x w1 = (Returned tt, w1)).
Proof.
  intros Hrefl Htrans Hgrow Hstay Hmono Hthrow.
  induction xs as [|x xs IH]; intros w o w1 Hrun.
  - simpl in Hrun. cbv [ret] in Hrun. simplify_eq. repeat split; [done..|].
    intros _ x Hx. by apply not_elem_of_nil in Hx.
  - simpl in Hrun. unfold bind in Hrun.
    destruct (body x w) as [[[]|e] wa] eqn:Hx.
    + destruct (IH wa o w1 Hrun) as (Hle & Hagain & Hall).
      assert (body x w1 = (Returned tt, w1)) as Hx1.
      { eapply Hmono; [by eapply Hstay | done]. }
      split; [eapply Htrans; [by eapply Hgrow | done]|].
      split.
      * simpl. unfold bind. by rewrite Hx1.
      * intros Ho y Hy. apply elem_of_cons in Hy as [->|Hy]; [done | by apply Hall].
    + simplify_eq. apply Hthrow in Hx as Heq. subst w1.
      split; [done|]. split.
      * simpl. unfold bind. by rewrite Hx.
      * discriminate.
Qed.

(** *** Worlds that only gained occurrence rows *)

Lemma grown_refl (w : World) : grown w w.
Proof. exists []. destruct w. unfold set_schedules. simpl. by rewrite app_nil_r. Qed.

Lemma grown_trans (w1 w2 w3 : World) : grown w1 w2 -> grown w2 w3 -> grown w1 w3.
Proof.
  intros [e1 ->] [e2 ->]. exists (e1 ++ e2).
  unfold set_schedules. simpl. by rewrite app_assoc.
Qed.

Lemma grown_schedules (w w' : World) :
  grown w w' -> exists extra, schedules w' = schedules w ++ extra.
Proof. intros [extra ->]. by exists extra. Qed.

Lemma grown_tables (w w' : World) :
  grown w w' -> masjids w' = masjids w /\ scheduleTemplates w' = scheduleTemplates w.
Proof. by intros [extra ->]. Qed.

Lemma grown_antisym (w w' : World) : grown w w' -> grown w' w -> w' = w.
Proof.
  intros [e1 ->] [e2 Heq].
  assert (schedules w = (schedules w ++ e1) ++ e2) as Hlen by (by rewrite Heq at 1).
  apply (f_equal length) in Hlen. rewrite !length_app in Hlen.
  destruct e1; [|simpl in Hlen; lia].
  destruct w. unfold set_schedules. simpl. by rewrite app_nil_r.
Qed.

Section Expander.
Variable toISODate : string -> Z -> Z -> option string.
Variable fromISO : string -> string -> option Z.


Lemma existingSchedule_grown (w w' : World) masjid date prayer :
  grown w w' ->
  Scheduler.existingSchedule w masjid date prayer = true ->
  Scheduler.existingSchedule w' masjid date prayer = true.
Proof.
  intros [extra ->]. unfold Scheduler.existingSchedule.
  destruct date as [d|]; [|done]. simpl.
  rewrite existsb_app. intros ->. done.
Qed.

(** What one iteration does: nothing (the key exists, or the adhan time
    does not resolve), or it throws with nothing written, or it appends
    one row under the key, which did not exist. *)
Lemma ensureSchedule_cases now template offset (w : World) :
  let t := fst template in
  let zone := Scheduler.zoneOf template in
  let date := toISODate zone now offset in
  let adhan := fromISO (default "null" date ++ "T" ++ ScheduleTemplates.adhanTimeLocal t)%string
                 zone in
  (Scheduler.ensureSchedule toISODate fromISO now template offset w = (Returned tt, w)
   /\ (Scheduler.existingSchedule w (ScheduleTemplates.masjidId t) date
         (ScheduleTemplates.prayerName t) = true
       \/ adhan = None))
  \/ (exists e, Scheduler.ensureSchedule toISODate fromISO now template offset w = (Thrown e, w)
        /\ is_Some adhan
        /\ Scheduler.existingSchedule w (ScheduleTemplates.masjidId t) date
             (ScheduleTemplates.prayerName t) = false)
  \/ (exists d row,
        date = Some d
        /\ is_Some adhan
        /\ Scheduler.existingSchedule w (ScheduleTemplates.masjidId t) date
             (ScheduleTemplates.prayerName t) = false
        /\ Schedules.masjidId row = ScheduleTemplates.masjidId t
        /\ Schedules.date row = d
        /\ Schedules.prayerName row = ScheduleTemplates.prayerName t
        /\ Scheduler.ensureSchedule toISODate fromISO now template offset w
           = (Returned tt, set_schedules (fun rows => rows ++ [row]) w)).
Proof.
  destruct template as [t tz]. cbn [fst].
  set (zone := Scheduler.zoneOf (t, tz)).
  unfold Scheduler.ensureSchedule. cbn [fst]. fold zone.
  destruct (toISODate zone now offset) as [d|] eqn:Hd.
  - change (default "null" (Some d)) with d.
    cbv [mbind M_bind bind mret M_ret ret gets].
    destruct (Scheduler.existingSchedule w (ScheduleTemplates.masjidId t) (Some d)
                (ScheduleTemplates.prayerName t)) eqn:Hex; [left; auto|].
    destruct (fromISO _ zone) as [a|] eqn:Ha; [|left; auto].
    right. unfold Scheduler.insert_schedule.
    destruct (Scheduler.utcOrNull fromISO d zone (ScheduleTemplates.iqamahTimeLocal t))
      as [[i|]|]; try (left; by eexists _).
    all: destruct (Scheduler.utcOrNull fromISO d zone (ScheduleTemplates.khutbahTimeLocal t))
      as [[k|]|]; try (left; by eexists _).
    all: cbv [mbind M_bind bind mret M_ret ret gets modify throw].
    all: unfold Scheduler.existingSchedule in Hex; rewrite Hex.
    all: right; eexists d, _; repeat split; try done; by eexists.
  - change (default "null" None) with "null".
    cbv [mbind M_bind bind mret M_ret ret gets]. cbn [Scheduler.existingSchedule].
    destruct (fromISO _ zone) as [a|] eqn:Ha; [|left; auto].
    right. left. by eexists _.
Qed.

Lemma set_schedules_snoc_neq (w : World) (row : Schedules.row) :
  set_schedules (fun rows => rows ++ [row]) w <> w.
Proof.
  intros Heq. apply (f_equal schedules) in Heq. simpl in Heq.
  apply (f_equal length) in Heq. rewrite length_app in Heq. simpl in Heq. lia.
Qed.

Lemma existing_after_insert (w : World) masjid d prayer (row : Schedules.row) :
  Schedules.masjidId row = masjid -> Schedules.date row = d ->
  Schedules.prayerName row = prayer ->
  Scheduler.existingSchedule (set_schedules (fun rows => rows ++ [row]) w)
    masjid (Some d) prayer = true.
Proof.
  intros <- <- <-. unfold Scheduler.existingSchedule. simpl.
  rewrite existsb_app. simpl. unfold Scheduler.sameKey.
  rewrite !String.eqb_refl. simpl. by rewrite orb_true_r.
Qed.

(** The four facts the loop lemma asks of an iteration. *)
Lemma ensureSchedule_grows now template offset (w w' : World) o :
  Scheduler.ensureSchedule toISODate fromISO now template offset w = (o, w') ->
  grown w w'.
Proof.
  intros Hrun.
  destruct (ensureSchedule_cases now template offset w)
    as [[Heq _] | [(e & Heq & _) | (d & row & _ & _ & _ & _ & _ & _ & Heq)]];
    rewrite Heq in Hrun; simplify_eq; [apply grown_refl.. | by eexists].
Qed.

Lemma ensureSchedule_throws now template offset (w w' : World) e :
  Scheduler.ensureSchedule toISODate fromISO now template offset w = (Thrown e, w') ->
  w' = w.
Proof.
  intros Hrun.
  destruct (ensureSchedule_cases now template offset w)
    as [[Heq _] | [(e' & Heq & _) | (d & row & _ & _ & _ & _ & _ & _ & Heq)]];
    rewrite Heq in Hrun; by simplify_eq.
Qed.

Lemma ensureSchedule_settled_iff now template offset (w : World) :
  let t := fst template in
  let zone := Scheduler.zoneOf template in
  let date := toISODate zone now offset in
  Scheduler.ensureSchedule toISODate fromISO now template offset w = (Returned tt, w)
  <-> (Scheduler.existingSchedule w (ScheduleTemplates.masjidId t) date
         (ScheduleTemplates.prayerName t) = true
       \/ fromISO (default "null" date ++ "T" ++ ScheduleTemplates.adhanTimeLocal t)%string
            zone = None).
Proof.
  intros t zone date. split.
  - intros Hrun.
    destruct (ensureSchedule_cases now template offset w)
      as [[_ H] | [(e & Heq & _) | (d & row & _ & _ & _ & _ & _ & _ & Heq)]];
      [done | rewrite Heq in Hrun; discriminate |].
    rewrite Heq in Hrun. simplify_eq.
    exfalso. by eapply set_schedules_snoc_neq.
  - intros Hsettled.
    destruct (ensureSchedule_cases now template offset w)
      as [[Heq _] | [(e & _ & Hadhan & Hex) | (d & row & _ & Hadhan & Hex & _)]];
      [done | |].
    + fold t zone date in Hex, Hadhan.
      destruct Hsettled as [H|H]; [congruence | rewrite H in Hadhan; by destruct Hadhan].
    + fold t zone date in Hex, Hadhan.
      destruct Hsettled as [H|H]; [congruence | rewrite H in Hadhan; by destruct Hadhan].
Qed.

Lemma ensureSchedule_stays now template offset (w w' : World) :
  Scheduler.ensureSchedule toISODate fromISO now template offset w = (Returned tt, w') ->
  Scheduler.ensureSchedule toISODate fromISO now template offset w' = (Returned tt, w').
Proof.
  intros Hrun.
  destruct (ensureSchedule_cases now template offset w)
    as [[Heq _] | [(e & Heq & _) | (d & row & Hd & _ & _ & Hm & Hdate & Hp & Heq)]];
    rewrite Heq in Hrun; simplify_eq; [done|].
  apply ensureSchedule_settled_iff. left. rewrite Hd.
  by apply existing_after_insert.
Qed.

Lemma ensureSchedule_mono now template offset (w w' : World) :
  Scheduler.ensureSchedule toISODate fromISO now template offset w = (Returned tt, w) ->
  grown w w' ->
  Scheduler.ensureSchedule toISODate fromISO now template offset w' = (Returned tt, w').
Proof.
  intros Hrun Hgrown. apply ensureSchedule_settled_iff.
  apply ensureSchedule_settled_iff in Hrun as [Hex|Hadhan]; [left | by right].
  by eapply existingSchedule_grown.
Qed.

(** The nested loops visit the templates in order, each with offset 0 and
    then 1. *)
Lemma ensureDaily_flat now (w : World) :
  Scheduler.ensureDailySchedulesFromTemplates toISODate fromISO now w
  = for_each (template ← Scheduler.templatesWithZone w;
              (fun offset => (template, offset)) <$> [0%Z; 1%Z])
      (fun item => Scheduler.ensureSchedule toISODate fromISO now (fst item) (snd item)) w.
Proof.
  unfold Scheduler.ensureDailySchedulesFromTemplates.
  cbv [mbind M_bind bind gets].
  apply (for_each_nested (fun _ => [0%Z; 1%Z])
           (fun template offset =>
              Scheduler.ensureSchedule toISODate fromISO now template offset)).
Qed.

Lemma templatesWithZone_grown (w w' : World) :
  grown w w' -> Scheduler.templatesWithZone w' = Scheduler.templatesWithZone w.
Proof. by intros [extra ->]. Qed.

(** One run leads to a world that a further run at the same instant
    leaves alone, ending the same way; after a run that returned, every
    iteration is settled. *)
Lemma ensureDaily_fixpoint now (w w1 : World) o :
  Scheduler.ensureDailySchedulesFromTemplates toISODate fromISO now w = (o, w1) ->
  grown w w1
  /\ Scheduler.ensureDailySchedulesFromTemplates toISODate fromISO now w1 = (o, w1)
  /\ (o = Returned tt ->
      forall template offset,
        template ∈ Scheduler.templatesWithZone w -> offset ∈ [0%Z; 1%Z] ->
        Scheduler.ensureSchedule toISODate fromISO now template offset w1
        = (Returned tt, w1)).
Proof.
  rewrite ensureDaily_flat. intros Hrun.
  eapply (for_each_settles _ grown) in Hrun as (Hgrown & Hagain & Hall).
  - split; [done|]. split.
    + rewrite ensureDaily_flat. by rewrite (templatesWithZone_grown w w1).
    + intros Ho template offset Ht Hoff.
      apply (Hall Ho (template, offset)).
      apply list_elem_of_bind. exists template. split; [|done].
      apply list_elem_of_fmap. by exists offset.
  - apply grown_refl.
  - apply grown_trans.
  - intros [t off] w0 o0 w0'. apply ensureSchedule_grows.
  - intros [t off] w0 w0'. apply ensureSchedule_stays.
  - intros [t off] w0 w0'. apply ensureSchedule_mono.
  - intros [t off] w0 e w0'. apply ensureSchedule_throws.
Qed.

Lemma for_each_ext {A} (f g : A -> M World unit) (xs : list A) (w : World) :
  (forall x w0, x ∈ xs -> f x w0 = g x w0) ->
  for_each xs f w = for_each xs g w.
Proof.
  revert w. induction xs as [|x xs IH]; intros w Hfg; [done|].
  simpl. unfold bind. rewrite (Hfg x w ltac:(left)).
  destruct (g x w) as [[u|e] w1]; [|done].
  apply IH. intros y w0 Hy. apply Hfg. by right.
Qed.

(** Only the local dates of the instant enter a run. *)
Lemma ensureDaily_sameLocalDay now now' (w w0 : World) :
  sameLocalDay toISODate w now now' ->
  Scheduler.templatesWithZone w0 = Scheduler.templatesWithZone w ->
  Scheduler.ensureDailySchedulesFromTemplates toISODate fromISO now' w0
  = Scheduler.ensureDailySchedulesFromTemplates toISODate fromISO now w0.
Proof.
  intros Hsame Htpl. rewrite !ensureDaily_flat, Htpl.
  apply for_each_ext. intros [template offset] w1 Hin.
  apply list_elem_of_bind in Hin as (t' & Hin & Ht').
  apply list_elem_of_fmap in Hin as (off & Heq & Hoff). simplify_eq.
  unfold Scheduler.ensureSchedule. cbn [fst snd].
  by rewrite (Hsame t' off Ht' Hoff).
Qed.

(** *** The unique index *)

Lemma existingSchedule_false_notin (w : World) masjid d prayer :
  Scheduler.existingSchedule w masjid (Some d) prayer = false ->
  (masjid, d, prayer)
    ∉ (fun r => (Schedules.masjidId r, Schedules.date r, Schedules.prayerName r))
        <$> schedules w.
Proof.
  unfold Scheduler.existingSchedule. intros Hex Hin.
  apply list_elem_of_fmap in Hin as (r & Hkey & Hr). simplify_eq.
  assert (existsb (Scheduler.sameKey (Schedules.masjidId r) (Schedules.date r)
                     (Schedules.prayerName r)) (schedules w) = true) as Htrue.
  { apply existsb_exists. exists r. split; [by apply list_elem_of_In|].
    unfold Scheduler.sameKey. by rewrite !String.eqb_refl. }
  congruence.
Qed.

Lemma ensureSchedule_keeps_uq now template offset (w : World) :
  schedule_day_prayer_uq (schedules w) ->
  schedule_day_prayer_uq
    (schedules (snd (Scheduler.ensureSchedule toISODate fromISO now template offset w))).
Proof.
  intros Huq.
  destruct (ensureSchedule_cases now template offset w)
    as [[Heq _] | [(e & Heq & _) | (d & row & Hd & _ & Hex & Hm & Hdate & Hp & Heq)]];
    rewrite Heq; [done..|].
  simpl. unfold schedule_day_prayer_uq. rewrite fmap_app. simpl.
  apply NoDup_app. split; [done|]. split; [|apply NoDup_singleton].
  intros key Hin Hin'. apply list_elem_of_singleton in Hin'. subst key.
  rewrite Hd in Hex. apply existingSchedule_false_notin in Hex.
  apply Hex. by rewrite <- Hm, <- Hdate, <- Hp.
Qed.

Lemma ensureDaily_keeps_uq now (w : World) :
  schedule_day_prayer_uq (schedules w) ->
  schedule_day_prayer_uq
    (schedules (snd (Scheduler.ensureDailySchedulesFromTemplates toISODate fromISO now w))).
Proof.
  intros Huq. rewrite ensureDaily_flat.
  apply (for_each_keeps _ (fun w0 => schedule_day_prayer_uq (schedules w0))); [|done].
  intros [template offset] w0 _. apply ensureSchedule_keeps_uq.
Qed.

Lemma sameKey_true masjid d prayer (r : Schedules.row) :
  Scheduler.sameKey masjid d prayer r = true
  <-> (Schedules.masjidId r, Schedules.date r, Schedules.prayerName r) = (masjid, d, prayer).
Proof.
  unfold Scheduler.sameKey. rewrite !andb_true_iff, !String.eqb_eq.
  split; [intros [[-> ->] ->]; done | intros ?; by simplify_eq].
Qed.

Lemma occurrences_le_1 (rows : list Schedules.row) masjid d prayer :
  schedule_day_prayer_uq rows -> occurrences masjid d prayer rows <= 1.
Proof.
  unfold schedule_day_prayer_uq, occurrences.
  induction rows as [|r rows IH]; intros Huq; [simpl; lia|].
  rewrite fmap_cons in Huq. apply NoDup_cons in Huq as [Hnotin Huq].
  rewrite filter_cons. case_decide as Hkey; [|by apply IH].
  simpl. cut (filter (fun r0 => Scheduler.sameKey masjid d prayer r0 = true) rows = []).
  { intros ->. simpl. lia. }
  destruct (filter _ rows) as [|x l] eqn:Hf; [done|].
  exfalso. apply Hnotin.
  assert (x ∈ filter (fun r0 => Scheduler.sameKey masjid d prayer r0 = true) rows) as Hx
    by (rewrite Hf; by left).
  apply list_elem_of_filter in Hx as [Hxkey Hx].
  apply sameKey_true in Hkey, Hxkey.
  apply list_elem_of_fmap. exists x. split; [congruence | done].
Qed.

Lemma occurrences_ge_1 (w : World) masjid d prayer :
  Scheduler.existingSchedule w masjid (Some d) prayer = true ->
  1 <= occurrences masjid d prayer (schedules w).
Proof.
  unfold Scheduler.existingSchedule, occurrences. intros Hex.
  apply existsb_exists in Hex as (r & Hin & Hkey).
  apply list_elem_of_In in Hin.
  assert (r ∈ filter (fun r0 => Scheduler.sameKey masjid d prayer r0 = true) (schedules w))
    as Hr by (by apply list_elem_of_filter).
  destruct (filter _ (schedules w)); [by apply not_elem_of_nil in Hr | simpl; lia].
Qed.

(** Runs in a row. *)
Lemma later_runs_change_nothing now (later : list Z) (w w1 : World) o :
  Scheduler.ensureDailySchedulesFromTemplates toISODate fromISO now w = (o, w1) ->
  (forall t, t ∈ later -> sameLocalDay toISODate w now t) ->
  foldl (fun w0 t =>
           snd (Scheduler.ensureDailySchedulesFromTemplates toISODate fromISO t w0))
    w1 later = w1.
Proof.
  intros Hrun Hsame.
  destruct (ensureDaily_fixpoint now w w1 o Hrun) as (Hgrown & Hagain & _).
  induction later as [|t later IH]; [done|].
  simpl. rewrite (ensureDaily_sameLocalDay now t w w1).
  - rewrite Hagain. simpl. apply IH. intros t' Ht'. apply Hsame. by right.
  - apply Hsame. by left.
  - by apply templatesWithZone_grown.
Qed.

End Expander.

(** C7.  Run the expander at [now] and then at any instants of the same
    local day.  The runs after the first insert nothing and leave the world
    as the first run left it; the unique index keeps holding, so no key has
    two rows; and when the first run returned, every template has exactly
    one occurrence row for each of its two target dates on which its adhan
    time resolves. *)
Theorem expander_idempotent (toISODate : string -> Z -> Z -> option string)
  (fromISO : string -> string -> option Z) (w : World) (now : Z) (later : list Z) :
  schedule_day_prayer_uq (schedules w) ->
  (forall t, t ∈ later -> sameLocalDay toISODate w now t) ->
  let run := fun t w0 =>
    snd (Scheduler.ensureDailySchedulesFromTemplates toISODate fromISO t w0) in
  let w1 := run now w in
  foldl (fun w0 t => run t w0) w1 later = w1
  /\ (forall t, t ∈ later ->
        Scheduler.ensureDailySchedulesFromTemplates toISODate fromISO t w1
        = (fst (Scheduler.ensureDailySchedulesFromTemplates toISODate fromISO now w), w1))
  /\ schedule_day_prayer_uq (schedules w1)
  /\ (forall masjid date prayer, occurrences masjid date prayer (schedules w1) <= 1)
  /\ (fst (Scheduler.ensureDailySchedulesFromTemplates toISODate fromISO now w)
      = Returned tt ->
      forall template offset date,
        template ∈ Scheduler.templatesWithZone w -> offset ∈ [0%Z; 1%Z] ->
        toISODate (Scheduler.zoneOf template) now offset = Some date ->
        is_Some (fromISO (date ++ "T" ++ ScheduleTemplates.adhanTimeLocal (fst template))%string
                   (Scheduler.zoneOf template)) ->
        occurrences (ScheduleTemplates.masjidId (fst template)) date
          (ScheduleTemplates.prayerName (fst template)) (schedules w1) = 1).
Proof.
  intros Huq Hsame run w1. subst w1 run. cbn beta.
  destruct (Scheduler.ensureDailySchedulesFromTemplates toISODate fromISO now w)
    as [o w1] eqn:Hrun.
  cbn [fst snd].
  destruct (ensureDaily_fixpoint toISODate fromISO now w w1 o Hrun)
    as (Hgrown & Hagain & Hall).
  assert (schedule_day_prayer_uq (schedules w1)) as Huq1.
  { pose proof (ensureDaily_keeps_uq toISODate fromISO now w Huq) as H.
    by rewrite Hrun in H. }
  split; [exact (later_runs_change_nothing toISODate fromISO now later w w1 o Hrun Hsame)|].
  split.
  { intros t Ht. simpl.
    rewrite (ensureDaily_sameLocalDay toISODate fromISO now t w w1); [done | by apply Hsame |].
    by apply templatesWithZone_grown. }
  split; [done|].
  split; [intros; by apply occurrences_le_1|].
  simpl. intros -> template offset date Ht Hoff Hdate Hadhan.
  pose proof (Hall eq_refl template offset Ht Hoff) as Hsettled.
  apply ensureSchedule_settled_iff in Hsettled. rewrite Hdate in Hsettled.
  destruct Hsettled as [Hex | Hnone].
  - apply Nat.le_antisymm; [by apply occurrences_le_1 | by apply occurrences_ge_1].
  - simpl in Hnone. rewrite Hnone in Hadhan. by destruct Hadhan.
Qed.


Lemma expander_idempotent_witness :
  let w1 := snd (Scheduler.ensureDailySchedulesFromTemplates SampleExpander.toISODate
                   SampleExpander.fromISO Sample.t0 SampleExpander.world) in
  snd (Scheduler.ensureDailySchedulesFromTemplates SampleExpander.toISODate
         SampleExpander.fromISO (Sample.t0 + Sample.minute) w1) = w1
  /\ occurrences "m-1" "2023-11-15" "Fajr" (schedules w1) = 1
  /\ occurrences "m-1" "2023-11-16" "Fajr" (schedules w1) = 1.
Proof.
  destruct (expander_idempotent SampleExpander.toISODate SampleExpander.fromISO
              SampleExpander.world Sample.t0 [(Sample.t0 + Sample.minute)%Z])
    as (Hlater & _ & _ & _ & Hone).
  - apply NoDup_nil_2.
  - intros t Ht template offset Htemplate Hoffset.
    apply list_elem_of_singleton in Ht. subst t.
    apply list_elem_of_singleton in Htemplate. subst template.
    apply elem_of_cons in Hoffset as [->|Hoffset]; [reflexivity|].
    apply list_elem_of_singleton in Hoffset. subst offset. reflexivity.
  - split; [exact Hlater|]. split.
    + apply (Hone eq_refl (SampleExpander.fajr_template, "Asia/Kolkata") 0%Z).
      * left.
      * left.
      * reflexivity.
      * by eexists.
    + apply (Hone eq_refl (SampleExpander.fajr_template, "Asia/Kolkata") 1%Z).
      * left.
      * right. left.
      * reflexivity.
      * by eexists.
Defined.

(** A template whose masjid has no valid timezone is skipped, run after
    run: the guard on [adhanLocal.isValid] leaves it without rows. *)
Lemma expander_skips_invalid_zone :
  let w := SampleExpander.world in
  let unknown := fun (_ : string) (_ _ : Z) => @None string in
  Scheduler.ensureDailySchedulesFromTemplates unknown SampleExpander.fromISO Sample.t0 w
  = (Returned tt, w).
Proof. vm_compute. reflexivity. Qed.

(** ** Signed HLS URLs (services/hls.js) *)


Lemma differ_acc (a b : string) : HlsUrl.differ a b true = true.
Proof. revert b. induction a as [|x a IH]; intros [|y b]; simpl; auto. Qed.

(** On buffers of one length the constant-time comparison is equality. *)
Lemma timingSafeEqual_eq (a b : string) :
  String.length a = String.length b ->
  HlsUrl.timingSafeEqual a b = true <-> a = b.
Proof.
  unfold HlsUrl.timingSafeEqual. revert b.
  induction a as [|x a IH]; intros [|y b] Hlen; simpl in *; try discriminate.
  - done.
  - destruct (Ascii.eqb_spec x y) as [->|Hne]; simpl.
    + rewrite IH by lia. split; [by intros -> | by intros [= ->]].
    + rewrite differ_acc. simpl. split; [discriminate | by intros [= -> ->]].
Qed.

Section Signature.
Variable env : Env.
Variable hmac_sha256_hex : string -> string -> string.
Variable ToNumber : string -> JsNumber.
Variable ToString : QArith_base.Q -> string.

(** A hex digest is never the empty string. *)
Hypothesis digest_nonempty : forall key message, hmac_sha256_hex key message <> "".

Lemma verifyHlsSignature_true now id exp sig :
  HlsUrl.verifyHlsSignature env hmac_sha256_hex ToNumber ToString now id exp sig = true
  <-> exists secret q,
        HLS_SIGNING_SECRET env = Some secret /\ secret <> ""
        /\ notExpired ToNumber exp (HlsUrl.unixTime now) q
        /\ sig = Some (hmac_sha256_hex secret (id ++ "." ++ ToString q)%string).
Proof.
  unfold HlsUrl.verifyHlsSignature, notExpired. split.
  - destruct (HLS_SIGNING_SECRET env) as [secret|]; [|done].
    destruct exp as [e|]; [|by rewrite orb_true_r].
    destruct sig as [s|]; [|by rewrite orb_true_r].
    destruct (Js.truthy (Some secret)) eqn:Hsecret; [|done].
    destruct (Js.truthy (Some e)) eqn:He; [|done].
    destruct (Js.truthy (Some s)) eqn:Hs; [|done].
    simpl. destruct (ToNumber e) as [| |q] eqn:Hnum; try done.
    destruct (QArith_base.Qle_bool _ q) eqn:Hle; [|done]. simpl.
    destruct (Nat.eqb_spec (String.length (hmac_sha256_hex secret (id ++ "." ++ ToString q)))
                (String.length s)) as [Hlen|]; [|done].
    simpl. intros Heq. apply timingSafeEqual_eq in Heq; [|done].
    exists secret, q. apply truthy_Some in Hsecret, He.
    split; [done|]. split; [done|]. split; [|by subst].
    exists e. repeat split; try done. by apply QArith_base.Qle_bool_iff.
  - intros (secret & q & -> & Hsecret & (e & -> & He & Hnum & Hle) & ->).
    apply truthy_Some in Hsecret, He. rewrite Hsecret, He.
    pose proof (digest_nonempty secret (id ++ "." ++ ToString q)) as Hd.
    apply truthy_Some in Hd. rewrite Hd. simpl. rewrite Hnum.
    apply QArith_base.Qle_bool_iff in Hle. rewrite Hle. simpl.
    rewrite Nat.eqb_refl. simpl. by apply timingSafeEqual_eq.
Qed.

(** Numbers print and read back: [Number(String(n)) === n] for an integer
    [n], and no number prints as the empty string. *)
Hypothesis number_roundtrip :
  forall z : Z, ToNumber (ToString (QArith_base.inject_Z z))
                = Finite (QArith_base.inject_Z z).
Hypothesis number_text_nonempty : forall q, ToString q <> "".

Lemma signHlsUrl_fields t0 id basePath u :
  HlsUrl.signHlsUrl env hmac_sha256_hex ToString t0 id basePath = Some u ->
  exists secret,
    HLS_SIGNING_SECRET env = Some secret /\ secret <> ""
    /\ url_exp u = ToString (QArith_base.inject_Z (HlsUrl.unixTime t0 + HlsUrl.ttlSeconds env))
    /\ url_sig u
       = hmac_sha256_hex secret
           (id ++ "." ++ ToString (QArith_base.inject_Z
                                    (HlsUrl.unixTime t0 + HlsUrl.ttlSeconds env)))%string.
Proof.
  unfold HlsUrl.signHlsUrl.
  destruct (HLS_SIGNING_SECRET env) as [secret|] eqn:Hsecret; [|done].
  destruct (Js.truthy (Some secret)) eqn:Ht; [|done].
  simpl. intros [= <-]. exists secret. apply truthy_Some in Ht. done.
Qed.

Lemma signed_url_verifies t0 id basePath u t :
  HlsUrl.signHlsUrl env hmac_sha256_hex ToString t0 id basePath = Some u ->
  HlsUrl.verifyHlsSignature env hmac_sha256_hex ToNumber ToString t id
    (Some (url_exp u)) (Some (url_sig u)) = true
  <-> (HlsUrl.unixTime t <= HlsUrl.unixTime t0 + HlsUrl.ttlSeconds env)%Z.
Proof.
  intros Hsign.
  destruct (signHlsUrl_fields t0 id basePath u Hsign) as (secret & Hsecret & Hne & Hexp & Hsig).
  rewrite verifyHlsSignature_true. rewrite Hexp, Hsig. split.
  - intros (secret' & q & _ & _ & (e & [= <-] & _ & Hnum & Hle) & _).
    rewrite number_roundtrip in Hnum. injection Hnum as <-.
    by rewrite QArith_base.Zle_Qle.
  - intros Hle. exists secret, (QArith_base.inject_Z (HlsUrl.unixTime t0 + HlsUrl.ttlSeconds env)).
    split; [done|]. split; [done|]. split; [|done].
    eexists. split; [done|]. split; [apply number_text_nonempty|].
    split; [apply number_roundtrip|]. by rewrite <- QArith_base.Zle_Qle.
Qed.

(** *** The asset route *)

Variable verifyAccessToken : string -> option (option string).
Variable is_uuid : string -> bool.
Variable basename : string -> string.
Variable existsSync : string -> string -> bool.


End Signature.


Lemma sample_number_roundtrip (z : Z) :
  SampleCrypto.ToNumber (SampleCrypto.ToString (QArith_base.inject_Z z))
  = Finite (QArith_base.inject_Z z).
Proof.
  unfold SampleCrypto.ToNumber, SampleCrypto.ToString.
  rewrite Qround.Qfloor_Z, DecimalString.NilZero.isi.
  - by rewrite DecimalZ.of_to.
  - destruct z; simpl; [discriminate | | discriminate].
    intros [= H]. by apply DecimalPos.Unsigned.to_uint_nonnil in H.
  - destruct z; simpl; [discriminate | discriminate |].
    intros [= H]. by apply DecimalPos.Unsigned.to_uint_nonnil in H.
Qed.

Lemma sample_number_text_nonempty (q : QArith_base.Q) : SampleCrypto.ToString q <> "".
Proof.
  unfold SampleCrypto.ToString.
  destruct (Z.to_int (Qround.Qfloor q)) as [d|d]; simpl; [|discriminate].
  unfold DecimalString.NilZero.string_of_uint. destruct d; simpl; discriminate.
Qed.



(** After the expiry the same URL is refused, and so is a signature for
    another broadcast. *)
Lemma signed_url_expires :
  HlsUrl.verifyHlsSignature Sample.env SampleCrypto.hmac SampleCrypto.ToNumber
    SampleCrypto.ToString (Sample.t0 + 16 * Sample.minute) "b-1"
    (Some "1700000900") (Some "hs3cret:b-1.1700000900") = false
  /\ HlsUrl.verifyHlsSignature Sample.env SampleCrypto.hmac SampleCrypto.ToNumber
       SampleCrypto.ToString Sample.t0 "b-2"
       (Some "1700000900") (Some "hs3cret:b-1.1700000900") = false.
Proof. split; vm_compute; reflexivity. Qed.

(** ** The calendar of [Date] *)

(** [YearFromDay] answers the year of the day: the last one that begins on
    or before it. *)
Lemma YearFromDay_spec (d : Z) :
  (JsDate.DayFromYear (JsDate.YearFromDay d) <= d
   < JsDate.DayFromYear (JsDate.YearFromDay d + 1))%Z.
Proof.
  unfold JsDate.YearFromDay.
  set (y := (1970 + d * 400 / 146097)%Z).
  assert (JsDate.DayFromYear (y - 1) <= d < JsDate.DayFromYear (y + 2))%Z as Hest.
  { subst y. unfold JsDate.DayFromYear. Z.div_mod_to_equations. lia. }
  destruct (Z.ltb_spec d (JsDate.DayFromYear y)).
  - replace (y - 1 + 1)%Z with y by lia. lia.
  - destruct (Z.leb_spec (JsDate.DayFromYear (y + 1)) d).
    + replace (y + 1 + 1)%Z with (y + 2)%Z by lia. lia.
    + lia.
Qed.

Lemma DayFromYear_mono (y y' : Z) :
  (y <= y')%Z -> (JsDate.DayFromYear y <= JsDate.DayFromYear y')%Z.
Proof. unfold JsDate.DayFromYear. intros. Z.div_mod_to_equations. lia. Qed.

(** The years 0 to 99 are the instants from 0000-01-01 up to, and without,
    0100-01-01. *)
Lemma twoDigitYear_spec (t : Z) :
  twoDigitYear t = true <-> (-62167219200000 <= t < -59011459200000)%Z.
Proof.
  unfold twoDigitYear, JsDate.getUTCFullYear, JsDate.Day, JsDate.msPerDay.
  rewrite andb_true_iff, !Z.leb_le.
  pose proof (YearFromDay_spec (t / 86400000)) as Hs.
  set (y := JsDate.YearFromDay (t / 86400000)) in *.
  change (-62167219200000)%Z with (JsDate.DayFromYear 0 * 86400000)%Z.
  change (-59011459200000)%Z with (JsDate.DayFromYear 100 * 86400000)%Z.
  split.
  - intros [Hlo Hhi].
    pose proof (DayFromYear_mono 0 y Hlo).
    pose proof (DayFromYear_mono (y + 1) 100 ltac:(lia)).
    Z.div_mod_to_equations. lia.
  - intros Ht.
    assert (JsDate.DayFromYear 0 <= t / 86400000 < JsDate.DayFromYear 100)%Z as Hd.
    { Z.div_mod_to_equations. lia. }
    destruct (Z.lt_ge_cases y 0) as [Hneg|Hnn].
    { pose proof (DayFromYear_mono (y + 1) 0 ltac:(lia)). lia. }
    destruct (Z.lt_ge_cases 99 y) as [Hbig|Hsmall]; [|lia].
    pose proof (DayFromYear_mono 100 y ltac:(lia)). lia.
Qed.

(** The calendar fields of an instant name its day. *)
Lemma MakeDay_fields (t : Z) :
  JsDate.MakeDay (JsDate.getUTCFullYear t) (JsDate.getUTCMonth t) (JsDate.getUTCDate t)
  = JsDate.Day t.
Proof.
  unfold JsDate.MakeDay, JsDate.getUTCDate, JsDate.getUTCMonth, JsDate.DayWithinYear.
  set (y := JsDate.getUTCFullYear t). set (leap := JsDate.InLeapYear y).
  set (n := (JsDate.Day t - JsDate.DayFromYear y)%Z).
  assert (0 <= JsDate.MonthFromDay leap n <= 11)%Z as Hm.
  { unfold JsDate.MonthFromDay. repeat (destruct (_ <? _)%Z; [lia|]). lia. }
  set (m := JsDate.MonthFromDay leap n) in *.
  rewrite (Z.div_small m 12), (Z.mod_small m 12) by lia.
  replace (y + 0)%Z with y by lia. fold leap. lia.
Qed.

(** Outside the years 0 to 99 the midnight of the calendar fields is the
    last whole day at or before the instant. *)
Lemma startOfDay_floor (t : Z) :
  twoDigitYear t = false ->
  Controller.startOfDay t = (t / Controller.msPerDay * Controller.msPerDay)%Z.
Proof.
  unfold Controller.startOfDay, JsDate.UTC, twoDigitYear. intros ->.
  by rewrite MakeDay_fields.
Qed.

(** In those years it is a midnight of the twentieth century. *)
Lemma startOfDay_year_50 :
  twoDigitYear (-60576231600000) = true
  /\ Controller.startOfDay (-60576231600000) = (-618105600000)%Z.
Proof. split; vm_compute; reflexivity. Qed.

(** ** Creating a broadcast (controllers/broadcast.controller.js) *)

Lemma within_utcDay (t : Z) (column : option Z) :
  Controller.within (t / Controller.msPerDay * Controller.msPerDay)
    (t / Controller.msPerDay * Controller.msPerDay + Controller.msPerDay) column = true
  <-> exists t', column = Some t' /\ sameUtcDay t t'.
Proof.
  unfold Controller.within, sameUtcDay, Controller.msPerDay.
  destruct column as [t'|]; [|split; [discriminate | by intros (? & ? & ?)]].
  rewrite andb_true_iff, Z.leb_le, Z.ltb_lt. split.
  - intros [Hlo Hhi]. exists t'. split; [done|].
    apply (Z.div_unique t' 86400000 (t / 86400000) (t' - t / 86400000 * 86400000));
      lia.
  - intros (? & [= <-] & Hday). rewrite Hday.
    pose proof (Z.mul_div_le t' 86400000 ltac:(lia)).
    pose proof (Z.mul_succ_div_gt t' 86400000 ltac:(lia)). lia.
Qed.

Lemma within_sameUtcDay (t : Z) (column : option Z) :
  twoDigitYear t = false ->
  Controller.within (Controller.startOfDay t) (Controller.endOfDay t) column = true
  <-> exists t', column = Some t' /\ sameUtcDay t t'.
Proof.
  intros Hyear. unfold Controller.endOfDay. rewrite startOfDay_floor by done.
  apply within_utcDay.
Qed.

Lemma existingBroadcast_utcDay (w : World) masjid prayer t :
  Controller.existingBroadcast w masjid prayer
    (t / Controller.msPerDay * Controller.msPerDay)
    (t / Controller.msPerDay * Controller.msPerDay + Controller.msPerDay) = true
  <-> sameDayNonFailed w masjid prayer t.
Proof.
  unfold Controller.existingBroadcast, sameDayNonFailed.
  rewrite bool_decide_eq_true. unfold map_Exists, Controller.sameDayBroadcast. split.
  - intros (id & b & Hb & Hsame). exists id, b.
    rewrite !andb_true_iff, orb_true_iff, !within_utcDay in Hsame.
    destruct Hsame as [[[Hm Hp] Hs] Hday].
    apply String.eqb_eq in Hm. apply bool_decide_eq_true in Hp.
    apply negb_true_iff, bool_decide_eq_false in Hs. done.
  - intros (id & b & Hb & Hm & Hp & Hs & Hday). exists id, b. split; [done|].
    rewrite !andb_true_iff, orb_true_iff, !within_utcDay.
    repeat split; try done.
    + by apply String.eqb_eq.
    + by apply bool_decide_eq_true.
    + by apply negb_true_iff, bool_decide_eq_false.
Qed.

Lemma existingBroadcast_true (w : World) masjid prayer t :
  twoDigitYear t = false ->
  Controller.existingBroadcast w masjid prayer (Controller.startOfDay t)
    (Controller.endOfDay t) = true
  <-> sameDayNonFailed w masjid prayer t.
Proof.
  intros Hyear. unfold Controller.endOfDay. rewrite startOfDay_floor by done.
  apply existingBroadcast_utcDay.
Qed.

Section Create.
Variable env : Env.
Variable ext : Providers.
Variable Date_parse : string -> option Z.
Variable acceptsTimestamp : Z -> bool.

#[local] Arguments text : simpl never.

(** Dates that can be carried are sent without a trace; the others make
    the statement throw before it reaches the store. *)
Lemma sendDates_spec (dates : list Z) (w : World) :
  (forallb (sendable acceptsTimestamp) dates = true
   /\ Controller.sendDates acceptsTimestamp dates w = (Returned tt, w))
  \/ (forallb (sendable acceptsTimestamp) dates = false
      /\ exists message,
           Controller.sendDates acceptsTimestamp dates w
           = (Thrown (DriverError message), w)).
Proof.
  unfold Controller.sendDates.
  assert (forallb (sendable acceptsTimestamp) dates
          = forallb JsDate.valid dates && forallb acceptsTimestamp dates) as ->.
  { unfold sendable. induction dates as [|t dates IH]; [done|].
    cbn [forallb]. rewrite IH.
    destruct (JsDate.valid t), (acceptsTimestamp t), (forallb JsDate.valid dates); done. }
  destruct (forallb JsDate.valid dates); cbn [negb andb]; [|right; by eauto].
  destruct (forallb acceptsTimestamp dates); cbn [negb]; [by left|right; by eauto].
Qed.





(** Assigning the room rewrites only the room and the URL of that row, and
    leaves the row in place when the room service fails. *)
Lemma assignRoom_spec now uuid (c : CreateBody) created (w : World) row :
  broadcasts w !! uuid = Some row ->
  exists row',
    broadcasts (snd (Controller.assignRoom env ext now uuid c created w)) !! uuid
    = Some row'
    /\ Broadcasts.masjidId row' = Broadcasts.masjidId row
    /\ Broadcasts.prayerName row' = Broadcasts.prayerName row
    /\ Broadcasts.status row' = Broadcasts.status row
    /\ Broadcasts.scheduledAt row' = Broadcasts.scheduledAt row
    /\ forall j, j <> uuid ->
         broadcasts (snd (Controller.assignRoom env ext now uuid c created w)) !! j
         = broadcasts w !! j.
Proof.
  intros Hrow. unfold Controller.assignRoom.
  destruct (_ && _ && _); [|by exists row].
  run. destruct (negb (Livekit.hasClient env)).
  - rewrite Hrow. simpl. eexists. rewrite lookup_insert_eq. split; [done|].
    repeat split. intros j Hj. by rewrite lookup_insert_ne.
  - simpl. destruct (createRoom_result ext _); simpl.
    3: by exists row.
    all: rewrite Hrow; simpl; eexists; rewrite lookup_insert_eq; split; [done|].
    all: repeat split; intros j Hj; by rewrite lookup_insert_ne.
Qed.

End Create.






(** A date of the years 0 to 99 is compared with a day of the twentieth
    century: a second broadcast for the prayer and the day gets past the
    check. *)
Lemma createBroadcast_year_50_not_refused :
  let row := Sample.fajr scheduled None in
  let there := {| Broadcasts.masjidId := Broadcasts.masjidId row;
                  Broadcasts.createdBy := Broadcasts.createdBy row;
                  Broadcasts.title := Broadcasts.title row;
                  Broadcasts.prayerName := Broadcasts.prayerName row;
                  Broadcasts.status := scheduled;
                  Broadcasts.scheduledAt := Some (-60576231600000)%Z;
                  Broadcasts.streamProvider := Broadcasts.streamProvider row;
                  Broadcasts.streamRoomId := Broadcasts.streamRoomId row;
                  Broadcasts.audioUrl := Broadcasts.audioUrl row;
                  Broadcasts.hlsUrl := None; Broadcasts.hlsEgressId := None;
                  Broadcasts.hlsRtmpUrl := None; Broadcasts.recordingUrl := None;
                  Broadcasts.startedAt := None; Broadcasts.endedAt := None;
                  Broadcasts.endedReason := None;
                  Broadcasts.createdAt := Broadcasts.createdAt row;
                  Broadcasts.updatedAt := Broadcasts.updatedAt row |} in
  let w := Sample.world there in
  let c := {| create_masjidId := "m-1"; create_title := None;
              create_prayerName := Some "Fajr";
              create_scheduledAt := Some "0050-06-01T05:00:00Z";
              create_streamProvider := None; create_streamRoomId := None;
              create_audioUrl := None |} in
  let r := Controller.createBroadcast Sample.env Sample.ext
             (fun _ => Some (-60576231600000)%Z) SampleCrypto.acceptsTimestamp
             (Sample.t0 + Sample.minute) "b-2"
             {| user := Some "imam"; params_id := None; body := Some c |} w in
  Broadcasts.scheduledAt <$> broadcasts w !! "b-1" = Some (Some (-60576231600000)%Z)
  /\ Broadcasts.scheduledAt <$> broadcasts (snd r) !! "b-2"
     = Some (Some (-60576231600000)%Z).
Proof. split; vm_compute; reflexivity. Qed.

(** With both fields supplied the same request is refused. *)
Lemma createBroadcast_same_day_conflict :
  let w := Sample.world (Sample.fajr scheduled None) in
  let c := {| create_masjidId := "m-1"; create_title := None;
              create_prayerName := Some "Fajr";
              create_scheduledAt := Some "2023-11-14T23:40:00Z";
              create_streamProvider := None; create_streamRoomId := None;
              create_audioUrl := None |} in
  Controller.createBroadcast Sample.env Sample.ext (fun _ => Some 1700005200000%Z)
    SampleCrypto.acceptsTimestamp (Sample.t0 + Sample.minute) "b-2"
    {| user := Some "imam"; params_id := None; body := Some c |} w
  = (Thrown (ApiError 409 "conflict"
               "Broadcast already exists for this prayer and date"), w).
Proof. vm_compute. reflexivity. Qed.

(** ** Token handlers (controllers/broadcast.controller.js) *)

#[local] Arguments text : simpl never.
#[local] Arguments Controller.isBroadcastExpired : simpl never.

Lemma text_string (s : string) : text (Some (VString s)) = Some s.
Proof. reflexivity. Qed.

Lemma text_missing : text None = None.
Proof. reflexivity. Qed.

Section TokenFacts.
Variable env : Env.
Variable ext : Providers.
Variable hmac_sha256_hex : string -> string -> string.
Variable ToString : QArith_base.Q -> string.

Lemma stale_is_expired now (b : Broadcasts.row) :
  staleLive env now b ->
  Controller.isBroadcastExpired env now (Some (of_date (Broadcasts.startedAt b))) = true.
Proof.
  intros [_ (t & -> & Hle)]. unfold Controller.isBroadcastExpired. simpl.
  by apply Z.leb_le.
Qed.

Lemma fresh_iff_not_expired now (b : Broadcasts.row) :
  Broadcasts.status b = live ->
  Controller.isBroadcastExpired env now (Some (of_date (Broadcasts.startedAt b))) = false
  <-> freshLive env now b.
Proof.
  intros Hlive. unfold freshLive, Controller.isBroadcastExpired.
  destruct (Broadcasts.startedAt b) as [t|]; simpl.
  - rewrite Z.leb_gt. split.
    + intros Hlt. split; [done|]. by intros ? [= <-].
    + intros [_ H]. by apply H.
  - split; [|done]. intros _. split; [done|]. done.
Qed.

(** X1. A token request for a live broadcast that is past its maximum
    duration ends it, whoever asks: before any authority or subscription
    check, the row is completed with the reason [max_duration_reached], one
    [broadcast-end] job is queued and the request is refused with 409
    "Broadcast expired". *)
Theorem token_request_ends_stale_broadcast (now : Z) (request : Request unit)
  (w : World) (a id : string) (b : Broadcasts.row) :
  user request = Some a -> a <> "" ->
  params_id request = Some id -> id <> "" ->
  broadcasts w !! id = Some b ->
  staleLive env now b ->
  Tokens.getBroadcastToken env ext now request w
  = (Thrown (ApiError 409 "conflict" "Broadcast expired"), expiredAt now id b w)
  /\ Tokens.getBroadcastListenerToken env ext hmac_sha256_hex ToString now request w
     = (Thrown (ApiError 409 "conflict" "Broadcast expired"), expiredAt now id b w).
Proof.
  intros Hu Ha Hp Hi Hb Hstale.
  pose proof (stale_is_expired now b Hstale) as Hexp.
  destruct Hstale as [Hlive _].
  split.
  - unfold Tokens.getBroadcastToken. run. rewrite Hu, Hp.
    destruct (String.eqb_spec a ""); [done|].
    destruct (String.eqb_spec id ""); [done|].
    rewrite Hb. simpl. rewrite Hlive. simpl. rewrite Hexp.
    rewrite Hb. reflexivity.
  - unfold Tokens.getBroadcastListenerToken. run. rewrite Hu, Hp.
    destruct (String.eqb_spec a ""); [done|].
    destruct (String.eqb_spec id ""); [done|].
    rewrite Hb. simpl. rewrite Hlive. simpl. rewrite Hexp.
    rewrite Hb. reflexivity.
Qed.


(** X2. A publisher token is issued only for a live broadcast that is not
    past its maximum duration and only to an admin of its masjid; it carries
    the publish grant for the room the row names afterwards, and the
    broadcast stays live. *)
Theorem publisher_token_needs_live_admin (now : Z) (request : Request unit)
  (w w' : World) (r : TokenResponse) :
  Tokens.getBroadcastToken env ext now request w = (Returned r, w') ->
  exists a id b room,
    user request = Some a /\ params_id request = Some id
    /\ broadcasts w !! id = Some b
    /\ freshLive env now b
    /\ Controller.isAdmin w a (Broadcasts.masjidId b) = true
    /\ hasLivekitConfig env = true
    /\ r = TokenIssued "Broadcast token issued" (toJwt ext a room true) room
             (Js.coalesce (Broadcasts.audioUrl b) (LIVEKIT_URL env))
    /\ exists b', broadcasts w' !! id = Some b'
         /\ Broadcasts.status b' = live
         /\ Broadcasts.streamRoomId b' = Some room.
Proof.
  unfold Tokens.getBroadcastToken. run.
  destruct (user request) as [a|]; [|done].
  destruct (String.eqb_spec a ""); [done|].
  destruct (params_id request) as [id|]; [|done].
  destruct (String.eqb_spec id ""); [done|].
  destruct (broadcasts w !! id) as [b|] eqn:Hb; [|done].
  simpl. rewrite (is_status _ live).
  destruct (decide (Broadcasts.status b = live)) as [Hlive|Hn];
    [rewrite bool_decide_eq_true_2 by done|by rewrite bool_decide_eq_false_2].
  destruct (Controller.isBroadcastExpired env now _) eqn:Hexp.
  { rewrite Hb. done. }
  apply fresh_iff_not_expired in Hexp; [|done].
  rewrite ?text_of_text, ?text_string. cbn [default].
  destruct (Controller.isAdmin w a _) eqn:Hadmin; [|done].
  unfold Livekit.createLivekitToken.
  destruct (negb (Js.truthy (Broadcasts.streamRoomId b)) && _ && _) eqn:Hcreate.
  - unfold Livekit.hasClient.
    destruct (hasLivekitConfig env) eqn:Hcfg; simpl.
    + destruct (createRoom_result ext ("broadcast-" +:+ id)); try done.
      all: cbn [broadcasts set_effects]; rewrite Hb; simpl.
      all: destruct (toJwt ext a ("broadcast-" +:+ id) true =? "") eqn:Htok; [done|].
      all: simpl; intros [= <- <-].
      all: exists a, id, b, ("broadcast-" +:+ id).
      all: repeat (split; [done|]).
      all: eexists; split; [apply lookup_insert_eq|]; done.
    + rewrite Hb. done.
  - destruct (Broadcasts.streamRoomId b) as [room|] eqn:Hroom; [|done].
    destruct (Js.truthy (Some room)) eqn:Htruthy; [|done].
    simpl. destruct (hasLivekitConfig env) eqn:Hcfg; [|done].
    simpl. destruct (toJwt ext a room true =? "") eqn:Htok; [done|].
    simpl. intros [= <- <-].
    exists a, id, b, room. repeat (split; [done|]).
    exists b. done.
Qed.

(** A stream location is answered only in the HLS branch, where it is the
    text of the signed URL. *)
Lemma listener_stream_is_signed (now : Z) (request : Request unit)
  (w w' : World) (message url format : string) :
  Tokens.getBroadcastListenerToken env ext hmac_sha256_hex ToString now request w
  = (Returned (StreamReady message url format), w') ->
  exists id u,
    params_id request = Some id
    /\ HlsUrl.signHlsUrl env hmac_sha256_hex ToString now id "/api/v1" = Some u
    /\ url = url_text u.
Proof.
  unfold Tokens.getBroadcastListenerToken. run.
  destruct (user request) as [a|]; [|done].
  destruct (String.eqb_spec a ""); [done|].
  destruct (params_id request) as [id|]; [|done].
  destruct (String.eqb_spec id ""); [done|].
  destruct (broadcasts w !! id) as [b|] eqn:Hb; [|done].
  simpl. destruct (status_label (Broadcasts.status b) =? "live"); [|done].
  destruct (Controller.isBroadcastExpired env now _); [by rewrite Hb|].
  rewrite ?text_of_text, ?text_string, ?text_missing. cbn [default].
  destruct (HlsUrl.isSubscribed w a _); [|done].
  simpl. unfold Hls.isHlsEnabled.
  destruct (HLS_ENABLED env).
  - destruct (HlsUrl.signHlsUrl env hmac_sha256_hex ToString now id "/api/v1")
      as [u|] eqn:Hsign; simpl; [|done].
    destruct (url_text u =? ""); [done|].
    simpl. intros [= _ <- _ _]. by exists id, u.
  - repeat (case_match; simpl in *; simplify_eq; try done).
Qed.

(** X3. Whatever [getBroadcastListenerToken] answers with, the broadcast
    was live and within its maximum duration and the caller is subscribed to
    its masjid.  With HLS enabled the answer is the signed stream location
    and nothing is written; otherwise it is a LiveKit token without the
    publish grant for the room of the row. *)
Theorem listener_response_needs_live_subscription (now : Z) (request : Request unit)
  (w w' : World) (r : TokenResponse) :
  Tokens.getBroadcastListenerToken env ext hmac_sha256_hex ToString now request w
  = (Returned r, w') ->
  exists a id b,
    user request = Some a /\ params_id request = Some id
    /\ broadcasts w !! id = Some b
    /\ freshLive env now b
    /\ HlsUrl.isSubscribed w a (Broadcasts.masjidId b) = true
    /\ match r with
       | StreamReady _ url format =>
           HLS_ENABLED env = true /\ format = "hls" /\ w' = w
           /\ exists u, HlsUrl.signHlsUrl env hmac_sha256_hex ToString now id "/api/v1"
                        = Some u
                        /\ url = url_text u
       | TokenIssued _ token room _ =>
           HLS_ENABLED env = false
           /\ token = toJwt ext a room false
           /\ exists b', broadcasts w' !! id = Some b'
                /\ Broadcasts.status b' = live
                /\ Broadcasts.streamRoomId b' = Some room
       end.
Proof.
  unfold Tokens.getBroadcastListenerToken. run.
  destruct (user request) as [a|]; [|done].
  destruct (String.eqb_spec a ""); [done|].
  destruct (params_id request) as [id|]; [|done].
  destruct (String.eqb_spec id ""); [done|].
  destruct (broadcasts w !! id) as [b|] eqn:Hb; [|done].
  simpl. rewrite (is_status _ live).
  destruct (decide (Broadcasts.status b = live)) as [Hlive|Hn];
    [rewrite bool_decide_eq_true_2 by done|by rewrite bool_decide_eq_false_2].
  destruct (Controller.isBroadcastExpired env now _) eqn:Hexp.
  { rewrite Hb. done. }
  apply fresh_iff_not_expired in Hexp; [|done].
  rewrite ?text_of_text, ?text_string, ?text_missing. cbn [default].
  destruct (HlsUrl.isSubscribed w a _) eqn:Hsub; [|done].
  simpl. unfold Hls.isHlsEnabled, Livekit.createLivekitToken.
  destruct (HLS_ENABLED env) eqn:Hhls.
  - destruct (HlsUrl.signHlsUrl env hmac_sha256_hex ToString now id "/api/v1")
      as [u|] eqn:Hsign; simpl; [|done].
    destruct (url_text u =? "") eqn:Hurl; [done|].
    simpl. intros [= <- <-]. exists a, id, b. repeat (split; [done|]).
    by exists u.
  - destruct (negb (Js.truthy (Broadcasts.streamRoomId b)) && _ && _) eqn:Hcreate.
    + unfold Livekit.hasClient.
      destruct (hasLivekitConfig env) eqn:Hcfg; simpl.
      * destruct (createRoom_result ext ("broadcast-" +:+ id)); try done.
        all: cbn [broadcasts set_effects]; rewrite Hb; simpl.
        all: destruct (toJwt ext a ("broadcast-" +:+ id) false =? "") eqn:Htok; [done|].
        all: simpl; intros [= <- <-].
        all: exists a, id, b.
        all: repeat (split; [done|]).
        all: eexists; split; [apply lookup_insert_eq|]; done.
      * rewrite Hb. done.
    + destruct (Broadcasts.streamRoomId b) as [room|] eqn:Hroom; [|done].
      destruct (Js.truthy (Some room)) eqn:Htruthy; [|done].
      simpl. destruct (hasLivekitConfig env) eqn:Hcfg; [|done].
      simpl. destruct (toJwt ext a room false =? "") eqn:Htok; [done|].
      simpl. intros [= <- <-].
      exists a, id, b. repeat (split; [done|]).
      exists b. done.
Qed.

(** X4. With HLS enabled and no signing secret a subscribed listener of a
    live broadcast is always refused with 503 "HLS stream not ready", also
    when the row has an [hlsUrl]: the handler does not select that column. *)
Theorem listener_without_signing_secret_gets_503 (now : Z) (request : Request unit)
  (w : World) (a id : string) (b : Broadcasts.row) :
  user request = Some a -> a <> "" ->
  params_id request = Some id -> id <> "" ->
  broadcasts w !! id = Some b ->
  freshLive env now b ->
  HlsUrl.isSubscribed w a (Broadcasts.masjidId b) = true ->
  HLS_ENABLED env = true ->
  Js.truthy (HLS_SIGNING_SECRET env) = false ->
  Tokens.getBroadcastListenerToken env ext hmac_sha256_hex ToString now request w
  = (Thrown (ApiError 503 "service_unavailable" "HLS stream not ready"), w).
Proof.
  intros Hu Ha Hp Hi Hb Hfresh Hsub Hhls Hsecret.
  pose proof Hfresh as [Hlive _].
  apply fresh_iff_not_expired in Hfresh; [|done].
  unfold Tokens.getBroadcastListenerToken. run. rewrite Hu, Hp.
  destruct (String.eqb_spec a ""); [done|].
  destruct (String.eqb_spec id ""); [done|].
  rewrite Hb. simpl. rewrite Hlive. simpl. rewrite Hfresh.
  rewrite ?text_of_text, ?text_string, ?text_missing. cbn [default].
  rewrite Hsub. simpl. unfold Hls.isHlsEnabled, HlsUrl.signHlsUrl.
  rewrite Hhls, Hsecret. reflexivity.
Qed.

End TokenFacts.

(** X5. The stream location a listener is given passes the signature check
    of the asset route for the same broadcast exactly until its expiry, that
    is as long as the clock in seconds has not passed the issue time plus
    the configured time to live. *)
Theorem listener_stream_url_verifies (env : Env) (ext : Providers)
  (hmac_sha256_hex : string -> string -> string)
  (ToNumber : string -> JsNumber) (ToString : QArith_base.Q -> string)
  (now : Z) (request : Request unit) (w w' : World) (message url format : string) :
  (forall key text, hmac_sha256_hex key text <> "") ->
  (forall z : Z, ToNumber (ToString (QArith_base.inject_Z z))
                 = Finite (QArith_base.inject_Z z)) ->
  (forall q, ToString q <> "") ->
  Tokens.getBroadcastListenerToken env ext hmac_sha256_hex ToString now request w
  = (Returned (StreamReady message url format), w') ->
  exists id u,
    params_id request = Some id
    /\ url = url_text u
    /\ url_path u = ("/api/v1/broadcasts/" ++ id ++ "/hls/index.m3u8")%string
    /\ forall t,
         HlsUrl.verifyHlsSignature env hmac_sha256_hex ToNumber ToString t id
           (Some (url_exp u)) (Some (url_sig u)) = true
         <-> (HlsUrl.unixTime t <= HlsUrl.unixTime now + HlsUrl.ttlSeconds env)%Z.
Proof.
  intros Hdigest Hround Htext Hrun.
  apply listener_stream_is_signed in Hrun as (id & u & Hid & Hsign & ->).
  exists id, u. split; [done|]. split; [done|]. split.
  - unfold HlsUrl.signHlsUrl in Hsign.
    destruct (negb (Js.truthy (HLS_SIGNING_SECRET env))); [done|].
    by injection Hsign as <-.
  - intros t. by eapply signed_url_verifies.
Qed.

Lemma token_request_ends_stale_broadcast_witness :
  Tokens.getBroadcastListenerToken Sample.env Sample.ext SampleCrypto.hmac
    SampleCrypto.ToString (Sample.t0 + 60 * Sample.minute)
    (SampleTokens.by_user "stranger" "b-1")
    (Sample.world (Sample.fajr live (Some Sample.t0)))
  = (Thrown (ApiError 409 "conflict" "Broadcast expired"),
     expiredAt (Sample.t0 + 60 * Sample.minute) "b-1" (Sample.fajr live (Some Sample.t0))
       (Sample.world (Sample.fajr live (Some Sample.t0)))).
Proof.
  apply (token_request_ends_stale_broadcast Sample.env Sample.ext SampleCrypto.hmac
           SampleCrypto.ToString (Sample.t0 + 60 * Sample.minute)
           (SampleTokens.by_user "stranger" "b-1")
           (Sample.world (Sample.fajr live (Some Sample.t0)))
           "stranger" "b-1" (Sample.fajr live (Some Sample.t0))).
  - reflexivity.
  - discriminate.
  - reflexivity.
  - discriminate.
  - reflexivity.
  - split; [reflexivity|]. exists Sample.t0. split; [reflexivity|]. vm_compute. discriminate.
Defined.

Lemma publisher_token_needs_live_admin_witness :
  exists a id b room,
    user (SampleTokens.by_user "imam" "b-1") = Some a
    /\ params_id (SampleTokens.by_user "imam" "b-1") = Some id
    /\ broadcasts (Sample.world SampleTokens.streaming) !! id = Some b
    /\ freshLive SampleTokens.env_rooms (Sample.t0 + Sample.minute) b
    /\ Controller.isAdmin (Sample.world SampleTokens.streaming) a (Broadcasts.masjidId b)
       = true
    /\ hasLivekitConfig SampleTokens.env_rooms = true
    /\ TokenIssued "Broadcast token issued" "imam@broadcast-b-1" "broadcast-b-1"
         (Some "wss://livekit.example")
       = TokenIssued "Broadcast token issued" (toJwt Sample.ext a room true) room
           (Js.coalesce (Broadcasts.audioUrl b) (LIVEKIT_URL SampleTokens.env_rooms))
    /\ exists b', broadcasts (Sample.world SampleTokens.streaming) !! id = Some b'
         /\ Broadcasts.status b' = live
         /\ Broadcasts.streamRoomId b' = Some room.
Proof.
  apply (publisher_token_needs_live_admin SampleTokens.env_rooms Sample.ext
           (Sample.t0 + Sample.minute) (SampleTokens.by_user "imam" "b-1")
           (Sample.world SampleTokens.streaming) (Sample.world SampleTokens.streaming)).
  vm_compute. reflexivity.
Defined.

Lemma listener_response_needs_live_subscription_witness :
  exists a id b,
    user (SampleTokens.by_user "u-1" "b-1") = Some a
    /\ params_id (SampleTokens.by_user "u-1" "b-1") = Some id
    /\ broadcasts (Sample.world SampleTokens.streaming) !! id = Some b
    /\ freshLive SampleTokens.env_rooms (Sample.t0 + Sample.minute) b
    /\ HlsUrl.isSubscribed (Sample.world SampleTokens.streaming) a (Broadcasts.masjidId b)
       = true
    /\ HLS_ENABLED SampleTokens.env_rooms = false
    /\ "u-1@broadcast-b-1" = toJwt Sample.ext a "broadcast-b-1" false
    /\ exists b', broadcasts (Sample.world SampleTokens.streaming) !! id = Some b'
         /\ Broadcasts.status b' = live
         /\ Broadcasts.streamRoomId b' = Some "broadcast-b-1".
Proof.
  apply (listener_response_needs_live_subscription SampleTokens.env_rooms Sample.ext
           SampleCrypto.hmac SampleCrypto.ToString
           (Sample.t0 + Sample.minute) (SampleTokens.by_user "u-1" "b-1")
           (Sample.world SampleTokens.streaming) (Sample.world SampleTokens.streaming)
           (TokenIssued "Listener token issued" "u-1@broadcast-b-1" "broadcast-b-1"
              (Some "wss://livekit.example"))).
  vm_compute. reflexivity.
Defined.

Lemma listener_without_signing_secret_gets_503_witness :
  Tokens.getBroadcastListenerToken SampleTokens.env_unsigned Sample.ext SampleCrypto.hmac
    SampleCrypto.ToString (Sample.t0 + Sample.minute)
    (SampleTokens.by_user "u-1" "b-1") (Sample.world SampleTokens.streaming)
  = (Thrown (ApiError 503 "service_unavailable" "HLS stream not ready"),
     Sample.world SampleTokens.streaming).
Proof.
  apply (listener_without_signing_secret_gets_503 SampleTokens.env_unsigned Sample.ext
           SampleCrypto.hmac SampleCrypto.ToString (Sample.t0 + Sample.minute)
           (SampleTokens.by_user "u-1" "b-1") (Sample.world SampleTokens.streaming)
           "u-1" "b-1" SampleTokens.streaming).
  - reflexivity.
  - discriminate.
  - reflexivity.
  - discriminate.
  - reflexivity.
  - split; [reflexivity|]. intros t [= <-]. vm_compute. reflexivity.
  - reflexivity.
  - reflexivity.
  - reflexivity.
Defined.

Lemma listener_stream_url_verifies_witness :
  exists id u,
    params_id (SampleTokens.by_user "u-1" "b-1") = Some id
    /\ "/api/v1/broadcasts/b-1/hls/index.m3u8?exp=1700000960&sig=hs3cret:b-1.1700000960"
       = url_text u
    /\ url_path u = ("/api/v1/broadcasts/" ++ id ++ "/hls/index.m3u8")%string
    /\ forall t,
         HlsUrl.verifyHlsSignature Sample.env_livekit SampleCrypto.hmac
           SampleCrypto.ToNumber SampleCrypto.ToString t id
           (Some (url_exp u)) (Some (url_sig u)) = true
         <-> (HlsUrl.unixTime t
              <= HlsUrl.unixTime (Sample.t0 + Sample.minute)
                 + HlsUrl.ttlSeconds Sample.env_livekit)%Z.
Proof.
  apply (listener_stream_url_verifies Sample.env_livekit Sample.ext SampleCrypto.hmac
           SampleCrypto.ToNumber SampleCrypto.ToString (Sample.t0 + Sample.minute)
           (SampleTokens.by_user "u-1" "b-1")
           (Sample.world SampleTokens.streaming) (Sample.world SampleTokens.streaming)
           "Listener stream ready" _ "hls").
  - discriminate.
  - apply sample_number_roundtrip.
  - apply sample_number_text_nonempty.
  - vm_compute. reflexivity.
Defined.

(** ** The broadcast planner (scheduler.js) *)

Lemma planned_refl (w : World) : planned w w.
Proof. exists (broadcasts w). split; [done|]. by destruct w. Qed.

Lemma planned_trans (w1 w2 w3 : World) : planned w1 w2 -> planned w2 w3 -> planned w1 w3.
Proof.
  intros (t2 & H12 & ->) (t3 & H23 & ->). exists t3. split.
  - etrans; [exact H12|]. exact H23.
  - reflexivity.
Qed.

Lemma planned_insert (w : World) (id : string) (b : Broadcasts.row) :
  broadcasts w !! id = None -> planned w (set_broadcasts (insert id b) w).
Proof.
  intros Hfresh. exists (<[id:=b]> (broadcasts w)). split; [|done].
  by apply insert_subseteq.
Qed.

Lemma planned_lookup (w w' : World) id b :
  planned w w' -> broadcasts w !! id = Some b -> broadcasts w' !! id = Some b.
Proof. intros (tbl & Hsub & ->) Hb. simpl. by eapply lookup_weaken. Qed.

Lemma existingBroadcast_planned (w w' : World) masjid prayer lo hi :
  planned w w' ->
  Controller.existingBroadcast w masjid prayer lo hi = true ->
  Controller.existingBroadcast w' masjid prayer lo hi = true.
Proof.
  intros Hp. unfold Controller.existingBroadcast.
  rewrite !bool_decide_eq_true. intros (id & b & Hb & Hsame)%map_Exists_lookup.
  apply map_Exists_lookup. exists id, b. split; [|done]. by eapply planned_lookup.
Qed.

(** A new row keeps [onePerDay] when no broadcast of its masjid and prayer
    that has not failed is scheduled or started on its day. *)
Lemma onePerDay_insert (w : World) (uuid : string) (row : Broadcasts.row) :
  onePerDay w ->
  broadcasts w !! uuid = None ->
  (forall p t, Broadcasts.prayerName row = Some p -> p <> "" ->
               Broadcasts.scheduledAt row = Some t ->
               ~ sameDayNonFailed w (Broadcasts.masjidId row) p t) ->
  onePerDay (set_broadcasts (insert uuid row) w).
Proof.
  intros Huq Hfresh Hnone id1 id2 b1 b2 p t1 t2 H1 H2 Hm Hp1 Hp2 Hp Hs1 Hs2 Ht1 Ht2 Hday.
  simpl in H1, H2.
  destruct (decide (id1 = uuid)) as [->|Hn1], (decide (id2 = uuid)) as [->|Hn2]; [done| | |].
  - rewrite lookup_insert_eq in H1. rewrite lookup_insert_ne in H2 by done.
    injection H1 as <-. exfalso. apply (Hnone p t1 Hp1 Hp Ht1).
    exists id2, b2. repeat (split; [done|]). left. by exists t2.
  - rewrite lookup_insert_eq in H2. rewrite lookup_insert_ne in H1 by done.
    injection H2 as <-. exfalso. apply (Hnone p t2 Hp2 Hp Ht2).
    exists id1, b1. repeat (split; [done|]). left. by exists t1.
  - rewrite lookup_insert_ne in H1, H2 by done. by eapply Huq.
Qed.

(** [onePerDay] looks at four columns only. *)
Lemma onePerDay_same_columns (w w' : World) :
  (forall id,
     (fun b => (Broadcasts.masjidId b, Broadcasts.prayerName b, Broadcasts.status b,
                Broadcasts.scheduledAt b)) <$> broadcasts w' !! id
     = (fun b => (Broadcasts.masjidId b, Broadcasts.prayerName b, Broadcasts.status b,
                  Broadcasts.scheduledAt b)) <$> broadcasts w !! id) ->
  onePerDay w -> onePerDay w'.
Proof.
  intros Hsame Huq id1 id2 b1 b2 p t1 t2 H1 H2 Hm Hp1 Hp2 Hp Hs1 Hs2 Ht1 Ht2 Hday.
  pose proof (Hsame id1) as E1. pose proof (Hsame id2) as E2.
  rewrite H1 in E1. rewrite H2 in E2.
  destruct (broadcasts w !! id1) as [c1|] eqn:Hc1; [|done].
  destruct (broadcasts w !! id2) as [c2|] eqn:Hc2; [|done].
  simpl in E1, E2. injection E1 as ? ? ? ?. injection E2 as ? ? ? ?.
  eapply (Huq id1 id2 c1 c2 p t1 t2); congruence.
Qed.

(** Outside the years 0 to 99, and so on every reading of the clock,
    [getDayRange] is the window of the calendar fields of the instant. *)
Lemma getDayRange_calendar (date : Z) :
  twoDigitYear date = false ->
  Planner.getDayRange date = (Controller.startOfDay date, Controller.endOfDay date).
Proof.
  intros Hyear. unfold Planner.getDayRange, Controller.endOfDay.
  by rewrite startOfDay_floor.
Qed.

Section PlannerFacts.
Variable BROADCAST_PREP_MINUTES : option Z.
Variable toISODate : string -> Z -> Z -> option string.
Variable fromISO : string -> string -> option Z.
Variable gen_random_uuid : gmap string Broadcasts.row -> string.

Lemma scheduledBroadcast_same_day now (item : Schedules.row) :
  Controller.sameDayBroadcast (Schedules.masjidId item) (Schedules.prayerName item)
    (Schedules.adhanAtUtc item / Controller.msPerDay * Controller.msPerDay)%Z
    (Schedules.adhanAtUtc item / Controller.msPerDay * Controller.msPerDay
       + Controller.msPerDay)%Z
    (Planner.scheduledBroadcast now item) = true.
Proof.
  assert (Controller.within (Schedules.adhanAtUtc item / Controller.msPerDay * Controller.msPerDay)%Z
            (Schedules.adhanAtUtc item / Controller.msPerDay * Controller.msPerDay
       + Controller.msPerDay)%Z
            (Some (Schedules.adhanAtUtc item)) = true) as Hday.
  { apply within_utcDay. eexists. split; [done|]. reflexivity. }
  unfold Controller.sameDayBroadcast.
  cbn [Planner.scheduledBroadcast Broadcasts.masjidId Broadcasts.prayerName
       Broadcasts.status Broadcasts.scheduledAt Broadcasts.startedAt].
  rewrite Hday, String.eqb_refl, bool_decide_eq_true_2 by done. done.
Qed.

(** The three ways one iteration can go. *)
Lemma planBroadcast_cases now (item : Schedules.row) (w : World) :
  let existing :=
    Controller.existingBroadcast w (Schedules.masjidId item) (Schedules.prayerName item)
      (Schedules.adhanAtUtc item / Controller.msPerDay * Controller.msPerDay)%Z
      (Schedules.adhanAtUtc item / Controller.msPerDay * Controller.msPerDay
       + Controller.msPerDay)%Z in
  let uuid := gen_random_uuid (broadcasts w) in
  (existing = true
   /\ Planner.planBroadcast gen_random_uuid now item w = (Returned tt, w))
  \/ (existing = false /\ is_Some (broadcasts w !! uuid)
      /\ exists e, Planner.planBroadcast gen_random_uuid now item w = (Thrown e, w))
  \/ (existing = false /\ broadcasts w !! uuid = None
      /\ Planner.planBroadcast gen_random_uuid now item w
         = (Returned tt,
            set_broadcasts (insert uuid (Planner.scheduledBroadcast now item)) w)).
Proof.
  intros existing uuid. unfold Planner.planBroadcast, Planner.getDayRange. run.
  fold existing. destruct existing; [left; done|right].
  fold uuid. destruct (broadcasts w !! uuid) eqn:Hu.
  - left. split; [done|]. split; [done|]. by eexists.
  - right. done.
Qed.

Lemma planBroadcast_planned now item (w w' : World) o :
  Planner.planBroadcast gen_random_uuid now item w = (o, w') -> planned w w'.
Proof.
  intros Hrun.
  destruct (planBroadcast_cases now item w)
    as [[_ H]|[(_ & _ & e & H)|(_ & Hfresh & H)]];
    rewrite H in Hrun; injection Hrun as <- <-.
  - apply planned_refl.
  - apply planned_refl.
  - by apply planned_insert.
Qed.

Lemma planBroadcast_throws now item (w w' : World) e :
  Planner.planBroadcast gen_random_uuid now item w = (Thrown e, w') -> w' = w.
Proof.
  intros Hrun.
  destruct (planBroadcast_cases now item w)
    as [[_ H]|[(_ & _ & e' & H)|(_ & Hfresh & H)]];
    rewrite H in Hrun; by injection Hrun.
Qed.

Lemma set_broadcasts_insert_neq (w : World) id b :
  broadcasts w !! id = None -> set_broadcasts (insert id b) w <> w.
Proof.
  intros Hfresh Heq. apply (f_equal (fun w0 => broadcasts w0 !! id)) in Heq.
  simpl in Heq. rewrite lookup_insert_eq in Heq. congruence.
Qed.

Lemma planBroadcast_settled_iff now item (w : World) :
  Planner.planBroadcast gen_random_uuid now item w = (Returned tt, w)
  <-> Controller.existingBroadcast w (Schedules.masjidId item) (Schedules.prayerName item)
        (Schedules.adhanAtUtc item / Controller.msPerDay * Controller.msPerDay)%Z
        (Schedules.adhanAtUtc item / Controller.msPerDay * Controller.msPerDay
       + Controller.msPerDay)%Z = true.
Proof.
  destruct (planBroadcast_cases now item w)
    as [[He H]|[(He & _ & e' & H)|(He & Hfresh & H)]]; rewrite H, He.
  - done.
  - split; discriminate.
  - split; [|discriminate]. intros [= Heq].
    by apply set_broadcasts_insert_neq in Heq.
Qed.

Lemma planBroadcast_stays now item (w w' : World) :
  Planner.planBroadcast gen_random_uuid now item w = (Returned tt, w') ->
  Planner.planBroadcast gen_random_uuid now item w' = (Returned tt, w').
Proof.
  intros Hrun. apply planBroadcast_settled_iff.
  destruct (planBroadcast_cases now item w)
    as [[He H]|[(He & _ & e' & H)|(He & Hfresh & H)]];
    rewrite H in Hrun; simplify_eq; [done|].
  unfold Controller.existingBroadcast. apply bool_decide_eq_true.
  apply map_Exists_lookup. eexists _, _. split.
  - simpl. apply lookup_insert_eq.
  - apply scheduledBroadcast_same_day.
Qed.

Lemma planBroadcast_mono now item (w w' : World) :
  Planner.planBroadcast gen_random_uuid now item w = (Returned tt, w) ->
  planned w w' ->
  Planner.planBroadcast gen_random_uuid now item w' = (Returned tt, w').
Proof.
  rewrite !planBroadcast_settled_iff. intros H Hp. by eapply existingBroadcast_planned.
Qed.

Lemma upcoming_planned now (w w' : World) :
  planned w w' ->
  Planner.upcoming BROADCAST_PREP_MINUTES now w'
  = Planner.upcoming BROADCAST_PREP_MINUTES now w.
Proof. by intros (tbl & _ & ->). Qed.

Lemma planUpcoming_fixpoint now (w w1 : World) o :
  Planner.planUpcoming BROADCAST_PREP_MINUTES gen_random_uuid now w = (o, w1) ->
  planned w w1
  /\ Planner.planUpcoming BROADCAST_PREP_MINUTES gen_random_uuid now w1 = (o, w1)
  /\ (o = Returned tt ->
      forall item, item ∈ Planner.upcoming BROADCAST_PREP_MINUTES now w ->
        Planner.planBroadcast gen_random_uuid now item w1 = (Returned tt, w1)).
Proof.
  unfold Planner.planUpcoming. cbv [mbind M_bind bind gets]. intros Hrun.
  destruct (for_each_settles (Planner.planBroadcast gen_random_uuid now) planned
              planned_refl planned_trans
              (fun x w0 o0 w0' => planBroadcast_planned now x w0 w0' o0)
              (planBroadcast_stays now) (planBroadcast_mono now)
              (fun x w0 e w0' => planBroadcast_throws now x w0 w0' e)
              _ _ _ _ Hrun) as (Hp & Hfix & Hall).
  split; [done|]. split; [|done].
  by rewrite (upcoming_planned now w w1 Hp).
Qed.


(** The expander reads and writes the schedule tables only: whatever is
    done to the broadcasts before it runs can as well be done after. *)
Lemma ensureSchedule_frame (g : gmap string Broadcasts.row -> gmap string Broadcasts.row)
  now template offset (w : World) :
  Scheduler.ensureSchedule toISODate fromISO now template offset (set_broadcasts g w)
  = (fst (Scheduler.ensureSchedule toISODate fromISO now template offset w),
     set_broadcasts g (snd (Scheduler.ensureSchedule toISODate fromISO now template offset w))).
Proof.
  unfold Scheduler.ensureSchedule, Scheduler.insert_schedule, Scheduler.existingSchedule.
  run. cbn [schedules set_broadcasts].
  repeat (case_match; simpl in *; simplify_eq; try done).
Qed.

Lemma for_each_frame {A} (body : A -> M World unit) (g : World -> World) (xs : list A) :
  (forall x w, body x (g w) = (fst (body x w), g (snd (body x w)))) ->
  forall w, for_each xs body (g w) = (fst (for_each xs body w), g (snd (for_each xs body w))).
Proof.
  intros Hbody. induction xs as [|x xs IH]; intros w; [done|].
  simpl. unfold bind. rewrite Hbody.
  destruct (body x w) as [[u|e] w1]; simpl; [|done]. apply IH.
Qed.

Lemma expanderTick_frame (g : gmap string Broadcasts.row -> gmap string Broadcasts.row)
  now (w : World) :
  Scheduler.expanderTick toISODate fromISO now (set_broadcasts g w)
  = (Returned tt, set_broadcasts g (snd (Scheduler.expanderTick toISODate fromISO now w))).
Proof.
  unfold Scheduler.expanderTick, try_catch. f_equal.
  rewrite !ensureDaily_flat.
  change (Scheduler.templatesWithZone (set_broadcasts g w))
    with (Scheduler.templatesWithZone w).
  rewrite (for_each_frame _ (set_broadcasts g)); [done|].
  intros x w0. apply ensureSchedule_frame.
Qed.

Lemma expanderTick_fixpoint now (w : World) :
  Scheduler.expanderTick toISODate fromISO now
    (snd (Scheduler.expanderTick toISODate fromISO now w))
  = (Returned tt, snd (Scheduler.expanderTick toISODate fromISO now w)).
Proof.
  unfold Scheduler.expanderTick, try_catch. simpl. f_equal.
  destruct (Scheduler.ensureDailySchedulesFromTemplates toISODate fromISO now w)
    as [o w0] eqn:Hrun.
  apply ensureDaily_fixpoint in Hrun as (_ & Hfix & _). simpl. by rewrite Hfix.
Qed.

Lemma expanderTick_grown now (w : World) :
  grown w (snd (Scheduler.expanderTick toISODate fromISO now w)).
Proof.
  unfold Scheduler.expanderTick, try_catch. simpl.
  destruct (Scheduler.ensureDailySchedulesFromTemplates toISODate fromISO now w)
    as [o w0] eqn:Hrun.
  by apply ensureDaily_fixpoint in Hrun as (Hg & _).
Qed.

Lemma runSchedulerCycle_unfold now (w : World) :
  Planner.runSchedulerCycle BROADCAST_PREP_MINUTES toISODate fromISO gen_random_uuid now w
  = Planner.planUpcoming BROADCAST_PREP_MINUTES gen_random_uuid now
      (snd (Scheduler.expanderTick toISODate fromISO now w)).
Proof. reflexivity. Qed.

(** X6. A scheduler cycle has nothing left to do on the world it leaves:
    run again at the same instant, it ends the same way, returning or
    stopping at the same error, without writing anything. *)
Theorem scheduler_cycle_settles (now : Z) (w w1 : World) (o : Outcome unit) :
  Planner.runSchedulerCycle BROADCAST_PREP_MINUTES toISODate fromISO gen_random_uuid now w
  = (o, w1) ->
  Planner.runSchedulerCycle BROADCAST_PREP_MINUTES toISODate fromISO gen_random_uuid now w1
  = (o, w1).
Proof.
  rewrite !runSchedulerCycle_unfold. intros Hrun.
  apply planUpcoming_fixpoint in Hrun as ((tbl & _ & Hw1) & Hfix & _).
  rewrite Hw1 at 1. rewrite expanderTick_frame. cbn [snd].
  rewrite expanderTick_fixpoint. cbn [snd]. rewrite <- Hw1. exact Hfix.
Qed.

(** X7. After a cycle that ran to its end, every occurrence of an approved
    and active masjid whose adhan lies in the preparation window has a
    broadcast of that masjid and prayer, not failed, scheduled or started on
    the UTC day of the adhan. *)
Theorem scheduler_cycle_covers_window (now : Z) (w w1 : World) (item : Schedules.row)
  (m : Masjids.row) :
  Planner.runSchedulerCycle BROADCAST_PREP_MINUTES toISODate fromISO gen_random_uuid now w
  = (Returned tt, w1) ->
  item ∈ schedules w1 ->
  masjids w1 !! Schedules.masjidId item = Some m ->
  Masjids.isApproved m = true -> Masjids.isActive m = true ->
  (now <= Schedules.adhanAtUtc item
   < Planner.windowEnd BROADCAST_PREP_MINUTES now)%Z ->
  sameDayNonFailed w1 (Schedules.masjidId item) (Schedules.prayerName item)
    (Schedules.adhanAtUtc item).
Proof.
  rewrite runSchedulerCycle_unfold. intros Hrun Hin Hm Happ Hact [Hlo Hhi].
  apply planUpcoming_fixpoint in Hrun as (Hp & _ & Hall).
  apply existingBroadcast_utcDay, planBroadcast_settled_iff with (now := now).
  apply Hall; [done|].
  rewrite <- (upcoming_planned now _ w1 Hp).
  unfold Planner.upcoming. apply list_elem_of_filter. split; [|done].
  rewrite Hm, Happ, Hact. simpl.
  apply andb_true_iff. split; [by apply Z.leb_le | by apply Z.ltb_lt].
Qed.


Lemma planBroadcast_keeps_onePerDay now item (w : World) :
  onePerDay w -> onePerDay (snd (Planner.planBroadcast gen_random_uuid now item w)).
Proof.
  intros Huq.
  destruct (planBroadcast_cases now item w)
    as [[He H]|[(He & _ & e' & H)|(He & Hfresh & H)]]; rewrite H; [done|done|].
  simpl. apply onePerDay_insert; [done|done|].
  intros p t [= <-] _ [= <-]. simpl.
  rewrite <- existingBroadcast_utcDay. by rewrite He.
Qed.

(** X8. A scheduler cycle keeps the rule that a masjid has at most one
    broadcast that has not failed per prayer and UTC day of [scheduledAt],
    however the cycle ends. *)
Theorem scheduler_cycle_keeps_one_per_day (now : Z) (w : World) :
  onePerDay w ->
  onePerDay
    (snd (Planner.runSchedulerCycle BROADCAST_PREP_MINUTES toISODate fromISO
            gen_random_uuid now w)).
Proof.
  intros Huq. rewrite runSchedulerCycle_unfold.
  unfold Planner.planUpcoming. cbv [mbind M_bind bind gets].
  apply for_each_keeps.
  - intros item w0 _. apply planBroadcast_keeps_onePerDay.
  - destruct (expanderTick_grown now w) as [extra ->]. exact Huq.
Qed.

(** What a cycle may have done to the broadcasts and the rest of the
    world, kept through the loop. *)
Lemma planUpcoming_only_plans now (w : World) :
  let w1 := snd (Planner.planUpcoming BROADCAST_PREP_MINUTES gen_random_uuid now w) in
  planned w w1
  /\ forall id b, broadcasts w1 !! id = Some b -> broadcasts w !! id = None ->
       exists item, item ∈ Planner.upcoming BROADCAST_PREP_MINUTES now w
                    /\ b = Planner.scheduledBroadcast now item.
Proof.
  unfold Planner.planUpcoming. cbv [mbind M_bind bind gets].
  apply (for_each_keeps _ (fun w1 =>
    planned w w1
    /\ forall id b, broadcasts w1 !! id = Some b -> broadcasts w !! id = None ->
         exists item, item ∈ Planner.upcoming BROADCAST_PREP_MINUTES now w
                      /\ b = Planner.scheduledBroadcast now item)).
  - intros item w0 Hin [Hp Hnew].
    destruct (planBroadcast_cases now item w0)
      as [[He H]|[(He & _ & e' & H)|(He & Hfresh & H)]]; rewrite H; [done|done|].
    simpl. split.
    + eapply planned_trans; [exact Hp|]. by apply planned_insert.
    + intros id b Hb Hnone.
      destruct (decide (id = gen_random_uuid (broadcasts w0))) as [->|Hne].
      * rewrite lookup_insert_eq in Hb. injection Hb as <-. by exists item.
      * rewrite lookup_insert_ne in Hb by done. by apply (Hnew id).
  - split; [apply planned_refl|]. intros id b Hb Hnone. congruence.
Qed.

(** X9. A scheduler cycle only plans: it leaves every broadcast it found as
    it was, every row it adds is a [scheduled] broadcast without creator,
    room or start time for an occurrence of an approved, active masjid whose
    adhan lies in the window, and it touches no queue, relay, push or
    notification log. *)
Theorem scheduler_cycle_only_plans (now : Z) (w : World) :
  let w1 := snd (Planner.runSchedulerCycle BROADCAST_PREP_MINUTES toISODate fromISO
                   gen_random_uuid now w) in
  (forall id b, broadcasts w !! id = Some b -> broadcasts w1 !! id = Some b)
  /\ (forall id b, broadcasts w1 !! id = Some b -> broadcasts w !! id = None ->
        exists item m,
          item ∈ schedules w1
          /\ masjids w !! Schedules.masjidId item = Some m
          /\ Masjids.isApproved m = true /\ Masjids.isActive m = true
          /\ (now <= Schedules.adhanAtUtc item
              < Planner.windowEnd BROADCAST_PREP_MINUTES now)%Z
          /\ b = Planner.scheduledBroadcast now item
          /\ Broadcasts.status b = scheduled
          /\ Broadcasts.startedAt b = None)
  /\ notificationQueue w1 = notificationQueue w
  /\ broadcastQueue w1 = broadcastQueue w
  /\ activeRelays w1 = activeRelays w
  /\ effects w1 = effects w
  /\ notificationLogs w1 = notificationLogs w.
Proof.
  intros w1. subst w1. rewrite runSchedulerCycle_unfold.
  set (w0 := snd (Scheduler.expanderTick toISODate fromISO now w)).
  destruct (planUpcoming_only_plans now w0) as [Hp Hnew].
  set (w1 := snd (Planner.planUpcoming BROADCAST_PREP_MINUTES gen_random_uuid now w0)) in *.
  assert (exists extra, w0 = set_schedules (fun rows => rows ++ extra) w) as [extra Hw0]
    by apply expanderTick_grown.
  destruct Hp as (tbl & Hsub & Hw1).
  split; [|split].
  - intros id b Hb. rewrite Hw1. simpl. eapply lookup_weaken; [|exact Hsub].
    by rewrite Hw0.
  - intros id b Hb Hnone.
    destruct (Hnew id b Hb) as (item & Hin & ->); [by rewrite Hw0|].
    unfold Planner.upcoming in Hin. apply list_elem_of_filter in Hin as [Hsel Hin].
    assert (masjids w0 = masjids w) as Hm by by rewrite Hw0.
    rewrite Hm in Hsel.
    destruct (masjids w !! Schedules.masjidId item) as [m|] eqn:Hmasjid; [|done].
    apply andb_true_iff in Hsel as [Hsel Hhi].
    apply andb_true_iff in Hsel as [Hsel Hlo].
    apply andb_true_iff in Hsel as [Happ Hact].
    exists item, m. split; [by rewrite Hw1|].
    repeat (split; [done|]). split; [|done].
    split; [by apply Z.leb_le | by apply Z.ltb_lt].
  - rewrite Hw1, Hw0. done.
Qed.

End PlannerFacts.

Lemma scheduler_cycle_settles_witness :
  let run := Planner.runSchedulerCycle None SampleExpander.toISODate
               SampleExpander.fromISO SamplePlanner.gen_random_uuid SamplePlanner.now in
  let w1 := snd (run SampleExpander.world) in
  Broadcasts.status <$> broadcasts w1 !! "planned-1" = Some scheduled
  /\ run w1 = (Returned tt, w1).
Proof.
  split; [vm_compute; reflexivity|].
  apply (scheduler_cycle_settles None SampleExpander.toISODate SampleExpander.fromISO
           SamplePlanner.gen_random_uuid SamplePlanner.now SampleExpander.world).
  vm_compute. reflexivity.
Defined.

Lemma scheduler_cycle_covers_window_witness :
  sameDayNonFailed
    (snd (Planner.runSchedulerCycle None SampleExpander.toISODate SampleExpander.fromISO
            SamplePlanner.gen_random_uuid SamplePlanner.now SampleExpander.world))
    "m-1" "Fajr" 1700005200000.
Proof.
  apply (scheduler_cycle_covers_window None SampleExpander.toISODate SampleExpander.fromISO
           SamplePlanner.gen_random_uuid SamplePlanner.now SampleExpander.world _
           SamplePlanner.fajr_occurrence
           {| Masjids.timezone := "Asia/Kolkata"; Masjids.isApproved := true;
              Masjids.isActive := true |}).
  - vm_compute. reflexivity.
  - vm_compute. left.
  - vm_compute. reflexivity.
  - reflexivity.
  - reflexivity.
  - vm_compute. split; [discriminate | reflexivity].
Defined.

Lemma scheduler_cycle_keeps_one_per_day_witness :
  onePerDay
    (snd (Planner.runSchedulerCycle None SampleExpander.toISODate SampleExpander.fromISO
            SamplePlanner.gen_random_uuid SamplePlanner.now SampleExpander.world)).
Proof.
  apply (scheduler_cycle_keeps_one_per_day None SampleExpander.toISODate
           SampleExpander.fromISO SamplePlanner.gen_random_uuid SamplePlanner.now
           SampleExpander.world).
  intros id1 id2 b1 b2 p t1 t2 H1. vm_compute in H1. discriminate.
Defined.

(** ** createBroadcast and the one-per-day rule *)

Section CreateKeeps.
Variable env : Env.
Variable ext : Providers.
Variable Date_parse : string -> option Z.
Variable acceptsTimestamp : Z -> bool.

Lemma duplicateCheck_reads (c : CreateBody) (w : World) :
  snd (Controller.duplicateCheck Date_parse acceptsTimestamp c w) = w.
Proof.
  unfold Controller.duplicateCheck, Controller.sendDates. run.
  repeat (case_match; simpl; simplify_eq; try done).
Qed.

Lemma duplicateCheck_passed (c : CreateBody) (w w1 : World) p text t :
  Controller.duplicateCheck Date_parse acceptsTimestamp c w = (Returned tt, w1) ->
  create_prayerName c = Some p -> p <> "" ->
  create_scheduledAt c = Some text -> text <> "" ->
  Date_parse text = Some t -> twoDigitYear t = false ->
  ~ sameDayNonFailed w (create_masjidId c) p t.
Proof.
  intros Hrun Hp Hne Ht Hnt Hparse Hyear Hdup.
  unfold Controller.duplicateCheck in Hrun. rewrite Hp, Ht in Hrun.
  apply truthy_Some in Hne, Hnt. rewrite Hne, Hnt in Hrun.
  change (default "" (Some text)) with text in Hrun.
  change (default "" (Some p)) with p in Hrun.
  rewrite Hparse in Hrun.
  cbv [mbind M_bind bind gets mret M_ret ret throw] in Hrun. cbn [andb] in Hrun.
  destruct (sendDates_spec acceptsTimestamp
              [Controller.startOfDay t; Controller.endOfDay t] w)
    as [[_ Hsent]|[_ [message Hsent]]]; rewrite Hsent in Hrun; [|done].
  apply existingBroadcast_true in Hdup; [|done]. by rewrite Hdup in Hrun.
Qed.

Lemma insert_broadcast_keeps_onePerDay now uuid actorId (c : CreateBody) (w : World) :
  (forall p text t,
     create_prayerName c = Some p -> p <> "" ->
     create_scheduledAt c = Some text -> text <> "" ->
     Date_parse text = Some t ->
     ~ sameDayNonFailed w (create_masjidId c) p t) ->
  onePerDay w ->
  onePerDay (snd (Controller.insert_broadcast Date_parse acceptsTimestamp now uuid actorId c w)).
Proof.
  intros Hnone Huq. unfold Controller.insert_broadcast. run.
  destruct (broadcasts w !! uuid) eqn:Hfresh; [done|].
  destruct (create_scheduledAt c) as [text|] eqn:Htext; simpl.
  - destruct (text =? "") eqn:Hempty; simpl.
    + apply onePerDay_insert; [done|done|]. intros p t _ _ [=].
    + destruct (Date_parse text) as [t|] eqn:Hparse; simpl; [|done].
      destruct (sendDates_spec acceptsTimestamp [t] w)
        as [[_ ->]|[_ [message ->]]]; [|done].
      apply onePerDay_insert; [done|done|].
      simpl. intros p t' Hp Hne [= <-].
      apply (Hnone p text t); try done. intros ->. done.
  - apply onePerDay_insert; [done|done|]. intros p t _ _ [=].
Qed.

(** X10. For a request whose [scheduledAt], when it reads as a date, is not
    of the years 0 to 99, [createBroadcast] keeps the rule that a masjid has
    at most one broadcast that has not failed per prayer and UTC day of
    [scheduledAt], whether it answers or throws.  (A date of those years is
    compared with a day of the twentieth century, see
    [createBroadcast_year_50_not_refused].) *)
Theorem createBroadcast_keeps_one_per_day (now : Z) (uuid : string)
  (request : Request CreateBody) (w : World) :
  (forall c text t,
     body request = Some c -> create_scheduledAt c = Some text ->
     Date_parse text = Some t -> twoDigitYear t = false) ->
  onePerDay w ->
  onePerDay (snd (Controller.createBroadcast env ext Date_parse acceptsTimestamp now uuid request w)).
Proof.
  intros Hyear Huq. unfold Controller.createBroadcast.
  cbv [mbind M_bind bind mret M_ret ret gets throw Controller.actor
       Controller.requireMasjidAuthority].
  destruct (user request) as [a|]; [|done].
  destruct (a =? ""); [done|].
  destruct (body request) as [c|]; [|done].
  specialize (Hyear c).
  destruct (masjids w !! create_masjidId c) as [m|]; [|done].
  destruct (negb (Masjids.isApproved m) || negb (Masjids.isActive m)); [done|].
  destruct (Controller.isAdmin w a (create_masjidId c)); [|done].
  pose proof (duplicateCheck_reads c w) as Hreads.
  destruct (Controller.duplicateCheck Date_parse acceptsTimestamp c w) as [[[]|e] w1] eqn:Hcheck;
    simpl in Hreads; subst w1; [|done].
  pose proof (insert_broadcast_keeps_onePerDay now uuid a c w) as Hins.
  destruct (Controller.insert_broadcast Date_parse acceptsTimestamp now uuid a c w)
    as [[created|e] w2] eqn:Hinsert; simpl in Hins.
  - assert (onePerDay w2) as Huq2.
    { apply Hins; [|done]. intros p text t Hp Hne Ht Hnt Hparse.
      apply (duplicateCheck_passed c w w p text t Hcheck); try done.
      by apply (Hyear text t). }
    destruct (broadcasts w2 !! uuid) as [row|] eqn:Hrow.
    + destruct (assignRoom_spec env ext now uuid c created w2 row Hrow)
        as (row' & Hrow' & Hm & Hp & Hs & Ht & Hother).
      eapply onePerDay_same_columns; [|exact Huq2].
      intros id. destruct (decide (id = uuid)) as [->|Hne].
      * rewrite Hrow', Hrow. simpl. congruence.
      * by rewrite Hother.
    + unfold Controller.assignRoom. run.
      repeat (case_match; simpl in *; simplify_eq; try done).
      all: cbn [broadcasts set_effects] in *; simplify_eq.
  - apply Hins; [|done]. intros p text t Hp Hne Ht Hnt Hparse.
    apply (duplicateCheck_passed c w w p text t Hcheck); try done.
    by apply (Hyear text t).
Qed.

End CreateKeeps.

Lemma createBroadcast_keeps_one_per_day_witness :
  onePerDay
    (snd (Controller.createBroadcast Sample.env Sample.ext (fun _ => Some 1700091600000%Z)
            SampleCrypto.acceptsTimestamp (Sample.t0 + Sample.minute) "b-2"
            {| user := Some "imam"; params_id := None;
               body := Some {| create_masjidId := "m-1"; create_title := None;
                               create_prayerName := Some "Fajr";
                               create_scheduledAt := Some "2023-11-15T23:40:00Z";
                               create_streamProvider := None;
                               create_streamRoomId := None;
                               create_audioUrl := None |} |}
            (Sample.world (Sample.fajr scheduled None)))).
Proof.
  apply (createBroadcast_keeps_one_per_day Sample.env Sample.ext
           (fun _ => Some 1700091600000%Z) SampleCrypto.acceptsTimestamp).
  { intros c text t _ _ [= <-]. reflexivity. }
  intros id1 id2 b1 b2 p t1 t2 H1 H2 _ _ _ _ _ _ _ _ _.
  unfold Sample.world in H1, H2. cbn [broadcasts] in H1, H2.
  apply lookup_singleton_Some in H1 as [<- _].
  by apply lookup_singleton_Some in H2 as [<- _].
Defined.

(** ** What the lifecycle handlers write (controllers/broadcast.controller.js) *)

Lemma coalesce_idem {A} (x y : option A) :
  Js.coalesce (Js.coalesce x y) y = Js.coalesce x y.
Proof. by destruct x, y. Qed.

Section HandlerEffects.
Variable env : Env.
Variable ext : Providers.
Variable Date_parse : string -> option Z.
Variable acceptsTimestamp : Z -> bool.

Lemma startBroadcast_refused now (request : Request StartBody) (w w' : World)
  status code message :
  Controller.startBroadcast env ext now request w
  = (Thrown (ApiError status code message), w') ->
  w' = w.
Proof.
  unfold Controller.startBroadcast. run.
  destruct (user request) as [a|]; [|by intros [= _ _ _ <-]].
  destruct (a =? ""); [by intros [= _ _ _ <-]|].
  destruct (params_id request) as [id|]; [|by intros [= _ _ _ <-]].
  destruct (id =? ""); [by intros [= _ _ _ <-]|].
  destruct (broadcasts w !! id) as [b|] eqn:Hb; [|by intros [= _ _ _ <-]].
  simpl. unfold Controller.isBroadcastExpired.
  destruct (Broadcasts.status b); simpl; try by intros [= _ _ _ <-].
  all: repeat (case_match; simpl in *; simplify_eq; try done).
  all: by intros [= _ _ _ <-].
Qed.

Lemma endBroadcast_refused now (request : Request EndBody) (w w' : World)
  status code message :
  Controller.endBroadcast env now request w
  = (Thrown (ApiError status code message), w') ->
  w' = w.
Proof.
  unfold Controller.endBroadcast. run.
  destruct (user request) as [a|]; [|by intros [= _ _ _ <-]].
  destruct (a =? ""); [by intros [= _ _ _ <-]|].
  destruct (params_id request) as [id|]; [|by intros [= _ _ _ <-]].
  destruct (id =? ""); [by intros [= _ _ _ <-]|].
  destruct (broadcasts w !! id) as [b|] eqn:Hb; [|by intros [= _ _ _ <-]].
  simpl.
  destruct (Broadcasts.status b); simpl; try by intros [= _ _ _ <-].
  all: repeat (case_match; simpl in *; simplify_eq; try done).
  all: try by intros [= _ _ _ <-].
Qed.

Lemma insert_broadcast_throws now uuid actorId (c : CreateBody) (w w' : World) e :
  Controller.insert_broadcast Date_parse acceptsTimestamp now uuid actorId c w = (Thrown e, w') ->
  exists message, e = DriverError message.
Proof.
  unfold Controller.insert_broadcast, Controller.sendDates. run.
  repeat (case_match; simpl in *; simplify_eq; try done).
  all: intros [= <- <-]; by eexists.
Qed.

Lemma assignRoom_throws now uuid (c : CreateBody) created (w w' : World) e :
  Controller.assignRoom env ext now uuid c created w = (Thrown e, w') ->
  exists message, e = DriverError message.
Proof.
  unfold Controller.assignRoom. run.
  repeat (case_match; simpl in *; simplify_eq; try done).
  all: intros [= <- <-]; by eexists.
Qed.

Lemma createBroadcast_refused now uuid (request : Request CreateBody) (w w' : World)
  status code message :
  Controller.createBroadcast env ext Date_parse acceptsTimestamp now uuid request w
  = (Thrown (ApiError status code message), w') ->
  w' = w.
Proof.
  unfold Controller.createBroadcast.
  cbv [mbind M_bind bind mret M_ret ret gets throw Controller.actor
       Controller.requireMasjidAuthority].
  destruct (user request) as [a|]; [|by intros [= _ _ _ <-]].
  destruct (a =? ""); [by intros [= _ _ _ <-]|].
  destruct (body request) as [c|]; [|by intros [= _ _ _ <-]].
  destruct (masjids w !! create_masjidId c) as [m|]; [|by intros [= _ _ _ <-]].
  destruct (negb (Masjids.isApproved m) || negb (Masjids.isActive m));
    [by intros [= _ _ _ <-]|].
  destruct (Controller.isAdmin w a (create_masjidId c)); [|by intros [= _ _ _ <-]].
  pose proof (duplicateCheck_reads Date_parse acceptsTimestamp c w) as Hreads.
  destruct (Controller.duplicateCheck Date_parse acceptsTimestamp c w) as [[[]|e] w1] eqn:Hcheck;
    simpl in Hreads; subst w1; [|by intros [= _ <-]].
  destruct (Controller.insert_broadcast Date_parse acceptsTimestamp now uuid a c w)
    as [[created|e] w2] eqn:Hinsert.
  - intros Hroom. apply assignRoom_throws in Hroom as [? ?]. done.
  - intros [= -> <-]. apply insert_broadcast_throws in Hinsert as [? ?]. done.
Qed.

(** X11. A request the controller refuses with an [ApiError] has written
    nothing: [createBroadcast], [startBroadcast] and [endBroadcast] leave the
    store, the queues and the trace of external calls as they found them
    whenever they answer with a 4xx status. *)
Theorem refused_request_writes_nothing (now : Z) (status : Z) (code message : string)
  (w w' : World) :
  (forall uuid request,
     Controller.createBroadcast env ext Date_parse acceptsTimestamp now uuid request w
     = (Thrown (ApiError status code message), w') -> w' = w)
  /\ (forall request,
        Controller.startBroadcast env ext now request w
        = (Thrown (ApiError status code message), w') -> w' = w)
  /\ (forall request,
        Controller.endBroadcast env now request w
        = (Thrown (ApiError status code message), w') -> w' = w).
Proof.
  split; [|split].
  - intros uuid request. apply createBroadcast_refused.
  - intros request. apply startBroadcast_refused.
  - intros request. apply endBroadcast_refused.
Qed.


(** X12. When [startBroadcast] answers, the caller is an admin of the
    masjid of a broadcast that was neither live nor completed; that row, and
    only that row, is rewritten to [live] with [startedAt] set to the clock;
    one [broadcast-start] job is queued for the notifications worker; and the
    broadcast queue gains the [broadcast-auto-end] job keyed by the broadcast
    id, preceded by an [hls-start] job exactly when HLS is enabled and the
    row has a room.  Nothing is pushed and no relay is started by the handler
    itself. *)
Theorem start_goes_live_and_arms_auto_end (now : Z) (request : Request StartBody)
  (w w' : World) (u : JsObject) :
  Controller.startBroadcast env ext now request w = (Returned u, w') ->
  exists a id b b',
    user request = Some a /\ params_id request = Some id
    /\ broadcasts w !! id = Some b
    /\ Broadcasts.status b <> live /\ Broadcasts.status b <> completed
    /\ Controller.isAdmin w a (Broadcasts.masjidId b) = true
    /\ broadcasts w' = <[id := b']> (broadcasts w)
    /\ Broadcasts.status b' = live
    /\ Broadcasts.startedAt b' = Some now
    /\ notificationQueue w' = notificationQueue w ++ [Controller.start_job u]
    /\ broadcastQueue w'
       = broadcastQueue w
         ++ (if HLS_ENABLED env && Js.truthy (Broadcasts.streamRoomId b')
             then [Controller.hls_start_job u (Broadcasts.streamRoomId b')]
             else [])
         ++ [Controller.auto_end_job env u]
    /\ jobId (Controller.auto_end_job env u) = Some (AutoEndJobId id None)
    /\ activeRelays w' = activeRelays w
    /\ forall e, e ∈ effects w' -> e ∈ effects w \/ exists room, e = CreateRoom room.
Proof.
  unfold Controller.startBroadcast. run.
  destruct (user request) as [a|]; [|done].
  destruct (String.eqb a ""); [done|].
  destruct (params_id request) as [id|]; [|done].
  destruct (String.eqb id ""); [done|].
  destruct (broadcasts w !! id) as [b|] eqn:Hb; [|done].
  simpl. unfold Controller.isBroadcastExpired, Hls.isHlsEnabled. intros Hrun.
  exists a, id, b. revert Hrun.
  destruct (Broadcasts.status b) eqn:Hstatus; simpl; try done.
  all: destruct (Controller.isAdmin w a (Broadcasts.masjidId b)) eqn:Hadmin; [|done].
  all: repeat (case_match; simpl in *; simplify_eq; try done).
  all: intros Hrun; simplify_eq.
  all: eexists; repeat (split; [done|]).
  all: cbn [broadcasts notificationQueue broadcastQueue activeRelays effects
            set_broadcasts set_notificationQueue set_broadcastQueue set_effects].
  all: rewrite ?text_of_text, ?text_string; cbn [default].
  all: cbn [Broadcasts.streamRoomId Broadcasts.set_live Broadcasts.status
            Broadcasts.startedAt Js.coalesce].
  all: rewrite ?coalesce_idem.
  all: repeat match goal with
         | H : context [text (Some (of_text _))] |- _ => rewrite text_of_text in H
         end.
  all: try change (Js.truthy (Some ("broadcast-" +:+ id))) with true.
  all: repeat match goal with H : HLS_ENABLED env && _ = _ |- _ => rewrite H; clear H end.
  all: rewrite <- ?app_assoc.
  all: repeat (split; [done|]).
  all: try (intros e0 He0; left; exact He0).
  all: try (intros e0 [He0|He0%list_elem_of_singleton]%elem_of_app; [by left|right; by eexists]).
Qed.

(** X13. When [endBroadcast] answers, the caller is an admin of the masjid
    of a broadcast that was not completed; that row alone is rewritten to
    [completed] with [endedAt] set to the clock and the supplied recording
    and reason; one [broadcast-end] job without prayer name is queued; and
    an [hls-stop] job is queued exactly when HLS is enabled.  The handler
    itself stops no relay and makes no external call. *)
Theorem end_completes_and_notifies (now : Z) (request : Request EndBody)
  (w w' : World) (u : JsObject) :
  Controller.endBroadcast env now request w = (Returned u, w') ->
  exists a id b,
    user request = Some a /\ params_id request = Some id
    /\ broadcasts w !! id = Some b
    /\ Broadcasts.status b <> completed
    /\ Controller.isAdmin w a (Broadcasts.masjidId b) = true
    /\ broadcasts w'
       = <[id := Broadcasts.set_completed now
                   (body request ≫= end_recordingUrl)
                   (body request ≫= end_endedReason) b]> (broadcasts w)
    /\ notificationQueue w'
       = notificationQueue w ++ [end_job (Some id) (Some (Broadcasts.masjidId b))]
    /\ broadcastQueue w'
       = broadcastQueue w
         ++ (if HLS_ENABLED env then [Controller.hls_stop_job u] else [])
    /\ jd_broadcastId (data (Controller.hls_stop_job u)) = Some id
    /\ activeRelays w' = activeRelays w
    /\ effects w' = effects w.
Proof.
  unfold Controller.endBroadcast. run.
  destruct (user request) as [a|]; [|done].
  destruct (String.eqb a ""); [done|].
  destruct (params_id request) as [id|]; [|done].
  destruct (String.eqb id ""); [done|].
  destruct (broadcasts w !! id) as [b|] eqn:Hb; [|done].
  simpl. unfold Hls.isHlsEnabled. intros Hrun.
  exists a, id, b. revert Hrun.
  destruct (Broadcasts.status b) eqn:Hstatus; simpl; try done.
  all: destruct (Controller.isAdmin w a (Broadcasts.masjidId b)) eqn:Hadmin; [|done].
  all: rewrite Hb.
  all: destruct (HLS_ENABLED env); simpl.
  all: intros Hrun; simplify_eq.
  all: cbn [broadcasts notificationQueue broadcastQueue activeRelays effects
            set_broadcasts set_notificationQueue set_broadcastQueue set_effects].
  all: rewrite ?text_string, ?app_nil_r.
  all: repeat (split; [done|]).
  all: try done.
  all: destruct (body request); repeat (split; [done|]); done.
Qed.

End HandlerEffects.

Lemma start_goes_live_and_arms_auto_end_witness :
  match Controller.startBroadcast Sample.env_livekit Sample.ext
          (Sample.t0 + Sample.minute) (Sample.by_imam "b-1" None)
          (Sample.world (Sample.fajr scheduled None)) with
  | (Returned u, w') =>
      notificationQueue w' = [Controller.start_job u]
      /\ broadcastQueue w'
         = [Controller.hls_start_job u (Some "broadcast-b-1");
            Controller.auto_end_job Sample.env_livekit u]
      /\ jobId (Controller.auto_end_job Sample.env_livekit u)
         = Some (AutoEndJobId "b-1" None)
  | (Thrown _, _) => False
  end.
Proof.
  destruct (Controller.startBroadcast Sample.env_livekit Sample.ext
              (Sample.t0 + Sample.minute) (Sample.by_imam "b-1" None)
              (Sample.world (Sample.fajr scheduled None))) as [[u|e] w'] eqn:Hrun.
  - destruct (start_goes_live_and_arms_auto_end Sample.env_livekit Sample.ext
                (Sample.t0 + Sample.minute) (Sample.by_imam "b-1" None)
                (Sample.world (Sample.fajr scheduled None)) w' u Hrun)
      as (a & id & b & b' & _ & Hid & _ & _ & _ & _ & _ & _ & _ & Hn & _ & Hj & _).
    injection Hid as <-.
    split; [exact Hn|]. split; [|exact Hj].
    vm_compute in Hrun. injection Hrun as <- <-. reflexivity.
  - vm_compute in Hrun. discriminate.
Defined.

Lemma end_completes_and_notifies_witness :
  match Controller.endBroadcast Sample.env_livekit
          (Sample.t0 + Sample.minute)
          (Sample.by_imam "b-1"
             (Some {| end_recordingUrl := None; end_endedReason := Some "manual" |}))
          (Sample.world (Sample.fajr live (Some Sample.t0))) with
  | (Returned u, w') =>
      Broadcasts.endedReason <$> broadcasts w' !! "b-1" = Some (Some "manual")
      /\ notificationQueue w' = [end_job (Some "b-1") (Some "m-1")]
      /\ broadcastQueue w' = [Controller.hls_stop_job u]
      /\ effects w' = []
  | (Thrown _, _) => False
  end.
Proof.
  destruct (Controller.endBroadcast Sample.env_livekit
              (Sample.t0 + Sample.minute)
              (Sample.by_imam "b-1"
                 (Some {| end_recordingUrl := None; end_endedReason := Some "manual" |}))
              (Sample.world (Sample.fajr live (Some Sample.t0)))) as [[u|e] w'] eqn:Hrun.
  - destruct (end_completes_and_notifies Sample.env_livekit
                (Sample.t0 + Sample.minute) _ _ w' u Hrun)
      as (a & id & b & _ & Hid & _ & _ & _ & Hw' & Hn & Hq & _ & _ & He).
    injection Hid as <-.
    rewrite Hw', Hq, He. split; [by rewrite lookup_insert_eq|].
    split; [|done].
    vm_compute in Hrun. injection Hrun as <- <-. reflexivity.
  - vm_compute in Hrun. discriminate.
Defined.

(** ** Accounting of a fan-out (worker.js, services/push.js) *)

Section Accounting.
Variable env : Env.
Variable ext : Providers.

(** One provider call: nothing leaves the process for a device that
    cannot be reached, exactly one push leaves it otherwise, and only a push
    that left can be reported as sent. *)
Lemma send_account (d : UserDevices.row) (payload : Payload) (u dev : string)
  (trace : list Push) :
  let r := match UserDevices.platform_ d with
           | ios => Worker.sendVoipPush ext (UserDevices.voipToken d) payload u dev trace
           | _ => Worker.sendFcmData ext (UserDevices.fcmToken d) payload u dev trace
           end in
  (snd r = trace /\ r_status (fst r) = NotificationLogs.failed)
  \/ (exists p, snd r = trace ++ [p] /\ push_user p = u /\ push_device p = dev).
Proof.
  unfold Worker.sendVoipPush, Worker.sendFcmData.
  destruct (UserDevices.platform_ d); simpl.
  - destruct (Js.truthy (UserDevices.fcmToken d)); simpl; [|by left].
    destruct (fcm_configured ext); simpl; [|by left].
    destruct (fcm_send_error ext _); simpl; right; by eexists.
  - destruct (Js.truthy (UserDevices.voipToken d)); simpl; [|by left].
    destruct (apns_configured ext); simpl; [|by left].
    destruct (apns_send_error ext _); simpl; right; by eexists.
  - destruct (Js.truthy (UserDevices.fcmToken d)); simpl; [|by left].
    destruct (fcm_configured ext); simpl; [|by left].
    destruct (fcm_send_error ext _); simpl; right; by eexists.
Qed.

Lemma fanout_account now ev broadcastId masjid prayer (rec : JsObject) results :
  forall logs trace,
  exists L T,
    Worker.fanout env ext now ev broadcastId masjid prayer rec results logs trace
    = (logs ++ L, trace ++ T)
    /\ row_key <$> L
       = recipient_key
           <$> filter (fun r => Worker.skipped now prayer (fst r) = false) results
    /\ push_key <$> T `sublist_of` row_key <$> L
    /\ (forall row, row ∈ L -> NotificationLogs.status row = NotificationLogs.sent ->
          exists p, p ∈ T /\ push_key p = row_key row).
Proof.
  induction results as [|[s d] rest IH]; intros logs trace.
  - exists [], []. rewrite !app_nil_r. split; [done|]. split; [done|].
    split; [done|]. intros row Hrow. by apply not_elem_of_nil in Hrow.
  - cbn [Worker.fanout]. rewrite filter_cons. cbn [fst].
    destruct (Worker.skipped now prayer s) eqn:Hskip.
    + rewrite decide_False by done. apply IH.
    + rewrite decide_True by done.
      set (payload := Worker.payloadFor env ext ev broadcastId masjid prayer rec
                        (Subscriptions.userId s)).
      pose proof (send_account d payload (Subscriptions.userId s) (UserDevices.id d) trace)
        as Hsend. cbv zeta in Hsend.
      destruct (match UserDevices.platform_ d with
                | ios => Worker.sendVoipPush ext (UserDevices.voipToken d) payload
                           (Subscriptions.userId s) (UserDevices.id d) trace
                | _ => Worker.sendFcmData ext (UserDevices.fcmToken d) payload
                         (Subscriptions.userId s) (UserDevices.id d) trace
                end) as [result trace1] eqn:Hcall.
      cbn [fst snd] in Hsend.
      match goal with
      | |- context [Worker.fanout _ _ _ _ _ _ _ _ _ (logs ++ [?r]) _] => set (row := r)
      end.
      destruct (IH (logs ++ [row]) trace1) as (L & T & Hrun & Hkeys & Hsub & Hsent).
      destruct Hsend as [[-> Hfailed]|(p & -> & Hu & Hd)].
      * exists (row :: L), T. rewrite Hrun, <- app_assoc. split; [done|].
        split; [by rewrite !fmap_cons, Hkeys|].
        split; [rewrite fmap_cons; by apply sublist_cons|].
        intros row' [->|Hin]%elem_of_cons Hst.
        -- subst row. simpl in Hst. congruence.
        -- by apply Hsent.
      * exists (row :: L), (p :: T). rewrite Hrun, <- !app_assoc. split; [done|].
        split; [by rewrite !fmap_cons, Hkeys|].
        assert (push_key p = row_key row) as Hkey.
        { unfold push_key, row_key. subst row. simpl. by rewrite Hu, Hd. }
        split; [rewrite !fmap_cons, Hkey; by apply sublist_skip|].
        intros row' [->|Hin]%elem_of_cons Hst.
        -- exists p. split; [by left|done].
        -- destruct (Hsent row' Hin Hst) as (p' & Hp' & Hk). exists p'.
           split; [by right|done].
Qed.

(** X14. One run of the notifications worker files exactly one log row per
    recipient it does not skip, in the order of the query, whether or not a
    push could be sent; the pushes it sends follow the same order, at most
    one per row, and a row is marked [sent] only if its push left the
    process. *)
Theorem fanout_logs_every_attempt (now : Z) (job : Job) (w : World) :
  Js.truthy (jd_broadcastId (data job)) = true ->
  Js.truthy (jd_masjidId (data job)) = true ->
  is_Some (broadcasts w !! default "" (jd_broadcastId (data job))) ->
  exists rows pushes,
    fanoutAdded w (snd (Worker.notificationsWorker env ext now job w)) rows pushes
    /\ row_key <$> rows
       = recipient_key
           <$> filter (fun r => Worker.skipped now (jd_prayerName (data job)) (fst r) = false)
                 (Worker.recipients w (default "" (jd_masjidId (data job))))
    /\ push_key <$> pushes `sublist_of` row_key <$> rows
    /\ (forall row, row ∈ rows ->
          NotificationLogs.status row = NotificationLogs.sent ->
          exists p, p ∈ pushes /\ push_key p = row_key row).
Proof.
  intros Hb Hm [b Hrow].
  unfold Worker.notificationsWorker. rewrite Hb, Hm. cbn [negb orb].
  cbv [mbind M_bind bind mret M_ret ret gets modify when_ select_broadcast].
  rewrite Hrow. cbn [fmap option_fmap option_map].
  destruct (fanout_account now (Worker.eventTypeOf job)
              (default "" (jd_broadcastId (data job)))
              (default "" (jd_masjidId (data job)))
              (jd_prayerName (data job))
              (select ["id"; "streamProvider"; "streamRoomId"; "audioUrl"; "hlsUrl"]
                 (default "" (jd_broadcastId (data job))) b)
              (Worker.recipients w (default "" (jd_masjidId (data job)))) [] [])
    as (L & T & Hrun & Hkeys & Hsub & Hsent).
  rewrite Hrun. cbn [app].
  exists L, T. split; [|done].
  unfold fanoutAdded. case_bool_decide as Hnil; simpl.
  - subst L. by rewrite app_nil_r.
  - done.
Qed.

End Accounting.

Lemma fanout_logs_every_attempt_witness :
  exists rows pushes,
    fanoutAdded (Sample.world (Sample.fajr completed (Some Sample.t0)))
      (snd (Worker.notificationsWorker Sample.env Sample.ext Sample.t0
              (end_job (Some "b-1") (Some "m-1"))
              (Sample.world (Sample.fajr completed (Some Sample.t0)))))
      rows pushes
    /\ row_key <$> rows
       = recipient_key
           <$> filter (fun r => Worker.skipped Sample.t0 None (fst r) = false)
                 (Worker.recipients (Sample.world (Sample.fajr completed (Some Sample.t0)))
                    "m-1")
    /\ push_key <$> pushes `sublist_of` row_key <$> rows
    /\ (forall row, row ∈ rows ->
          NotificationLogs.status row = NotificationLogs.sent ->
          exists p, p ∈ pushes /\ push_key p = row_key row).
Proof.
  apply (fanout_logs_every_attempt Sample.env Sample.ext Sample.t0
           (end_job (Some "b-1") (Some "m-1"))
           (Sample.world (Sample.fajr completed (Some Sample.t0)))).
  - reflexivity.
  - reflexivity.
  - eexists. reflexivity.
Defined.

(** ** The broadcasts worker (worker.js) *)

Section BroadcastsWorker.
Variable env : Env.
Variable ext : Providers.

Lemma deleteLivekitRoom_frame room (w : World) :
  let r := Livekit.deleteLivekitRoom env room w in
  fst r = Returned tt
  /\ broadcasts (snd r) = broadcasts w
  /\ notificationQueue (snd r) = notificationQueue w
  /\ activeRelays (snd r) = activeRelays w.
Proof.
  run. by destruct (negb (Livekit.hasClient env) || negb (Js.truthy room)).
Qed.

(** What stopping a relay can change: the table entry goes, a signal and
    a stop request may leave the process, the store and the queues stay. *)
Lemma stopHlsRelay_frame id (w : World) :
  let w' := snd (Hls.stopHlsRelay env ext id w) in
  activeRelays w' = delete id (activeRelays w)
  /\ broadcasts w' = broadcasts w
  /\ notificationQueue w' = notificationQueue w
  /\ broadcastQueue w' = broadcastQueue w
  /\ exists es,
       effects w' = effects w ++ es
       /\ forall e, e ∈ es ->
            (exists p, e = Kill p "SIGTERM") \/ (exists egress, e = StopEgress egress).
Proof.
  run. destruct (activeRelays w !! id) as [relay|] eqn:Hrelay.
  - assert (forall (P : Effect -> Prop) e, P e -> forall x, x ∈ [e] -> P x) as Hone.
    { intros P e He x Hx. apply list_elem_of_singleton in Hx. by subst. }
    assert (forall (P : Effect -> Prop) e1 e2, P e1 -> P e2 ->
              forall x, x ∈ [e1; e2] -> P x) as Htwo.
    { intros P e1 e2 H1 H2 x Hx. apply elem_of_cons in Hx as [->|Hx]; [done|].
      apply list_elem_of_singleton in Hx. by subst. }
    repeat (case_match; simpl in *; simplify_eq).
    all: repeat (split; [done|]).
    all: first [ by (exists []; rewrite app_nil_r; split;
                       [|intros e He; by apply not_elem_of_nil in He])
               | by (eexists [_]; split; [reflexivity|]; apply Hone; eauto)
               | by (eexists [_; _]; rewrite <- app_assoc; split; [reflexivity|];
                     apply Htwo; eauto) ].
  - simpl. rewrite delete_id by done. repeat (split; [done|]).
    exists []. rewrite app_nil_r. split; [done|].
    intros e He. by apply not_elem_of_nil in He.
Qed.

(** X15. The [hls-stop] job never throws, also when the signal or the stop
    request fails: afterwards the relay table has no entry for the
    broadcast, the row (if there is one) has lost its [hlsEgressId] and
    nothing else but [updatedAt], every other row and both queues are as
    before, and the only external calls made are a SIGTERM and a stop
    request. *)
Theorem hls_stop_job_clears_relay (now : Z) (job : Job) (w : World) (id : string) :
  jd_broadcastId (data job) = Some id -> id <> "" ->
  let r := Worker.hlsStopJob env ext now job w in
  fst r = Returned tt
  /\ activeRelays (snd r) = delete id (activeRelays w)
  /\ broadcasts (snd r)
     = match broadcasts w !! id with
       | Some b => <[id := Broadcasts.clear_egress now b]> (broadcasts w)
       | None => broadcasts w
       end
  /\ notificationQueue (snd r) = notificationQueue w
  /\ broadcastQueue (snd r) = broadcastQueue w
  /\ exists es,
       effects (snd r) = effects w ++ es
       /\ forall e, e ∈ es ->
            (exists p, e = Kill p "SIGTERM") \/ (exists egress, e = StopEgress egress).
Proof.
  intros Hid Hne r. subst r. unfold Worker.hlsStopJob. rewrite Hid.
  apply truthy_Some in Hne. rewrite Hne. cbn [negb].
  change (default "" (Some id)) with id.
  destruct (stopHlsRelay_returns env ext id w) as [o Ho].
  destruct (stopHlsRelay_frame id w) as (Hrelays & Hb & Hn & Hq & es & He & Hes).
  cbv [mbind M_bind bind mret M_ret ret gets modify update_broadcast].
  destruct (Hls.stopHlsRelay env ext id w) as [o' w1]. simpl in *. subst o'.
  rewrite Hb. destruct (broadcasts w !! id) as [b|]; simpl.
  - rewrite Hb. repeat (split; [done|]). by exists es.
  - repeat (split; [done|]). by exists es.
Qed.

(** X16. The auto-end job never throws and acts on a live broadcast only:
    for a missing, scheduled, completed or failed broadcast it leaves the
    world as it is; for a live one it completes that row with the reason of
    the job (or [max_duration_reached]), queues one [broadcast-end] job for
    its masjid and drops the relay entry, leaving every other row alone. *)
Theorem auto_end_acts_on_live_only (now : Z) (job : Job) (w : World) (id : string) :
  jd_broadcastId (data job) = Some id -> id <> "" ->
  let r := Worker.autoEndJob env ext now job w in
  fst r = Returned tt
  /\ match broadcasts w !! id with
     | Some b =>
         if decide (Broadcasts.status b = live) then
           broadcasts (snd r)
           = <[id := Broadcasts.set_completed now None
                       (Some (Js.coalesce_def (jd_endedReason (data job))
                                "max_duration_reached")) b]> (broadcasts w)
           /\ notificationQueue (snd r)
              = notificationQueue w ++ [end_job (Some id) (Some (Broadcasts.masjidId b))]
           /\ activeRelays (snd r) = delete id (activeRelays w)
         else snd r = w
     | None => snd r = w
     end.
Proof.
  intros Hid Hne r. subst r. unfold Worker.autoEndJob. rewrite Hid.
  apply truthy_Some in Hne. rewrite Hne. cbn [negb].
  change (default "" (Some id)) with id.
  cbv [mbind M_bind bind mret M_ret ret gets select_broadcast].
  destruct (broadcasts w !! id) as [b|] eqn:Hrow; [|done].
  simpl. rewrite (is_status _ live).
  destruct (decide (Broadcasts.status b = live)) as [Hlive|Hn];
    [rewrite bool_decide_eq_true_2 by done|by rewrite bool_decide_eq_false_2].
  cbn [negb].
  cbv [mbind M_bind bind mret M_ret ret gets modify update_broadcast
       notificationQueue_add].
  rewrite Hrow. simpl.
  rewrite ?text_string, ?text_of_text.
  match goal with
  | |- context [Hls.stopHlsRelay env ext id ?w0] =>
      destruct (stopHlsRelay_returns env ext id w0) as [o Ho];
      destruct (stopHlsRelay_frame id w0) as (Hrelays & Hb & Hn & Hq & _);
      destruct (Hls.stopHlsRelay env ext id w0) as [o' w1]
  end.
  simpl in *. subst o'.
  match goal with
  | |- context [Livekit.deleteLivekitRoom env ?room w1] =>
      destruct (deleteLivekitRoom_frame room w1) as (Hret & Hb2 & Hn2 & Hr2)
  end.
  rewrite Hret. simpl. rewrite Hb2, Hn2, Hr2. done.
Qed.


End BroadcastsWorker.

Lemma hls_stop_job_clears_relay_witness :
  let w := Sample.world (Sample.fajr live (Some Sample.t0)) in
  let r := Worker.hlsStopJob Sample.env_livekit Sample.ext (Sample.t0 + Sample.minute)
             (Controller.hls_stop_job (select ["id"] "b-1" (Sample.fajr live None))) w in
  fst r = Returned tt
  /\ activeRelays (snd r) = delete "b-1" (activeRelays w)
  /\ effects (snd r) = [Kill 4242 "SIGTERM"; StopEgress "EG_1"].
Proof.
  destruct (hls_stop_job_clears_relay Sample.env_livekit Sample.ext
              (Sample.t0 + Sample.minute)
              (Controller.hls_stop_job (select ["id"] "b-1" (Sample.fajr live None)))
              (Sample.world (Sample.fajr live (Some Sample.t0))) "b-1"
              eq_refl ltac:(discriminate))
    as (Hret & Hrelays & _).
  split; [exact Hret|]. split; [exact Hrelays|]. vm_compute. reflexivity.
Defined.

Lemma auto_end_acts_on_live_only_witness :
  let w := Sample.world (Sample.fajr scheduled None) in
  Worker.autoEndJob Sample.env Sample.ext (Sample.t0 + 20 * Sample.minute)
    Sample.auto_end w
  = (Returned tt, w).
Proof.
  destruct (auto_end_acts_on_live_only Sample.env Sample.ext
              (Sample.t0 + 20 * Sample.minute) Sample.auto_end
              (Sample.world (Sample.fajr scheduled None)) "b-1"
              eq_refl ltac:(discriminate))
    as (Hret & Hw).
  cbv zeta. rewrite (surjective_pairing (Worker.autoEndJob _ _ _ _ _)).
  rewrite Hret. apply (f_equal (pair (Returned tt))). exact Hw.
Defined.

(** ** Who is served an HLS asset (controllers/broadcast.controller.js) *)

Section AssetAccess.
Variable env : Env.
Variable hmac_sha256_hex : string -> string -> string.
Variable ToNumber : string -> JsNumber.
Variable ToString : QArith_base.Q -> string.
Variable verifyAccessToken : string -> option (option string).
Variable is_uuid : string -> bool.
Variable basename : string -> string.
Variable existsSync : string -> string -> bool.

(** X17. An HLS asset is served only for a request that carries a valid
    signature for the broadcast or an access token of a user subscribed to
    the masjid of the broadcast; what is served is the file of that name,
    stripped of any directory part, that exists under the directory of the
    broadcast; and serving writes nothing. *)
Theorem asset_needs_signature_or_subscription (now : Z) (request : AssetRequest)
  (w w' : World) (asset : Asset) :
  HlsUrl.getHlsAsset env hmac_sha256_hex ToNumber ToString verifyAccessToken
    is_uuid basename existsSync now request w = (Returned asset, w') ->
  w' = w
  /\ exists id file,
       asset_id request = Some id /\ asset_file request = Some file
       /\ asset_path asset = (id, basename file)
       /\ existsSync id (basename file) = true
       /\ (HlsUrl.verifyHlsSignature env hmac_sha256_hex ToNumber ToString now id
             (query_exp request) (query_sig request) = true
           \/ exists tok actor b,
                Js.or_else (HlsUrl.bearerOf (authorization request))
                  (cookie_accessToken request) = Some tok
                /\ verifyAccessToken tok = Some (Some actor)
                /\ broadcasts w !! id = Some b
                /\ HlsUrl.isSubscribed w actor (Broadcasts.masjidId b) = true).
Proof.
  unfold HlsUrl.getHlsAsset.
  destruct (asset_id request) as [id|]; [|done].
  destruct (asset_file request) as [file|]; [|by rewrite orb_true_r].
  destruct (negb (Js.truthy (Some id)) || negb (Js.truthy (Some file))); [done|].
  change (default "" (Some id)) with id. change (default "" (Some file)) with file.
  cbv [mbind M_bind bind mret M_ret ret].
  destruct (HlsUrl.verifyHlsSignature env hmac_sha256_hex ToNumber ToString now id
              (query_exp request) (query_sig request)) eqn:Hsig; cbn [negb].
  - unfold HlsUrl.sendAsset.
    destruct (existsSync id (basename file)) eqn:Hfile; [|done].
    simpl. intros [= <- <-]. split; [done|]. exists id, file.
    repeat (split; [done|]). by left.
  - unfold HlsUrl.authorizeByToken.
    cbv [mbind M_bind bind mret M_ret ret gets throw select_broadcast].
    destruct (Js.or_else (HlsUrl.bearerOf (authorization request))
                (cookie_accessToken request)) as [tok|] eqn:Htok; [|done].
    destruct (negb (Js.truthy (Some tok))); [done|].
    change (default "" (Some tok)) with tok.
    destruct (verifyAccessToken tok) as [[actor|]|] eqn:Hverify; [|done|done].
    destruct (negb (Js.truthy (Some actor))); [done|].
    change (default "" (Some actor)) with actor.
    destruct (is_uuid id); [|done]. cbn [negb].
    destruct (broadcasts w !! id) as [b|] eqn:Hb; [|done].
    simpl. rewrite ?text_string.
    try change (default "" (Some (Broadcasts.masjidId b))) with (Broadcasts.masjidId b).
    destruct (HlsUrl.isSubscribed w actor (Broadcasts.masjidId b)) eqn:Hsub; [|done].
    unfold HlsUrl.sendAsset.
    destruct (existsSync id (basename file)) eqn:Hfile; [|done].
    simpl. intros [= <- <-]. split; [done|]. exists id, file.
    repeat (split; [done|]). right. by exists tok, actor, b.
Qed.

End AssetAccess.

Lemma asset_needs_signature_or_subscription_witness :
  let request := {| asset_id := Some "b-1"; asset_file := Some "index.m3u8";
                    query_exp := None; query_sig := None;
                    authorization := Some "Bearer token-of-u-1";
                    cookie_accessToken := None |} in
  let w := Sample.world (Sample.fajr live (Some Sample.t0)) in
  exists tok actor b,
    Js.or_else (HlsUrl.bearerOf (authorization request)) (cookie_accessToken request)
    = Some tok
    /\ SampleCrypto.verifyAccessToken tok = Some (Some actor)
    /\ broadcasts w !! "b-1" = Some b
    /\ HlsUrl.isSubscribed w actor (Broadcasts.masjidId b) = true.
Proof.
  destruct (asset_needs_signature_or_subscription Sample.env SampleCrypto.hmac
              SampleCrypto.ToNumber SampleCrypto.ToString SampleCrypto.verifyAccessToken
              SampleCrypto.is_uuid SampleCrypto.basename SampleCrypto.existsSync Sample.t0
              {| asset_id := Some "b-1"; asset_file := Some "index.m3u8";
                 query_exp := None; query_sig := None;
                 authorization := Some "Bearer token-of-u-1";
                 cookie_accessToken := None |}
              (Sample.world (Sample.fajr live (Some Sample.t0)))
              (Sample.world (Sample.fajr live (Some Sample.t0)))
              {| asset_path := ("b-1", "index.m3u8");
                 contentType := Some "application/vnd.apple.mpegurl" |}
              eq_refl)
    as (_ & id & file & Hid & _ & _ & _ & [Hsig|Htok]).
  - injection Hid as <-. vm_compute in Hsig. discriminate.
  - injection Hid as <-. exact Htok.
Defined.

(** ** Listing the broadcasts of a masjid (controllers/broadcast.controller.js) *)

#[local] Instance scheduledBefore_total : Total scheduledBefore.
Proof.
  intros x y. unfold scheduledBefore.
  destruct (Broadcasts.scheduledAt (snd x)), (Broadcasts.scheduledAt (snd y));
    try (by left); try (by right). lia.
Qed.

Section ListingFacts.
Variable Date_parse : string -> option Z.
Variable acceptsTimestamp : Z -> bool.

Lemma listedRows_spec (query : ListQuery) masjid day (w : World) :
  Sorted scheduledBefore (Listing.listedRows query masjid day w)
  /\ NoDup (fst <$> Listing.listedRows query masjid day w)
  /\ forall id b,
       (id, b) ∈ Listing.listedRows query masjid day w
       <-> broadcasts w !! id = Some b /\ Listing.filters query masjid day b = true.
Proof.
  unfold Listing.listedRows.
  set (m := filter _ (broadcasts w)).
  split; [apply (Sorted_merge_sort scheduledBefore)|]. split.
  - rewrite (merge_sort_Permutation scheduledBefore). apply NoDup_fst_map_to_list.
  - intros id b. rewrite (merge_sort_Permutation scheduledBefore).
    rewrite elem_of_map_to_list. subst m. by rewrite map_lookup_filter_Some.
Qed.

(** The [where] clause, condition by condition. *)
Lemma filters_spec (query : ListQuery) masjid day (b : Broadcasts.row) :
  Listing.filters query masjid day b = true
  <-> Broadcasts.masjidId b = masjid
      /\ (forall st, query_status query = Some st -> st <> "" ->
            status_label (Broadcasts.status b) = st)
      /\ (forall p, query_prayerName query = Some p -> p <> "" ->
            Broadcasts.prayerName b = Some p)
      /\ (forall d, day = Some d ->
            exists t, Broadcasts.scheduledAt b = Some t
                      /\ (d <= t < d + 86400000)%Z).
Proof.
  unfold Listing.filters. rewrite !andb_true_iff, String.eqb_eq.
  assert ((if Js.truthy (query_status query)
           then status_label (Broadcasts.status b) =? default "" (query_status query)
           else true) = true
          <-> forall st, query_status query = Some st -> st <> "" ->
                status_label (Broadcasts.status b) = st) as ->.
  { destruct (query_status query) as [st|]; cbn [Js.truthy default].
    - destruct (String.eqb_spec st ""); cbn [negb].
      + split; [|done]. by intros _ st' [= <-].
      + rewrite String.eqb_eq. split; [by intros -> st' [= <-]|]. intros H. by apply H.
    - split; [|done]. by intros _ st' [=]. }
  assert ((if Js.truthy (query_prayerName query)
           then bool_decide (Broadcasts.prayerName b = query_prayerName query)
           else true) = true
          <-> forall p, query_prayerName query = Some p -> p <> "" ->
                Broadcasts.prayerName b = Some p) as ->.
  { destruct (query_prayerName query) as [p|]; cbn [Js.truthy].
    - destruct (String.eqb_spec p ""); cbn [negb].
      + split; [|done]. by intros _ p' [= <-].
      + rewrite bool_decide_eq_true. split; [by intros -> p' [= <-]|].
        intros H. by apply H.
    - split; [|done]. by intros _ p' [=]. }
  assert (match day with
          | Some d => Controller.within d (d + Controller.msPerDay)
                        (Broadcasts.scheduledAt b)
          | None => true
          end = true
          <-> forall d, day = Some d ->
                exists t, Broadcasts.scheduledAt b = Some t
                          /\ (d <= t < d + 86400000)%Z) as ->.
  { destruct day as [d|].
    - unfold Controller.within, Controller.msPerDay.
      destruct (Broadcasts.scheduledAt b) as [t|].
      + rewrite andb_true_iff, Z.leb_le, Z.ltb_lt. split.
        * intros H d' [= <-]. by exists t.
        * intros H. destruct (H d eq_refl) as (t' & [= <-] & Ht). done.
      + split; [done|]. intros H. by destruct (H d eq_refl) as (t' & [=] & _).
    - split; [|done]. by intros _ d [=]. }
  tauto.
Qed.

(** X18. [listBroadcasts] answers only an admin or a subscriber of the
    masjid it is asked about and writes nothing.  Its answer holds every
    broadcast of that masjid that passes the status and prayer filters of
    the request and, when the request names a date, is scheduled within the
    24 hours from that date's midnight (UTC), and nothing else; each is
    listed once, in ascending order of [scheduledAt] with the unscheduled
    ones last.  A request that names a date is answered only when the date
    reads as one. *)
Theorem listBroadcasts_lists_the_masjid_in_order (request : ListRequest)
  (w w' : World) (items : list JsObject) :
  Listing.listBroadcasts Date_parse acceptsTimestamp request w = (Returned items, w') ->
  let query := default Listing.no_query (list_query request) in
  let day :=
    if Js.truthy (query_date query)
    then Date_parse (default "" (query_date query) ++ "T00:00:00.000Z")%string
    else None in
  w' = w
  /\ (Js.truthy (query_date query) = true -> is_Some day)
  /\ exists a masjid rows,
       list_user request = Some a
       /\ query_masjidId query = Some masjid
       /\ (Controller.isAdmin w a masjid = true \/ HlsUrl.isSubscribed w a masjid = true)
       /\ items = (fun kv => select Listing.list_fields (fst kv) (snd kv)) <$> rows
       /\ Sorted scheduledBefore rows
       /\ NoDup (fst <$> rows)
       /\ (forall id b,
             (id, b) ∈ rows
             <-> broadcasts w !! id = Some b
                 /\ Broadcasts.masjidId b = masjid
                 /\ (forall st, query_status query = Some st -> st <> "" ->
                       status_label (Broadcasts.status b) = st)
                 /\ (forall p, query_prayerName query = Some p -> p <> "" ->
                       Broadcasts.prayerName b = Some p)
                 /\ (forall d, day = Some d ->
                       exists t, Broadcasts.scheduledAt b = Some t
                                 /\ (d <= t < d + 86400000)%Z)).
Proof.
  unfold Listing.listBroadcasts, Listing.assertMasjidAccess.
  cbv [mbind M_bind bind mret M_ret ret gets throw].
  destruct (list_user request) as [a|]; [|done].
  destruct (a =? ""); [done|].
  set (query := default Listing.no_query (list_query request)).
  destruct (query_masjidId query) as [masjid|] eqn:Hmasjid; [|done].
  destruct (negb (Js.truthy (Some masjid))); [done|].
  change (default "" (Some masjid)) with masjid.
  assert (forall day,
    (Returned ((fun kv => select Listing.list_fields (fst kv) (snd kv))
                 <$> Listing.listedRows query masjid day w), w) = (Returned items, w') ->
    (Controller.isAdmin w a masjid = true \/ HlsUrl.isSubscribed w a masjid = true) ->
    w' = w
    /\ exists a0 masjid0 rows,
         Some a = Some a0 /\ Some masjid = Some masjid0
         /\ (Controller.isAdmin w a0 masjid0 = true
             \/ HlsUrl.isSubscribed w a0 masjid0 = true)
         /\ items = (fun kv => select Listing.list_fields (fst kv) (snd kv)) <$> rows
         /\ Sorted scheduledBefore rows
         /\ NoDup (fst <$> rows)
         /\ (forall id b,
               (id, b) ∈ rows
               <-> broadcasts w !! id = Some b
                   /\ Broadcasts.masjidId b = masjid0
                   /\ (forall st, query_status query = Some st -> st <> "" ->
                         status_label (Broadcasts.status b) = st)
                   /\ (forall p, query_prayerName query = Some p -> p <> "" ->
                         Broadcasts.prayerName b = Some p)
                   /\ (forall d, day = Some d ->
                         exists t, Broadcasts.scheduledAt b = Some t
                                   /\ (d <= t < d + 86400000)%Z))) as Hfinish.
  { intros day [= <- <-] Haccess. split; [done|].
    destruct (listedRows_spec query masjid day w) as (Hsorted & Hnodup & Hrows).
    exists a, masjid, (Listing.listedRows query masjid day w).
    repeat (split; [done|]).
    intros id b. rewrite Hrows. apply and_iff_compat_l.
    apply filters_spec. }
  destruct (query_date query) as [date|] eqn:Hq;
    [destruct (Js.truthy (Some date)) eqn:Htruthy;
       [change (default "" (Some date)) with date;
        destruct (Date_parse (date ++ "T00:00:00.000Z")) as [d|] eqn:Hparse|]|].
  all: destruct (Controller.isAdmin w a masjid) eqn:Hadmin;
    [|destruct (HlsUrl.isSubscribed w a masjid) eqn:Hsub]; try done.
  all: try (destruct (sendDates_spec acceptsTimestamp
                        [d; (d + Controller.msPerDay)%Z] w)
              as [[_ Hsent]|[_ [msg Hsent]]]; rewrite Hsent; [|done]).
  all: intros Hrun; cbv zeta; cbn [Js.truthy]; rewrite ?Htruthy, ?Hparse.
  all: destruct (Hfinish _ Hrun) as [Hw Hrest]; [tauto|].
  all: split; [exact Hw|]; split; [|exact Hrest]; try done.
  all: by intros _; eexists.
Qed.

End ListingFacts.

Lemma listBroadcasts_lists_the_masjid_in_order_witness :
  exists rows,
    [select Listing.list_fields "b-1" (Sample.fajr live (Some Sample.t0))]
    = (fun kv => select Listing.list_fields (fst kv) (snd kv)) <$> rows
    /\ Sorted scheduledBefore rows.
Proof.
  destruct (listBroadcasts_lists_the_masjid_in_order (fun _ => Some 1699920000000%Z)
              SampleCrypto.acceptsTimestamp
              {| list_user := Some "u-1";
                 list_query := Some {| query_masjidId := Some "m-1";
                                       query_date := Some "2023-11-14";
                                       query_status := Some "live";
                                       query_prayerName := None |} |}
              (Sample.world (Sample.fajr live (Some Sample.t0)))
              (Sample.world (Sample.fajr live (Some Sample.t0)))
              [select Listing.list_fields "b-1" (Sample.fajr live (Some Sample.t0))]
              eq_refl)
    as (_ & _ & a & masjid & rows & _ & _ & _ & Hitems & Hsorted & _).
  by exists rows.
Defined.

(** ** Starting a relay (services/hls.js, worker.js) *)

Lemma prefix_app (p s : string) : String.prefix p (p ++ s) = true.
Proof.
  induction p as [|c p IH]; [by destruct s|].
  change (String.prefix (String c p) (String c (p ++ s)) = true).
  cbn [String.prefix]. by destruct (Ascii.ascii_dec c c).
Qed.

Section Templates.
Variable broadcastId roomName : string.

Lemma replaceFrom_plain (pre rest : string) :
  plain pre = true ->
  HlsRelay.replaceFrom 0 (pre ++ rest) broadcastId roomName
  = (pre ++ HlsRelay.replaceFrom 0 rest broadcastId roomName)%string.
Proof.
  induction pre as [|c pre IH]; intros Hplain; [done|].
  simpl in Hplain. apply andb_true_iff in Hplain as [Hc Hpre].
  apply negb_true_iff in Hc.
  change (HlsRelay.replaceFrom 0 (String c pre ++ rest) broadcastId roomName)
    with (if String.prefix "{broadcastId}" (String c (pre ++ rest))
          then (broadcastId ++ HlsRelay.replaceFrom 12 (pre ++ rest) broadcastId roomName)%string
          else if String.prefix "{roomName}" (String c (pre ++ rest))
          then (roomName ++ HlsRelay.replaceFrom 9 (pre ++ rest) broadcastId roomName)%string
          else String c (HlsRelay.replaceFrom 0 (pre ++ rest) broadcastId roomName)).
  assert (forall p s, String.prefix (String "{" p) (String c s) = false) as Hno.
  { intros p s. cbn [String.prefix].
    destruct (Ascii.ascii_dec "{" c) as [<-|]; [|done].
    by rewrite Ascii.eqb_refl in Hc. }
  rewrite !Hno. by rewrite IH.
Qed.

(** X19. [applyTemplate] copies text without an opening brace unchanged and
    puts the broadcast id and the room name in the place of
    [{broadcastId}] and [{roomName}]; what it has put in is not read again
    for placeholders. *)
Theorem applyTemplate_substitutes (pre post : string) :
  plain pre = true ->
  HlsRelay.applyTemplate pre broadcastId roomName = pre
  /\ HlsRelay.applyTemplate (pre ++ "{broadcastId}" ++ post) broadcastId roomName
     = (pre ++ broadcastId ++ HlsRelay.applyTemplate post broadcastId roomName)%string
  /\ HlsRelay.applyTemplate (pre ++ "{roomName}" ++ post) broadcastId roomName
     = (pre ++ roomName ++ HlsRelay.applyTemplate post broadcastId roomName)%string.
Proof.
  intros Hplain. unfold HlsRelay.applyTemplate. split; [|split].
  - assert (forall s : string, (s ++ "")%string = s) as Hnil.
    { induction s as [|c s IH]; [done|].
      change (String c (s ++ "")%string = String c s). by rewrite IH. }
    rewrite <- (Hnil pre) at 1. rewrite replaceFrom_plain by done. simpl. apply Hnil.
  - rewrite replaceFrom_plain by done. f_equal.
    change (HlsRelay.replaceFrom 0 ("{broadcastId}" ++ post) broadcastId roomName)
      with (if String.prefix "{broadcastId}" ("{broadcastId}" ++ post)
            then (broadcastId ++ HlsRelay.replaceFrom 0 post broadcastId roomName)%string
            else if String.prefix "{roomName}" ("{broadcastId}" ++ post)
            then (roomName
                  ++ HlsRelay.replaceFrom 9 ("broadcastId}" ++ post) broadcastId roomName)%string
            else String "{" (HlsRelay.replaceFrom 0 ("broadcastId}" ++ post)
                               broadcastId roomName)).
    by rewrite prefix_app.
  - rewrite replaceFrom_plain by done. f_equal.
    change (HlsRelay.replaceFrom 0 ("{roomName}" ++ post) broadcastId roomName)
      with (if String.prefix "{broadcastId}" ("{roomName}" ++ post)
            then (broadcastId
                  ++ HlsRelay.replaceFrom 12 ("roomName}" ++ post) broadcastId roomName)%string
            else if String.prefix "{roomName}" ("{roomName}" ++ post)
            then (roomName ++ HlsRelay.replaceFrom 0 post broadcastId roomName)%string
            else String "{" (HlsRelay.replaceFrom 0 ("roomName}" ++ post)
                               broadcastId roomName)).
    rewrite prefix_app.
    change (String.prefix "{broadcastId}" ("{roomName}" ++ post)) with false.
    reflexivity.
Qed.

End Templates.

Lemma applyTemplate_substitutes_witness :
  HlsRelay.applyTemplate "rtmp://relay/live/{broadcastId}" "b-1" "broadcast-b-1"
  = "rtmp://relay/live/b-1".
Proof.
  exact (proj1 (proj2 (applyTemplate_substitutes "b-1" "broadcast-b-1"
                         "rtmp://relay/live/" "" eq_refl))).
Defined.


Section RelayStart.
Variable env : Env.
Variable hls : HlsEnv.
Variable ext : Providers.
Variable os : Platform.

(** Every way [startHlsRelay] can end. *)
Lemma startHlsRelay_cases (broadcastId roomName : string) (h : Host) :
  let r := HlsRelay.startHlsRelay env hls os broadcastId roomName h in
  (HLS_ENABLED env = false /\ r = (Returned None, h))
  \/ (HLS_ENABLED env = true
      /\ exists e calls,
           r = (Thrown e, {| host_world := host_world h;
                             host_calls := host_calls h ++ calls |})
           /\ forall c, c ∈ calls -> ~ isSpawn c)
  \/ (HLS_ENABLED env = true
      /\ exists publish egress command args calls,
           r = (Returned (Some {| info_hlsUrl := Hls.getHlsPublicUrl env broadcastId;
                                  info_egressId := egress;
                                  info_rtmpUrl := publish |}),
                {| host_world :=
                     set_activeRelays
                       (insert broadcastId
                          (relayOf broadcastId roomName egress publish
                             (spawn_pid os command args)))
                       (host_world h);
                   host_calls := host_calls h ++ calls ++ [Spawn command args] |})
           /\ fst (HlsRelay.getRtmpUrls hls broadcastId roomName) = Some publish
           /\ command = (if String.eqb (HLS_FFMPEG_MODE hls) "docker"
                         then "docker" else "ffmpeg")
           /\ (is_Some egress -> hasLivekitConfig env = true)
           /\ forall c, c ∈ calls -> ~ isSpawn c).
Proof.
  intros r. subst r. unfold HlsRelay.startHlsRelay, Hls.isHlsEnabled.
  destruct (HLS_ENABLED env); [right|left; done].
  destruct (HlsRelay.getRtmpUrls hls broadcastId roomName) as [publishUrl playUrl] eqn:Hurls.
  destruct (negb (Js.truthy publishUrl) || negb (Js.truthy playUrl)) eqn:Hcfg.
  { left. split; [done|]. exists (DriverError "HLS RTMP URL templates are not configured"), [].
    rewrite app_nil_r. split; [by destruct h|]. intros c Hc. by apply not_elem_of_nil in Hc. }
  assert (exists publish, publishUrl = Some publish) as [publish ->].
  { destruct publishUrl; [by eexists|done]. }
  unfold HlsRelay.ensureOutputDir, HlsRelay.startLivekitRtmpEgress, call, lift.
  cbv [mbind M_bind bind mret M_ret ret modify throw].
  change (default "" (Some publish)) with publish.
  cbn [host_world host_calls negb]. unfold Livekit.hasClient.
  assert (forall (P : HostCall -> Prop) c0, P c0 -> forall c, c ∈ [c0] -> P c) as Hone.
  { intros P c0 H0 c Hc. apply list_elem_of_singleton in Hc. by subst. }
  assert (forall (P : HostCall -> Prop) c0 c1, P c0 -> P c1 ->
            forall c, c ∈ [c0; c1] -> P c) as Htwo.
  { intros P c0 c1 H0 H1 c Hc. apply elem_of_cons in Hc as [->|Hc]; [done|].
    apply list_elem_of_singleton in Hc. by subst. }
  destruct (mkdir_fails os _).
  { left. split; [done|]. eexists _, [_]. split; [reflexivity|].
    apply Hone. simpl. tauto. }
  destruct (hasLivekitConfig env) eqn:Hclient; cbn [negb].
  - destruct (startEgress_result os roomName _) as [egress|] eqn:Hegress.
    + right. split; [done|].
      cbn [host_world host_calls egressId rtmpUrl mbind option_bind id].
      rewrite <- ?app_assoc.
      eexists publish, egress, _, _, [_; _]. split; [reflexivity|].
      split; [done|]. split; [done|]. split; [done|].
      apply Htwo; simpl; tauto.
    + left. split; [done|].
      cbn [host_world host_calls]. rewrite <- ?app_assoc.
      eexists _, [_; _]. split; [reflexivity|]. apply Htwo; simpl; tauto.
  - right. split; [done|].
    cbn [host_world host_calls egressId rtmpUrl mbind option_bind id].
    rewrite <- ?app_assoc.
    eexists publish, None, _, _, [_]. split; [reflexivity|].
    split; [done|]. split; [done|]. split; [by intros [? ?]|].
    apply Hone. simpl. tauto.
Qed.

(** X20. [startHlsRelay] files a relay exactly when it has spawned a
    transcoder: if it returns relay information, the table maps the
    broadcast to the process it just spawned, with the egress id and publish
    URL it returns; if it returns [null] or throws, nothing was spawned and
    the world is as before.  In no case does it signal a process, stop an
    egress, or touch the store, the queues or another broadcast's entry. *)
Theorem relay_is_filed_iff_spawned (broadcastId roomName : string) (h : Host) :
  let r := HlsRelay.startHlsRelay env hls os broadcastId roomName h in
  (exists added,
     host_calls (snd r) = host_calls h ++ added
     /\ ((exists info command args relay,
            fst r = Returned (Some info)
            /\ Spawn command args ∈ added
            /\ activeRelays (host_world (snd r)) !! broadcastId = Some relay
            /\ process relay = Some {| pid := spawn_pid os command args |}
            /\ egressId relay = info_egressId info
            /\ rtmpUrl relay = info_rtmpUrl info
            /\ info_hlsUrl info = Hls.getHlsPublicUrl env broadcastId)
         \/ ((forall info, fst r <> Returned (Some info))
             /\ (forall c, c ∈ added -> ~ isSpawn c)
             /\ host_world (snd r) = host_world h)))
  /\ broadcasts (host_world (snd r)) = broadcasts (host_world h)
  /\ effects (host_world (snd r)) = effects (host_world h)
  /\ notificationQueue (host_world (snd r)) = notificationQueue (host_world h)
  /\ broadcastQueue (host_world (snd r)) = broadcastQueue (host_world h)
  /\ forall k, k <> broadcastId ->
       activeRelays (host_world (snd r)) !! k = activeRelays (host_world h) !! k.
Proof.
  intros r.
  destruct (startHlsRelay_cases broadcastId roomName h)
    as [[_ Hr]|[(_ & e & calls & Hr & Hcalls)
               |(_ & publish & egress & command & args & calls & Hr & _ & _ & _ & Hcalls)]];
    fold r in Hr; rewrite Hr; cbn [fst snd host_world host_calls].
  - split; [|done]. exists []. rewrite app_nil_r. split; [done|]. right.
    split; [done|]. split; [|done]. intros c Hc. by apply not_elem_of_nil in Hc.
  - split; [|done]. exists calls. split; [done|]. right. done.
  - split.
    + exists (calls ++ [Spawn command args]). split; [done|]. left.
      eexists _, command, args, _. split; [reflexivity|].
      split; [apply elem_of_app; right; by left|].
      split; [apply lookup_insert_eq|]. done.
    + repeat (split; [done|]). intros k Hk. simpl. by rewrite lookup_insert_ne.
Qed.

(** X21. A relay that was started is taken down by [stopHlsRelay]: the call
    returns [true], the table is as it was before the start without an
    entry for the broadcast, the spawned process (when the spawn gave a
    pid) is sent SIGTERM and the egress that was started is asked to stop.
    If the transcoder exits first, its exit handler has removed the entry
    and [stopHlsRelay] finds nothing to do. *)
Theorem relay_started_is_taken_down (broadcastId roomName : string) (h h1 : Host)
  (info : RelayInfo) :
  HlsRelay.startHlsRelay env hls os broadcastId roomName h = (Returned (Some info), h1) ->
  let stopped := Hls.stopHlsRelay env ext broadcastId (host_world h1) in
  let exited := snd (HlsRelay.ffmpegExited broadcastId (host_world h1)) in
  fst stopped = Returned (Some true)
  /\ activeRelays (snd stopped) = delete broadcastId (activeRelays (host_world h))
  /\ (exists command args,
        Spawn command args ∈ host_calls h1
        /\ forall p, spawn_pid os command args = Some p -> p <> 0%Z ->
             Kill p "SIGTERM" ∈ effects (snd stopped))
  /\ (forall egress, info_egressId info = Some egress -> egress <> "" ->
        StopEgress egress ∈ effects (snd stopped))
  /\ Hls.stopHlsRelay env ext broadcastId exited = (Returned None, exited).
Proof.
  intros Hstart stopped exited.
  destruct (startHlsRelay_cases broadcastId roomName h)
    as [[_ Hr]|[(_ & e & calls & Hr & Hcalls)
               |(_ & publish & egress & command & args & calls & Hr & _ & _ & Hcfg & Hcalls)]];
    cbv zeta in Hr; rewrite Hr in Hstart; try done.
  injection Hstart as <- <-. subst stopped exited. cbn [host_world host_calls info_egressId].
  set (m := activeRelays (host_world h)).
  set (w1 := set_activeRelays _ (host_world h)).
  assert (activeRelays w1 !! broadcastId
          = Some (relayOf broadcastId roomName egress publish (spawn_pid os command args)))
    as Hentry by apply lookup_insert_eq.
  split; [|split; [|split; [|split]]].
  - unfold Hls.stopHlsRelay. cbv [mbind M_bind bind gets]. rewrite Hentry.
    cbv [try_catch when_ modify mret M_ret ret].
    by destruct (Js.truthy _).
  - destruct (stopHlsRelay_frame env ext broadcastId w1) as (Hrel & _).
    rewrite Hrel. subst w1. simpl. apply delete_insert_eq.
  - exists command, args. split; [apply elem_of_app; right; apply elem_of_app; right; by left|].
    intros p Hp Hne. unfold Hls.stopHlsRelay. run. rewrite Hentry.
    cbn [process relayOf mbind option_bind pid]. rewrite Hp.
    apply Z.eqb_neq in Hne. rewrite Hne.
    repeat (case_match; simpl; simplify_eq).
    all: cbn [effects set_effects set_activeRelays].
    all: rewrite ?elem_of_app; rewrite ?list_elem_of_singleton; tauto.
  - intros eg -> Hne. apply truthy_Some in Hne.
    unfold Hls.stopHlsRelay. run. rewrite Hentry.
    cbn [egressId relayOf]. rewrite Hne. unfold Livekit.hasClient.
    rewrite (Hcfg (mk_is_Some _ _ eq_refl)). cbn [negb orb].
    change (default "" (Some eg)) with eg.
    repeat (case_match; simpl; simplify_eq).
    all: cbn [effects set_effects set_activeRelays].
    all: rewrite ?elem_of_app; rewrite ?list_elem_of_singleton; tauto.
  - apply stopHlsRelay_absent. simpl. apply lookup_delete_eq.
Qed.

(** X22. The [hls-start] job catches whatever [startHlsRelay] throws, and
    throws itself only when the transcoder it spawned could not be started:
    the [error] event of that child, which nothing listens for, ends the
    worker.  It rewrites no row but that of its broadcast, and that one only
    after a relay was filed and a public base URL is configured: the row
    then carries the public playlist URL and the egress id and publish URL
    of the relay in the table.  It queues nothing and sends no signal. *)
Theorem hls_start_job_row_agrees_with_table (now : Z) (job : Job) (h : Host) :
  let r := HlsRelay.hlsStartJob env hls os now job h in
  (exists added,
     host_calls (snd r) = host_calls h ++ added
     /\ ((fst r = Returned tt
          /\ forall command args,
               Spawn command args ∈ added -> is_Some (spawn_pid os command args))
         \/ (fst r = Thrown (DriverError "spawn")
             /\ exists command args,
                  Spawn command args ∈ added /\ spawn_pid os command args = None)))
  /\ (forall id b,
        broadcasts (host_world h) !! id = Some b ->
        broadcasts (host_world (snd r)) !! id = Some b
        \/ (jd_broadcastId (data job) = Some id
            /\ exists relay url,
                 activeRelays (host_world (snd r)) !! id = Some relay
                 /\ Hls.getHlsPublicUrl env id = Some url
                 /\ broadcasts (host_world (snd r)) !! id
                    = Some (set_hls now (Some url) (egressId relay)
                              (Some (rtmpUrl relay)) b)))
  /\ (forall id, broadcasts (host_world h) !! id = None ->
        broadcasts (host_world (snd r)) !! id = None)
  /\ notificationQueue (host_world (snd r)) = notificationQueue (host_world h)
  /\ broadcastQueue (host_world (snd r)) = broadcastQueue (host_world h)
  /\ effects (host_world (snd r)) = effects (host_world h).
Proof.
  intros r. subst r. unfold HlsRelay.hlsStartJob.
  assert (forall c, c ∈ @nil HostCall -> ~ isSpawn c) as Hnil
    by (intros c Hc; by apply not_elem_of_nil in Hc).
  assert (forall (o : Outcome unit) (h' : Host) calls,
            o = Returned tt -> h' = {| host_world := host_world h;
                                       host_calls := host_calls h ++ calls |} ->
            (forall c, c ∈ calls -> ~ isSpawn c) ->
            (exists added,
               host_calls h' = host_calls h ++ added
               /\ ((o = Returned tt
                    /\ forall command args,
                         Spawn command args ∈ added ->
                         is_Some (spawn_pid os command args))
                   \/ (o = Thrown (DriverError "spawn")
                       /\ exists command args,
                            Spawn command args ∈ added
                            /\ spawn_pid os command args = None)))
            /\ (forall id b,
                  broadcasts (host_world h) !! id = Some b ->
                  broadcasts (host_world h') !! id = Some b
                  \/ (jd_broadcastId (data job) = Some id
                      /\ exists relay url,
                           activeRelays (host_world h') !! id = Some relay
                           /\ Hls.getHlsPublicUrl env id = Some url
                           /\ broadcasts (host_world h') !! id
                              = Some (set_hls now (Some url) (egressId relay)
                                        (Some (rtmpUrl relay)) b)))
            /\ (forall id, broadcasts (host_world h) !! id = None ->
                  broadcasts (host_world h') !! id = None)
            /\ notificationQueue (host_world h') = notificationQueue (host_world h)
            /\ broadcastQueue (host_world h') = broadcastQueue (host_world h)
            /\ effects (host_world h') = effects (host_world h)) as Hquiet.
  { intros o h' calls -> -> Hcalls. cbn [host_world host_calls]. split.
    - exists calls. split; [done|]. left. split; [done|].
      intros command args Hin. by destruct (Hcalls _ Hin).
    - split; [by left|]. done. }
  destruct (negb (Js.truthy (jd_broadcastId (data job)))
            || negb (Js.truthy (jd_roomName (data job)))) eqn:Hdata.
  { apply (Hquiet _ _ []); [done| |done]. rewrite app_nil_r. by destruct h. }
  destruct (jd_broadcastId (data job)) as [broadcastId|]; [|done].
  destruct (jd_roomName (data job)) as [roomName|]; [|by rewrite orb_true_r in Hdata].
  change (default "" (Some broadcastId)) with broadcastId.
  change (default "" (Some roomName)) with roomName.
  unfold HlsRelay.settled, HlsRelay.spawnFailed, lift, try_catch.
  cbv [mbind M_bind bind mret M_ret ret gets throw].
  destruct (startHlsRelay_cases broadcastId roomName h)
    as [[_ Hr]|[(_ & e & calls & Hr & Hcalls)
               |(_ & publish & egress & command & args & calls & Hr & _ & _ & _ & Hcalls)]];
    cbv zeta in Hr; rewrite Hr; cbn [fst snd].
  - apply (Hquiet _ _ []); [done| |done]. rewrite app_nil_r. by destruct h.
  - by apply (Hquiet _ _ calls).
  - cbn [host_world host_calls activeRelays set_activeRelays].
    rewrite lookup_insert_eq.
    cbn [mbind option_bind process relayOf pid info_hlsUrl info_egressId info_rtmpUrl].
    assert (forall c a, Spawn c a ∈ calls ++ [Spawn command args] ->
                        c = command /\ a = args) as Honly.
    { intros c a [Hin|Hin]%elem_of_app.
      - by destruct (Hcalls _ Hin).
      - apply list_elem_of_singleton in Hin. by injection Hin. }
    assert (Spawn command args ∈ calls ++ [Spawn command args]) as Hspawn
      by (apply elem_of_app; right; by left).
    destruct (spawn_pid os command args) as [p|] eqn:Hpid.
    2:{ rewrite bool_decide_eq_true_2 by done.
        cbn [fst snd host_world host_calls broadcasts set_activeRelays].
        split; [|split; [by left|done]].
        exists (calls ++ [Spawn command args]). split; [done|]. right.
        split; [done|]. by exists command, args. }
    rewrite bool_decide_eq_false_2 by done.
    assert (forall c a, Spawn c a ∈ calls ++ [Spawn command args] ->
                        is_Some (spawn_pid os c a)) as Hstarted.
    { intros c a [-> ->]%Honly. by rewrite Hpid. }
    destruct (Hls.getHlsPublicUrl env broadcastId) as [url|] eqn:Hurl.
    2:{ cbn [Js.truthy fst snd host_world host_calls broadcasts set_activeRelays].
        split; [|split; [by left|done]].
        exists (calls ++ [Spawn command args]). split; [done|]. by left. }
    destruct (Js.truthy (Some url)).
    2:{ cbn [fst snd host_world host_calls broadcasts set_activeRelays].
        split; [|split; [by left|done]].
        exists (calls ++ [Spawn command args]). split; [done|]. by left. }
    unfold update_broadcast.
    cbv [mbind M_bind bind mret M_ret ret gets modify].
    cbn [host_world host_calls broadcasts set_activeRelays].
    destruct (broadcasts (host_world h) !! broadcastId) as [b0|] eqn:Hrow;
      cbn [fst snd host_world host_calls broadcasts set_activeRelays set_broadcasts
           activeRelays notificationQueue broadcastQueue effects].
    + split; [|split; [|split; [|done]]].
      * exists (calls ++ [Spawn command args]). split; [done|]. by left.
      * intros id b Hb. destruct (decide (id = broadcastId)) as [->|Hne].
        -- right. split; [done|].
           exists (relayOf broadcastId roomName egress publish (Some p)), url.
           rewrite !lookup_insert_eq. split; [done|]. split; [done|].
           rewrite Hrow in Hb. by injection Hb as ->.
        -- left. by rewrite lookup_insert_ne.
      * intros id Hnone. rewrite lookup_insert_ne; [done|]. intros ->. congruence.
    + split; [|split; [by left|done]].
      exists (calls ++ [Spawn command args]). split; [done|]. by left.
Qed.

End RelayStart.

(** A transcoder that cannot be spawned ends the worker: the job throws. *)
Lemma hls_start_job_failed_spawn :
  let os := {| path_resolve := SampleRelay.joined;
               path_join := SampleRelay.joined;
               path_posix_join := SampleRelay.joined;
               mkdir_fails := fun _ => false;
               startEgress_result := fun _ _ => EgressStarted (Some "EG_2");
               spawn_pid := fun _ _ => None |} in
  let job := {| name := "hls-start";
                data := {| jd_broadcastId := Some "b-1"; jd_masjidId := None;
                           jd_prayerName := None; jd_endedReason := None;
                           jd_roomName := Some "broadcast-b-1" |};
                delay := None; jobId := None |} in
  let h := {| host_world := Sample.world (Sample.fajr live (Some Sample.t0));
              host_calls := [] |} in
  let r := HlsRelay.hlsStartJob Sample.env_livekit SampleRelay.hls os
             (Sample.t0 + Sample.minute) job h in
  fst r = Thrown (DriverError "spawn").
Proof. vm_compute. reflexivity. Qed.

Lemma relay_started_is_taken_down_witness :
  let started := HlsRelay.startHlsRelay Sample.env_livekit SampleRelay.hls SampleRelay.os
                   "b-1" "broadcast-b-1" SampleRelay.host in
  let stopped := Hls.stopHlsRelay Sample.env_livekit Sample.ext "b-1"
                   (host_world (snd started)) in
  (info_rtmpUrl <$> match fst started with Returned info => info | Thrown _ => None end)
  = Some "rtmp://relay/live/b-1"
  /\ fst stopped = Returned (Some true)
  /\ activeRelays (snd stopped) = ∅
  /\ Kill 777 "SIGTERM" ∈ effects (snd stopped)
  /\ StopEgress "EG_2" ∈ effects (snd stopped).
Proof.
  cbv zeta.
  destruct (HlsRelay.startHlsRelay Sample.env_livekit SampleRelay.hls SampleRelay.os
              "b-1" "broadcast-b-1" SampleRelay.host) as [[[info|]|e] h1] eqn:Hstart;
    try (vm_compute in Hstart; discriminate).
  destruct (relay_started_is_taken_down Sample.env_livekit SampleRelay.hls Sample.ext
              SampleRelay.os "b-1" "broadcast-b-1" SampleRelay.host h1 info Hstart)
    as (Hret & Htable & (command & args & _ & Hkill) & Hstop & _).
  assert (info_egressId info = Some "EG_2" /\ info_rtmpUrl info = "rtmp://relay/live/b-1")
    as [Hegress Hrtmp].
  { vm_compute in Hstart. by injection Hstart as <- <-. }
  cbn [fst snd]. split; [by rewrite <- Hrtmp|]. split; [exact Hret|].
  split; [rewrite Htable; apply delete_empty|].
  split; [by apply Hkill|by apply Hstop].
Defined.

(** ** What a push carries (worker.js) *)

Section Payloads.
Variable env : Env.
Variable ext : Providers.

Lemma fanout_payloads now ev broadcastId masjid prayer (rec : JsObject) results :
  forall logs trace,
  exists T,
    snd (Worker.fanout env ext now ev broadcastId masjid prayer rec results logs trace)
    = trace ++ T
    /\ forall p, p ∈ T ->
         exists s d, (s, d) ∈ results
           /\ Worker.skipped now prayer s = false
           /\ push_user p = Subscriptions.userId s
           /\ push_device p = UserDevices.id d
           /\ push_data p
              = Worker.payloadFor env ext ev broadcastId masjid prayer rec
                  (Subscriptions.userId s).
Proof.
  induction results as [|[s d] rest IH]; intros logs trace.
  - exists []. rewrite app_nil_r. split; [done|].
    intros p Hp. by apply not_elem_of_nil in Hp.
  - cbn [Worker.fanout].
    destruct (Worker.skipped now prayer s) eqn:Hskip.
    + destruct (IH logs trace) as (T & Hrun & HT). exists T. split; [done|].
      intros p Hp. destruct (HT p Hp) as (s' & d' & Hin & H). exists s', d'.
      split; [by right|done].
    + set (payload := Worker.payloadFor env ext ev broadcastId masjid prayer rec
                        (Subscriptions.userId s)).
      destruct (send_spec ext d payload (Subscriptions.userId s) (UserDevices.id d) trace)
        as (T0 & Hsend & HT0 & _).
      destruct (match UserDevices.platform_ d with
                | ios => Worker.sendVoipPush ext (UserDevices.voipToken d) payload
                           (Subscriptions.userId s) (UserDevices.id d) trace
                | _ => Worker.sendFcmData ext (UserDevices.fcmToken d) payload
                         (Subscriptions.userId s) (UserDevices.id d) trace
                end) as [result trace1] eqn:Hcall.
      cbn [snd] in Hsend. subst trace1.
      match goal with
      | |- context [Worker.fanout _ _ _ _ _ _ _ _ _ ?l _] =>
          destruct (IH l (trace ++ T0)) as (T & Hrun & HT)
      end.
      exists (T0 ++ T). rewrite Hrun, app_assoc. split; [done|].
      intros p [Hp|Hp]%elem_of_app.
      * destruct (HT0 p Hp) as (Hu & Hd & Hdata). exists s, d.
        split; [by left|]. done.
      * destruct (HT p Hp) as (s' & d' & Hin & H). exists s', d'.
        split; [by right|done].
Qed.

(** X23. A push never carries a publish grant, and carries a token only
    when it has to: every push of a run is addressed to its broadcast; a
    push for a [broadcast-end] job has the action [END] and no token; any
    other push has the action [GO_LIVE] and either no token, or, when the
    broadcast has a room and no HLS location, the listener token minted for
    the recipient and that room. *)
Theorem pushed_tokens_are_listener_tokens (now : Z) (job : Job) (w : World) :
  exists rows pushes,
    fanoutAdded w (snd (Worker.notificationsWorker env ext now job w)) rows pushes
    /\ forall p, p ∈ pushes ->
         p_broadcastId (push_data p) = default "" (jd_broadcastId (data job))
         /\ (if String.eqb (name job) "broadcast-end"
             then action (push_data p) = "END" /\ token (push_data p) = ""
             else action (push_data p) = "GO_LIVE"
                  /\ (token (push_data p) = ""
                      \/ (streamUrl (push_data p) = ""
                          /\ roomName (push_data p) <> ""
                          /\ token (push_data p)
                             = toJwt ext (push_user p) (roomName (push_data p)) false))).
Proof.
  unfold Worker.notificationsWorker.
  destruct (negb (Js.truthy (jd_broadcastId (data job)))
            || negb (Js.truthy (jd_masjidId (data job)))).
  { exists [], []. split; [split; simpl; by rewrite app_nil_r|].
    intros p Hp. by apply not_elem_of_nil in Hp. }
  cbv [mbind M_bind bind mret M_ret ret gets modify when_ select_broadcast].
  destruct (broadcasts w !! default "" (jd_broadcastId (data job))) as [b|].
  2:{ exists [], []. split; [split; simpl; by rewrite app_nil_r|].
      intros p Hp. by apply not_elem_of_nil in Hp. }
  cbn [fmap option_fmap option_map].
  set (rec := select _ _ b).
  destruct (fanout_payloads now (Worker.eventTypeOf job)
              (default "" (jd_broadcastId (data job)))
              (default "" (jd_masjidId (data job))) (jd_prayerName (data job)) rec
              (Worker.recipients w (default "" (jd_masjidId (data job)))) [] [])
    as (T & Hrun & HT).
  destruct (Worker.fanout env ext now (Worker.eventTypeOf job) _ _ _ rec _ [] [])
    as [L T'] eqn:Hfan.
  cbn [snd app] in Hrun. subst T'.
  exists L, T. split.
  { unfold fanoutAdded. case_bool_decide as Hnil; simpl; [|done].
    subst L. by rewrite app_nil_r. }
  intros p Hp. destruct (HT p Hp) as (s & d & _ & _ & Hu & _ & Hdata).
  rewrite Hdata, Hu. unfold Worker.payloadFor, Worker.eventTypeOf.
  cbn [p_broadcastId action token streamUrl roomName]. split; [done|].
  destruct (name job =? "broadcast-end"); [done|].
  split; [done|].
  destruct (Js.truthy (text (prop rec "streamRoomId"))
            && negb (Js.truthy (Js.coalesce (text (prop rec "hlsUrl"))
                                  (if Hls.isHlsEnabled env
                                   then Hls.getHlsPublicUrl env
                                          (default "" (jd_broadcastId (data job)))
                                   else None)))) eqn:Hcond; [|by left].
  apply andb_true_iff in Hcond as [Hroom Hhls]. apply negb_true_iff in Hhls.
  unfold Livekit.createLivekitToken.
  destruct (negb (hasLivekitConfig env)); [by left|]. right.
  destruct (text (prop rec "streamRoomId")) as [room|]; [|done].
  apply truthy_Some in Hroom.
  split; [|done].
  destruct (Js.coalesce _ _) as [url|]; [|done].
  simpl in Hhls. apply negb_false_iff, String.eqb_eq in Hhls. by subst.
Qed.

(** X24. Only subscribers are notified, and only on their active devices:
    every log row and every push of a run belongs to a subscription of the
    masjid named in the job that is not muted for this event and to an
    active device registered to the same user. *)
Theorem only_subscribers_active_devices_are_notified (now : Z) (job : Job) (w : World) :
  exists rows pushes,
    fanoutAdded w (snd (Worker.notificationsWorker env ext now job w)) rows pushes
    /\ (forall row, row ∈ rows ->
          exists s d,
            s ∈ subscriptions w /\ d ∈ userDevices w
            /\ Subscriptions.masjidId s = default "" (jd_masjidId (data job))
            /\ Worker.skipped now (jd_prayerName (data job)) s = false
            /\ UserDevices.userId d = Subscriptions.userId s
            /\ UserDevices.isActive d = true
            /\ NotificationLogs.userId row = Subscriptions.userId s
            /\ NotificationLogs.deviceId row = UserDevices.id d)
    /\ (forall p, p ∈ pushes ->
          exists s d,
            s ∈ subscriptions w /\ d ∈ userDevices w
            /\ Subscriptions.masjidId s = default "" (jd_masjidId (data job))
            /\ Worker.skipped now (jd_prayerName (data job)) s = false
            /\ UserDevices.userId d = Subscriptions.userId s
            /\ UserDevices.isActive d = true
            /\ push_user p = Subscriptions.userId s
            /\ push_device p = UserDevices.id d).
Proof.
  destruct (notificationsWorker_spec env ext now job w)
    as (L & T & _ & Hadded & Hrows & Hpushes & _).
  exists L, T. split; [done|]. split.
  - intros row Hrow.
    destruct (Hrows row Hrow) as (_ & s & d & Hin & Hskip & Hu & Hd).
    apply elem_of_recipients in Hin as (Hs & Hm & Hdev & Huser & Hactive).
    by exists s, d.
  - intros p Hp.
    destruct (Hpushes p Hp) as (_ & s & d & Hin & Hskip & Hu & Hd).
    apply elem_of_recipients in Hin as (Hs & Hm & Hdev & Huser & Hactive).
    by exists s, d.
Qed.

End Payloads.


(** ** What the expander writes (scheduler.js) *)

Section ExpanderRows.
Variable toISODate : string -> Z -> Z -> option string.
Variable fromISO : string -> string -> option Z.

Lemma ensureSchedule_row now template offset (w : World) :
  let w' := snd (Scheduler.ensureSchedule toISODate fromISO now template offset w) in
  w' = w
  \/ exists row,
       w' = set_schedules (fun rows => rows ++ [row]) w
       /\ fromTemplate toISODate fromISO now template offset row
       /\ Scheduler.existingSchedule w (Schedules.masjidId row) (Some (Schedules.date row))
            (Schedules.prayerName row) = false.
Proof.
  unfold Scheduler.ensureSchedule, Scheduler.insert_schedule, fromTemplate.
  destruct template as [t zone0]. cbn [fst].
  set (zone := Scheduler.zoneOf (t, zone0)).
  cbv [mbind M_bind bind mret M_ret ret gets modify throw].
  destruct (toISODate zone now offset) as [d|] eqn:Hdate.
  - destruct (Scheduler.existingSchedule w (ScheduleTemplates.masjidId t) (Some d)
                (ScheduleTemplates.prayerName t)) eqn:Hexisting; [by left|].
    change (default "null" (Some d)) with d.
    destruct (fromISO (d ++ "T" ++ ScheduleTemplates.adhanTimeLocal t) zone)
      as [adhan|] eqn:Hadhan; [|by left].
    destruct (Scheduler.utcOrNull fromISO d zone (ScheduleTemplates.iqamahTimeLocal t))
      as [[i|]|]; try (by left).
    all: destruct (Scheduler.utcOrNull fromISO d zone (ScheduleTemplates.khutbahTimeLocal t))
      as [[k|]|]; try (by left).
    all: unfold Scheduler.existingSchedule in Hexisting; rewrite Hexisting.
    all: right; eexists; split; [reflexivity|]; split; [|exact Hexisting].
    all: by exists d, adhan.
  - cbn [Scheduler.existingSchedule].
    destruct (fromISO _ zone); [|by left].
    simpl. by left.
Qed.

(** X25. The expander only appends occurrence rows, and every row it
    appends is the one a template of the store yields for today or
    tomorrow in the time zone of its masjid: masjid, prayer and local time
    are the template's, the date is that local day, [adhanAtUtc] is that
    local time on that day, and [isJuma] falls back to whether the prayer is
    named Juma.  No row is appended for a key that already had one. *)
Theorem expander_rows_come_from_templates (now : Z) (w : World) :
  exists added,
    snd (Scheduler.ensureDailySchedulesFromTemplates toISODate fromISO now w)
    = set_schedules (fun rows => rows ++ added) w
    /\ forall row, row ∈ added ->
         (exists template offset,
            template ∈ Scheduler.templatesWithZone w
            /\ offset ∈ [0%Z; 1%Z]
            /\ fromTemplate toISODate fromISO now template offset row)
         /\ Scheduler.existingSchedule w (Schedules.masjidId row)
              (Some (Schedules.date row)) (Schedules.prayerName row) = false.
Proof.
  rewrite ensureDaily_flat.
  set (items := _ ≫= _).
  assert (forall item, item ∈ items ->
            fst item ∈ Scheduler.templatesWithZone w /\ snd item ∈ [0%Z; 1%Z]) as Hitems.
  { intros item Hin. subst items.
    apply list_elem_of_bind in Hin as (template & Hin & Htemplate).
    apply list_elem_of_fmap in Hin as (offset & -> & Hoffset). done. }
  apply (for_each_keeps _ (fun w1 =>
    exists added,
      w1 = set_schedules (fun rows => rows ++ added) w
      /\ forall row, row ∈ added ->
           (exists template offset,
              template ∈ Scheduler.templatesWithZone w
              /\ offset ∈ [0%Z; 1%Z]
              /\ fromTemplate toISODate fromISO now template offset row)
           /\ Scheduler.existingSchedule w (Schedules.masjidId row)
                (Some (Schedules.date row)) (Schedules.prayerName row) = false)).
  - intros item w1 Hin (added & -> & Hadded).
    destruct (Hitems item Hin) as [Htemplate Hoffset].
    destruct (ensureSchedule_row now (fst item) (snd item)
                (set_schedules (fun rows => rows ++ added) w))
      as [->|(row & -> & Hrow & Hfresh)].
    + by exists added.
    + exists (added ++ [row]). split.
      * destruct w. unfold set_schedules. simpl. by rewrite app_assoc.
      * intros row' [Hin'|Heq%list_elem_of_singleton]%elem_of_app; [by apply Hadded|].
        subst row'. split; [by exists (fst item), (snd item)|].
        unfold Scheduler.existingSchedule in *. simpl in Hfresh.
        rewrite existsb_app in Hfresh. by apply orb_false_iff in Hfresh as [? _].
  - exists []. split; [destruct w; unfold set_schedules; simpl; by rewrite app_nil_r|].
    intros row Hrow. by apply not_elem_of_nil in Hrow.
Qed.

End ExpanderRows.
